(** * Meal planner: the storage module and the views derived from it

    A shallow embedding of the browser-side persistence layer (favorites,
    meal plan, shopping list, preferences, recent searches), of the
    shopping-list generator, of the weekly nutrition aggregation and its
    chart, of the preferences form, of the favorite buttons and of the
    cache of API responses, followed by the properties the specification
    states about them and by further properties read off the code.

    Conventions of the model.
    - A JavaScript string is a [string]; its characters are code units
      below 256, which is where [toLowerCase] and [trim] are described.
    - A recipe identifier and a clock reading are integers ([Z]); an
      ingredient amount or a nutrient amount is a number with exact
      arithmetic ([Q]); a value produced by [Math.round] is a [Z].
    - A plain object whose keys matter (a meal plan, a day of it, the
      [Map] of the generator) is the list of its own properties in
      enumeration order.
    - [localStorage] holds one optional value per storage key and
      [localStorage.setItem] always succeeds; [JSON.stringify] followed by
      [JSON.parse] is the identity on the stored data, so the stored value
      is kept as data and not as text.
    - [Date.now()] reads a clock the program does not control.
    - The scripts are classic, non-strict scripts and run in a realm whose
      builtin objects are intact; a property read on a plain object falls
      back to [Object.prototype]. The program itself can assign to a
      builtin object (through a day name that the plan inherits); such an
      assignment is logged in the world, and a call is described by the
      model when the log is empty at its start.
    - The numbers of the program are doubles. Integers are exact below
      2^53. Where amounts are added, the statements name the additions in
      the order the code performs them, or give bounds that hold of the
      doubles as well; no law of exact addition is used to regroup a
      sum. *)

From Stdlib Require Import List String Ascii Bool ZArith NArith QArith Qround Lia Lqa.
From Equations Require Import Equations.
Import ListNotations.

Local Open Scope string_scope.
Local Open Scope list_scope.

(* ===================================================================== *)
(** ** Plain JavaScript objects *)
(* ===================================================================== *)

Module JSObject.

(** Own enumerable properties, in the order [Object.keys] lists them. *)
Definition obj (V : Type) : Type := list (string * V).

Fixpoint own_get {V} (k : string) (o : obj V) : option V :=
  match o with
  | [] => None
  | (k', v) :: o' => if (k' =? k)%string then Some v else own_get k o'
  end.

Definition has_own {V} (k : string) (o : obj V) : bool :=
  match own_get k o with Some _ => true | None => false end.

Definition Object_keys {V} (o : obj V) : list string := map fst o.
Definition Object_values {V} (o : obj V) : list V := map snd o.

(** An array index is a canonical numeric string below 2^32 - 1: such
    keys are enumerated first, in ascending order, whatever the order of
    creation. *)
Definition digit_of (c : ascii) : option N :=
  let n := N_of_ascii c in
  if ((48 <=? n) && (n <=? 57))%N then Some (n - 48)%N else None.

Fixpoint digits_value (s : string) (acc : N) : option N :=
  match s with
  | EmptyString => Some acc
  | String c s' =>
      match digit_of c with
      | Some d => digits_value s' (10 * acc + d)%N
      | None => None
      end
  end.

Definition array_index (k : string) : option N :=
  match k with
  | EmptyString => None
  | String c EmptyString => digit_of c
  | String c _ =>
      if (c =? "0")%char then None
      else match digits_value k 0%N with
           | Some n => if (n <? 4294967295)%N then Some n else None
           | None => None
           end
  end.

Fixpoint insert_index {V} (n : N) (k : string) (v : V) (o : obj V) : obj V :=
  match o with
  | [] => [(k, v)]
  | (k', v') :: o' =>
      match array_index k' with
      | Some n' =>
          if (n' <? n)%N then (k', v') :: insert_index n k v o'
          else (k, v) :: o
      | None => (k, v) :: o
      end
  end.

(** A new own property: an array index goes to its numeric place, any
    other key to the end. *)
Definition define_own {V} (k : string) (v : V) (o : obj V) : obj V :=
  match array_index k with
  | Some n => insert_index n k v o
  | None => o ++ [(k, v)]
  end.

(** An existing own property keeps its place. *)
Fixpoint update_own {V} (k : string) (v : V) (o : obj V) : obj V :=
  match o with
  | [] => []
  | (k', v') :: o' =>
      if (k' =? k)%string then (k', v) :: o'
      else (k', v') :: update_own k v o'
  end.

(** The names every plain object inherits from [Object.prototype] as
    long as the program has not assigned to a builtin object. A read
    [o[k]] that finds no own property [k] walks to the prototype: for
    these names it yields a function, or for [__proto__] the prototype
    object itself, and in both cases a truthy value. *)
Definition Object_prototype_names : list string :=
  [ "constructor"; "__defineGetter__"; "__defineSetter__"; "hasOwnProperty";
    "__lookupGetter__"; "__lookupSetter__"; "isPrototypeOf";
    "propertyIsEnumerable"; "toString"; "valueOf"; "__proto__";
    "toLocaleString" ].

Definition inherited (k : string) : bool :=
  existsb (fun n => (n =? k)%string) Object_prototype_names.

(** The outcome of the read [o[k]] on a plain object. *)
Inductive lookup (V : Type) : Type :=
| Own (v : V)
| Builtin (name : string)
| Undefined.
Arguments Own {V} v.
Arguments Builtin {V} name.
Arguments Undefined {V}.

Definition Get {V} (k : string) (o : obj V) : lookup V :=
  match own_get k o with
  | Some v => Own v
  | None => if inherited k then Builtin k else Undefined
  end.

(** The assignment [o[k] = v] on a plain object, [v] an object or null.
    An own property is overwritten. Otherwise the key [__proto__] reaches
    the accessor of [Object.prototype], which changes the prototype link
    of [o] and creates no own property (so [JSON.stringify] never sees
    it); every other key becomes a new own property. *)
Definition Put {V} (k : string) (v : V) (o : obj V) : obj V :=
  if has_own k o then update_own k v o
  else if (k =? "__proto__")%string then o
  else define_own k v o.

End JSObject.
Import JSObject.

(* ===================================================================== *)
(** ** Data model *)
(* ===================================================================== *)

Record Nutrient : Type := mkNutrient
  { nutrient_name : string;
    nutrient_amount : Q }.

(** [recipe.nutrition], whose [nutrients] list may be missing. *)
Record Nutrition : Type := mkNutrition
  { nutrients : option (list Nutrient) }.

Record Ingredient : Type := mkIngredient
  { ing_name : string;
    ing_aisle : option string;
    ing_amount : option Q;
    ing_unit : option string }.

(** A recipe snapshot: the fields this layer reads. [recipe_addedAt] is
    absent on a catalog recipe and set on a favorite. *)
Record Recipe : Type := mkRecipe
  { recipe_id : Z;
    recipe_title : string;
    recipe_nutrition : option Nutrition;
    extendedIngredients : option (list Ingredient);
    recipe_addedAt : option Z }.

(** A slot holds [null] or a recipe. *)
Definition Slot : Type := option Recipe.
Definition DayMeals : Type := obj Slot.
Definition MealPlan : Type := obj DayMeals.

Record ShoppingItem : Type := mkShoppingItem
  { item_id : Z;
    item_name : string;
    item_category : string;
    item_checked : bool;
    item_addedAt : Z }.

Record UserPreferences : Type := mkUserPreferences
  { diets : list string;
    allergies : list string;
    cuisines : list string;
    calorieGoal : Z;
    proteinGoal : Z;
    carbsGoal : Z;
    fatGoal : Z;
    maxCookingTime : string;
    lastUpdated : option Z }.

(** What [localStorage] holds under the five keys of the application. *)
Record Store : Type := mkStore
  { favorites : option (list Recipe);
    meal_plan : option MealPlan;
    shopping_list : option (list ShoppingItem);
    user_preferences : option UserPreferences;
    recent_searches : option (list string) }.

Definition empty_store : Store := mkStore None None None None None.

(** The storage keys, each with the type of the value kept under it. *)
Inductive STORAGE_KEYS : Type -> Type :=
| FAVORITES : STORAGE_KEYS (list Recipe)
| MEAL_PLAN : STORAGE_KEYS MealPlan
| SHOPPING_LIST : STORAGE_KEYS (list ShoppingItem)
| USER_PREFERENCES : STORAGE_KEYS UserPreferences
| RECENT_SEARCHES : STORAGE_KEYS (list string).

Definition getItem {A} (key : STORAGE_KEYS A) (s : Store) : option A :=
  match key in STORAGE_KEYS T return option T with
  | FAVORITES => favorites s
  | MEAL_PLAN => meal_plan s
  | SHOPPING_LIST => shopping_list s
  | USER_PREFERENCES => user_preferences s
  | RECENT_SEARCHES => recent_searches s
  end.

Definition setItem {A} (key : STORAGE_KEYS A) (data : A) (s : Store) : Store :=
  match key in STORAGE_KEYS T return T -> Store with
  | FAVORITES => fun d =>
      mkStore (Some d) (meal_plan s) (shopping_list s) (user_preferences s) (recent_searches s)
  | MEAL_PLAN => fun d =>
      mkStore (favorites s) (Some d) (shopping_list s) (user_preferences s) (recent_searches s)
  | SHOPPING_LIST => fun d =>
      mkStore (favorites s) (meal_plan s) (Some d) (user_preferences s) (recent_searches s)
  | USER_PREFERENCES => fun d =>
      mkStore (favorites s) (meal_plan s) (shopping_list s) (Some d) (recent_searches s)
  | RECENT_SEARCHES => fun d =>
      mkStore (favorites s) (meal_plan s) (shopping_list s) (user_preferences s) (Some d)
  end data.

(* ===================================================================== *)
(** ** The world a call runs in, and the monad of its effects *)
(* ===================================================================== *)

(** [clock n] is what the [n]-th call of [Date.now()] returns and [ticks]
    counts the calls made so far. [builtin_writes] logs the assignments
    that landed on a builtin object (its inherited name, the property
    written); what they do to later property reads is not described. *)
Record World : Type := mkWorld
  { localStorage : Store;
    clock : nat -> Z;
    ticks : nat;
    builtin_writes : list (string * string) }.

Definition with_storage (s : Store) (w : World) : World :=
  mkWorld s (clock w) (ticks w) (builtin_writes w).

Inductive exn : Type := TypeError.

Inductive completion (A : Type) : Type :=
| Ret (a : A)
| Throw (e : exn).
Arguments Ret {A} a.
Arguments Throw {A} e.

Definition M (A : Type) : Type := World -> completion A * World.

Definition ret {A} (a : A) : M A := fun w => (Ret a, w).

Definition bind {A B} (c : M A) (f : A -> M B) : M B :=
  fun w => match c w with
           | (Ret a, w') => f a w'
           | (Throw e, w') => (Throw e, w')
           end.

Definition throw {A} (e : exn) : M A := fun w => (Throw e, w).

Definition try_catch {A} (c : M A) (handler : exn -> M A) : M A :=
  fun w => match c w with
           | (Ret a, w') => (Ret a, w')
           | (Throw e, w') => handler e w'
           end.

Declare Scope js_scope.
Delimit Scope js_scope with js.
Notation "x <- c ;; k" := (bind c (fun x => k))
  (at level 100, c at next level, right associativity) : js_scope.
Notation "c ;;; k" := (bind c (fun _ => k))
  (at level 100, right associativity) : js_scope.
Local Open Scope js_scope.

Definition localStorage_getItem {A} (key : STORAGE_KEYS A) : M (option A) :=
  fun w => (Ret (getItem key (localStorage w)), w).

Definition localStorage_setItem {A} (key : STORAGE_KEYS A) (data : A) : M unit :=
  fun w => (Ret tt, with_storage (setItem key data (localStorage w)) w).

Definition Date_now : M Z :=
  fun w => (Ret (clock w (ticks w)),
            mkWorld (localStorage w) (clock w) (S (ticks w)) (builtin_writes w)).

(* ===================================================================== *)
(** ** Generic storage functions *)
(* ===================================================================== *)

Definition saveToStorage {A} (key : STORAGE_KEYS A) (data : A) : M bool :=
  try_catch
    (localStorage_setItem key data ;;; ret true)
    (fun _ => ret false).

Definition getFromStorage {A} (key : STORAGE_KEYS A) : M (option A) :=
  try_catch
    (data <- localStorage_getItem key ;; ret data)
    (fun _ => ret None).

(** [getFromStorage(key) || dflt]: a stored array or object is truthy. *)
Definition or_default {A} (v : option A) (dflt : A) : A :=
  match v with Some a => a | None => dflt end.

(* ===================================================================== *)
(** ** Favorites *)
(* ===================================================================== *)

Definition getFavorites : M (list Recipe) :=
  stored <- getFromStorage FAVORITES ;; ret (or_default stored []).

(** [{...recipe, addedAt: now}] *)
Definition with_addedAt (recipe : Recipe) (now : Z) : Recipe :=
  mkRecipe (recipe_id recipe) (recipe_title recipe) (recipe_nutrition recipe)
           (extendedIngredients recipe) (Some now).

Definition addToFavorites (recipe : Recipe) : M bool :=
  favorites <- getFavorites ;;
  let exists_ := existsb (fun fav => (recipe_id fav =? recipe_id recipe)%Z) favorites in
  if exists_ then ret false
  else
    now <- Date_now ;;
    let favorites := favorites ++ [with_addedAt recipe now] in
    saveToStorage FAVORITES favorites ;;;
    ret true.

Definition removeFromFavorites (recipeId : Z) : M unit :=
  favorites <- getFavorites ;;
  let filtered := filter (fun fav => negb (recipe_id fav =? recipeId)%Z) favorites in
  saveToStorage FAVORITES filtered ;;;
  ret tt.

Definition isInFavorites (recipeId : Z) : M bool :=
  favorites <- getFavorites ;;
  ret (existsb (fun fav => (recipe_id fav =? recipeId)%Z) favorites).

Definition clearFavorites : M unit :=
  saveToStorage FAVORITES [] ;;; ret tt.

(* ===================================================================== *)
(** ** Meal plan *)
(* ===================================================================== *)

Definition empty_day : DayMeals :=
  [ ("breakfast", None); ("lunch", None); ("dinner", None) ].

(** The object literal of [getMealPlan] and [clearMealPlan]. *)
Definition default_plan : MealPlan :=
  [ ("monday", empty_day); ("tuesday", empty_day); ("wednesday", empty_day);
    ("thursday", empty_day); ("friday", empty_day); ("saturday", empty_day);
    ("sunday", empty_day) ].

Definition getMealPlan : M MealPlan :=
  stored <- getFromStorage MEAL_PLAN ;; ret (or_default stored default_plan).

(** [target[mealType] = value] where [target] is a builtin object reached
    through the prototype: the write is logged. Setting the prototype of
    [Object.prototype] itself to an object makes the [__proto__] setter
    throw a TypeError; in this non-strict code every other such
    assignment completes. What the write does to the builtin object is
    not followed: the log marks the point after which the reads of [Get]
    and the calls of builtin functions are no longer described, and the
    properties about later calls ask for an empty log. *)
Definition builtin_assign (target mealType : string) (is_object : bool) : M unit :=
  if (target =? "__proto__")%string && (mealType =? "__proto__")%string && is_object
  then throw TypeError
  else fun w => (Ret tt,
                 mkWorld (localStorage w) (clock w) (ticks w)
                         (builtin_writes w ++ [(target, mealType)])).

Definition addMealToPlan (day mealType : string) (recipe : Recipe) : M bool :=
  mealPlan <- getMealPlan ;;
  match Get day mealPlan with
  | Undefined => ret false
  | Own dayMeals =>
      let mealPlan := update_own day (Put mealType (Some recipe) dayMeals) mealPlan in
      saveToStorage MEAL_PLAN mealPlan ;;;
      ret true
  | Builtin target =>
      builtin_assign target mealType true ;;;
      saveToStorage MEAL_PLAN mealPlan ;;;
      ret true
  end.

Definition removeMealFromPlan (day mealType : string) : M bool :=
  mealPlan <- getMealPlan ;;
  match Get day mealPlan with
  | Own dayMeals =>
      let mealPlan := update_own day (Put mealType None dayMeals) mealPlan in
      saveToStorage MEAL_PLAN mealPlan ;;;
      ret true
  | Builtin target =>
      builtin_assign target mealType false ;;;
      saveToStorage MEAL_PLAN mealPlan ;;;
      ret true
  | Undefined => ret false
  end.

Definition clearMealPlan : M unit :=
  let emptyPlan := default_plan in
  saveToStorage MEAL_PLAN emptyPlan ;;; ret tt.

Record Meal : Type := mkMeal
  { meal_day : string;
    meal_mealType : string;
    meal_recipe : Recipe }.

(** The two nested [Object.keys(...).forEach] loops; [day] and [mealType]
    range over own keys, so both reads are own-property reads. *)
Definition getAllMealsFromPlan : M (list Meal) :=
  mealPlan <- getMealPlan ;;
  let meals :=
    fold_left
      (fun meals day =>
         match own_get day mealPlan with
         | Some dayMeals =>
             fold_left
               (fun meals mealType =>
                  match own_get mealType dayMeals with
                  | Some (Some meal) => meals ++ [mkMeal day mealType meal]
                  | _ => meals
                  end)
               (Object_keys dayMeals) meals
         | None => meals
         end)
      (Object_keys mealPlan) [] in
  ret meals.

(* ===================================================================== *)
(** ** Strings *)
(* ===================================================================== *)

(** [String.prototype.toLowerCase] on code units below 256. *)
Definition lower_char (c : ascii) : ascii :=
  let n := N_of_ascii c in
  if ((65 <=? n) && (n <=? 90) || (192 <=? n) && (n <=? 222) && negb (n =? 215))%N
  then ascii_of_N (n + 32) else c.

Fixpoint toLowerCase (s : string) : string :=
  match s with
  | EmptyString => EmptyString
  | String c s' => String (lower_char c) (toLowerCase s')
  end.

(** White space and line terminators below 256: TAB, LF, VT, FF, CR,
    SPACE and NO-BREAK SPACE. *)
Definition is_white (c : ascii) : bool :=
  let n := N_of_ascii c in
  ((9 <=? n) && (n <=? 13) || (n =? 32) || (n =? 160))%N.

Fixpoint trimStart (s : string) : string :=
  match s with
  | EmptyString => EmptyString
  | String c s' => if is_white c then trimStart s' else s
  end.

Fixpoint trimEnd (s : string) : string :=
  match s with
  | EmptyString => EmptyString
  | String c s' =>
      let t := trimEnd s' in
      if is_white c && (t =? "")%string then EmptyString else String c t
  end.

Definition trim (s : string) : string := trimEnd (trimStart s).

(** [s.includes(p)] *)
Fixpoint includes (p s : string) : bool :=
  prefix p s ||
  match s with
  | EmptyString => false
  | String _ s' => includes p s'
  end.

(** [s.match(/a1|a2|.../)] is non-null when some alternative occurs in [s];
    the alternatives here are plain words. *)
Definition regex_match (alternatives : list string) (s : string) : bool :=
  existsb (fun p => includes p s) alternatives.

(** [s || dflt] for an optional string: the empty string is falsy. *)
Definition string_or (s : option string) (dflt : string) : string :=
  match s with
  | Some v => if (v =? "")%string then dflt else v
  | None => dflt
  end.

(** [x || 0] for an optional number. *)
Definition number_or_0 (x : option Q) : Q :=
  match x with
  | Some q => if Qeq_bool q 0 then 0%Q else q
  | None => 0%Q
  end.

(* ===================================================================== *)
(** ** Shopping list *)
(* ===================================================================== *)

(** The argument of [addToShoppingList]: [{name, category}]. *)
Record NewItem : Type := mkNewItem
  { new_name : string;
    new_category : option string }.

Definition getShoppingList : M (list ShoppingItem) :=
  stored <- getFromStorage SHOPPING_LIST ;; ret (or_default stored []).

Definition addToShoppingList (item : NewItem) : M bool :=
  list <- getShoppingList ;;
  let exists_ :=
    existsb (fun i => (toLowerCase (item_name i) =? toLowerCase (new_name item))%string) list in
  if exists_ then ret false
  else
    id <- Date_now ;;
    addedAt <- Date_now ;;
    let list := list ++ [mkShoppingItem id (new_name item)
                           (string_or (new_category item) "other") false addedAt] in
    saveToStorage SHOPPING_LIST list ;;;
    ret true.

Definition removeFromShoppingList (itemId : Z) : M unit :=
  list <- getShoppingList ;;
  let filtered := filter (fun item => negb (item_id item =? itemId)%Z) list in
  saveToStorage SHOPPING_LIST filtered ;;;
  ret tt.

(** [list.find(i => i.id === itemId)] followed by the mutation of the
    found element: the first item with that id is flipped in place. *)
Fixpoint toggle_first (itemId : Z) (items : list ShoppingItem) : option (list ShoppingItem) :=
  match items with
  | [] => None
  | i :: rest =>
      if (item_id i =? itemId)%Z
      then Some (mkShoppingItem (item_id i) (item_name i) (item_category i)
                                (negb (item_checked i)) (item_addedAt i) :: rest)
      else option_map (cons i) (toggle_first itemId rest)
  end.

Definition toggleShoppingItem (itemId : Z) : M bool :=
  list <- getShoppingList ;;
  match toggle_first itemId list with
  | Some list => saveToStorage SHOPPING_LIST list ;;; ret true
  | None => ret false
  end.

Definition clearShoppingList : M unit :=
  saveToStorage SHOPPING_LIST [] ;;; ret tt.

(** *** Categories *)

Definition produce_pattern : list string :=
  [ "produce"; "vegetable"; "fruit"; "lettuce"; "tomato"; "onion"; "pepper";
    "carrot"; "broccoli"; "spinach"; "kale"; "cabbage"; "cucumber"; "zucchini";
    "potato"; "celery"; "avocado"; "mushroom"; "garlic"; "herb"; "fresh" ].

Definition meat_pattern : list string :=
  [ "meat"; "seafood"; "poultry"; "beef"; "chicken"; "pork"; "fish"; "salmon";
    "tuna"; "shrimp"; "turkey"; "bacon"; "ham"; "steak"; "ground" ].

Definition dairy_pattern : list string :=
  [ "dairy"; "milk"; "cheese"; "yogurt"; "butter"; "cream"; "egg"; "sour cream";
    "cottage cheese"; "mozzarella"; "cheddar"; "parmesan" ].

Definition grains_pattern : list string :=
  [ "bread"; "bakery"; "grain"; "pasta"; "rice"; "cereal"; "flour"; "oat";
    "quinoa"; "tortilla"; "bagel"; "bun"; "roll"; "noodle"; "spaghetti"; "penne" ].

Definition spices_pattern : list string :=
  [ "spice"; "condiment"; "oil"; "vinegar"; "sauce"; "seasoning"; "salt";
    "pepper"; "oregano"; "basil"; "cumin"; "paprika"; "cinnamon"; "vanilla";
    "mayo"; "mustard"; "ketchup"; "soy sauce"; "olive oil" ].

Definition pantry_pattern : list string :=
  [ "canned"; "jar"; "can"; "dried"; "baking"; "sugar"; "stock"; "broth";
    "bean"; "tomato paste"; "coconut milk" ].

Definition categorizeIngredient (aisle : string) : string :=
  let aisleStr := toLowerCase (string_or (Some aisle) "") in
  if regex_match produce_pattern aisleStr then "produce"
  else if regex_match meat_pattern aisleStr then "meat"
  else if regex_match dairy_pattern aisleStr then "dairy"
  else if regex_match grains_pattern aisleStr then "grains"
  else if regex_match spices_pattern aisleStr then "spices"
  else if regex_match pantry_pattern aisleStr then "pantry"
  else "other".

(** *** The list generated from the meal plan *)

Record GeneratedItem : Type := mkGeneratedItem
  { gen_name : string;
    gen_category : string;
    gen_amount : Q;
    gen_unit : string;
    gen_checked : bool }.

(** One step of the inner loop on the [Map] [ingredients], whose entries
    are kept in insertion order. [existing.amount += ...] adds to the
    amount of the entry; the additions of one entry happen in the order of
    the occurrences, which is how [entry_of] below writes them. *)
Definition add_ingredient (ingredients : list (string * GeneratedItem))
                          (ingredient : Ingredient) : list (string * GeneratedItem) :=
  let name := ing_name ingredient in
  let category := categorizeIngredient (string_or (ing_aisle ingredient) (ing_name ingredient)) in
  match own_get name ingredients with
  | Some existing =>
      update_own name
        (mkGeneratedItem (gen_name existing) (gen_category existing)
                         (gen_amount existing + number_or_0 (ing_amount ingredient))
                         (gen_unit existing) (gen_checked existing))
        ingredients
  | None =>
      ingredients ++
        [(name, mkGeneratedItem name category (number_or_0 (ing_amount ingredient))
                                (string_or (ing_unit ingredient) "") false)]
  end.

Definition generateShoppingListFromMealPlan : M (list GeneratedItem) :=
  meals <- getAllMealsFromPlan ;;
  let ingredients :=
    fold_left
      (fun ingredients meal =>
         match extendedIngredients (meal_recipe meal) with
         | Some ingredientList => fold_left add_ingredient ingredientList ingredients
         | None => ingredients
         end)
      meals [] in
  ret (map snd ingredients).

(* ===================================================================== *)
(** ** User preferences and recent searches *)
(* ===================================================================== *)

Definition default_preferences : UserPreferences :=
  mkUserPreferences [] [] [] 2000 150 250 65 "" None.

Definition getUserPreferences : M UserPreferences :=
  stored <- getFromStorage USER_PREFERENCES ;; ret (or_default stored default_preferences).

Definition getRecentSearches : M (list string) :=
  stored <- getFromStorage RECENT_SEARCHES ;; ret (or_default stored []).

Definition addRecentSearch (query : string) : M unit :=
  if (query =? "")%string || (trim query =? "")%string then ret tt
  else
    searches <- getRecentSearches ;;
    let filtered := filter (fun s => negb (s =? query)%string) searches in
    let filtered := query :: filtered in
    let limited := firstn 10 filtered in
    saveToStorage RECENT_SEARCHES limited ;;;
    ret tt.

Definition clearRecentSearches : M unit :=
  saveToStorage RECENT_SEARCHES [] ;;; ret tt.

(* ===================================================================== *)
(** ** Nutrition dashboard *)
(* ===================================================================== *)

Record NutritionValues : Type := mkNutritionValues
  { calories : Z;
    protein : Z;
    carbs : Z;
    fat : Z }.

(** [Math.round]: the nearest integer, a tie going up. *)
Definition Math_round (x : Q) : Z := Qfloor (x + (1 # 2)).

Definition find_nutrient (name : string) (l : list Nutrient) : option Nutrient :=
  find (fun n => (nutrient_name n =? name)%string) l.

Definition rounded_amount (n : option Nutrient) : Z :=
  match n with
  | Some n => Math_round (nutrient_amount n)
  | None => 0%Z
  end.

Definition extractNutritionFromRecipe (recipe : Recipe) : NutritionValues :=
  match recipe_nutrition recipe with
  | Some nutrition =>
      match nutrients nutrition with
      | Some nutrients =>
          let caloriesNutrient := find_nutrient "Calories" nutrients in
          let proteinNutrient := find_nutrient "Protein" nutrients in
          let carbsNutrient := find_nutrient "Carbohydrates" nutrients in
          let fatNutrient := find_nutrient "Fat" nutrients in
          mkNutritionValues (rounded_amount caloriesNutrient) (rounded_amount proteinNutrient)
                            (rounded_amount carbsNutrient) (rounded_amount fatNutrient)
      | None => mkNutritionValues 0 0 0 0
      end
  | None => mkNutritionValues 0 0 0 0
  end.

Definition week_days : list string :=
  [ "monday"; "tuesday"; "wednesday"; "thursday"; "friday"; "saturday"; "sunday" ].

(** The four [weekly... += nutrition....] statements. *)
Definition accumulate (weekly nutrition : NutritionValues) : NutritionValues :=
  mkNutritionValues (calories weekly + calories nutrition) (protein weekly + protein nutrition)
                    (carbs weekly + carbs nutrition) (fat weekly + fat nutrition).

Definition weekly_totals (mealPlan : MealPlan) : NutritionValues :=
  fold_left
    (fun weekly day =>
       match Get day mealPlan with
       | Own dayMeals =>
           fold_left
             (fun weekly meal =>
                match meal with
                | Some meal => accumulate weekly (extractNutritionFromRecipe meal)
                | None => weekly
                end)
             (Object_values dayMeals) weekly
       | _ => weekly
       end)
    week_days (mkNutritionValues 0 0 0 0).

Definition daily_average (weekly : Z) : Z := Math_round (inject_Z weekly / 7).

(** What [loadWeekNutrition] hands to [updateMainStats]: the four daily
    averages and the four goals of the preferences. *)
Definition loadWeekNutrition : M (NutritionValues * NutritionValues) :=
  mealPlan <- getMealPlan ;;
  let weekly := weekly_totals mealPlan in
  let avg := mkNutritionValues (daily_average (calories weekly)) (daily_average (protein weekly))
                               (daily_average (carbs weekly)) (daily_average (fat weekly)) in
  preferences <- getUserPreferences ;;
  ret (avg, mkNutritionValues (calorieGoal preferences) (proteinGoal preferences)
                              (carbsGoal preferences) (fatGoal preferences)).

(* ===================================================================== *)
(** ** Notions used to state the properties *)
(* ===================================================================== *)

(** The world a computation leaves behind, and what it completes with. *)
Definition exec {A} (c : M A) (w : World) : World := snd (c w).
Definition outcome {A} (c : M A) (w : World) : completion A := fst (c w).

Definition stored_favorites (w : World) : list Recipe :=
  or_default (favorites (localStorage w)) [].
Definition stored_plan (w : World) : MealPlan :=
  or_default (meal_plan (localStorage w)) default_plan.
Definition stored_shopping_list (w : World) : list ShoppingItem :=
  or_default (shopping_list (localStorage w)) [].
Definition stored_searches (w : World) : list string :=
  or_default (recent_searches (localStorage w)) [].

(** *** Favorites *)

Definition unique_by_id (favs : list Recipe) : Prop := NoDup (map recipe_id favs).

Definition occurrences_of_id (id : Z) (favs : list Recipe) : nat :=
  count_occ Z.eq_dec (map recipe_id favs) id.

(** The world after a successful [addToFavorites]: the recipe, stamped
    with the clock reading, is appended and the clock has been read once. *)
Definition after_addToFavorites (recipe : Recipe) (w : World) : World :=
  mkWorld
    (setItem FAVORITES
             (stored_favorites w ++ [with_addedAt recipe (clock w (ticks w))])
             (localStorage w))
    (clock w) (S (ticks w)) (builtin_writes w).

(** The operations the storage module exports on favorites. *)
Inductive favorites_op : Type :=
| GetFavorites
| AddToFavorites (recipe : Recipe)
| RemoveFromFavorites (recipeId : Z)
| IsInFavorites (recipeId : Z)
| ClearFavorites.

Definition run_favorites_op (op : favorites_op) : M unit :=
  match op with
  | GetFavorites => getFavorites ;;; ret tt
  | AddToFavorites recipe => addToFavorites recipe ;;; ret tt
  | RemoveFromFavorites recipeId => removeFromFavorites recipeId
  | IsInFavorites recipeId => isInFavorites recipeId ;;; ret tt
  | ClearFavorites => clearFavorites
  end.

(** *** Meal plan *)

Definition meal_types : list string := [ "breakfast"; "lunch"; "dinner" ].

(** Every weekday is an own key of the stored plan: true of the default
    plan and kept by [addMealToPlan], [removeMealFromPlan] and
    [clearMealPlan]. *)
Definition has_week_days (plan : MealPlan) : Prop :=
  forall day, In day week_days -> has_own day plan = true.

(** The seven days in order, each with the three slots in order. *)
Definition standard_shape (plan : MealPlan) : Prop :=
  Object_keys plan = week_days /\
  Forall (fun dayMeals : DayMeals => Object_keys dayMeals = meal_types) (Object_values plan).

(** The own property [mealType] of the own property [day], if both exist. *)
Definition own_slot (plan : MealPlan) (day mealType : string) : option Slot :=
  match own_get day plan with
  | Some dayMeals => own_get mealType dayMeals
  | None => None
  end.

(** The non-null own slots of one day, in the order of its keys. *)
Definition meals_of_day (day : string) (dayMeals : DayMeals) : list Meal :=
  flat_map
    (fun mealType =>
       match own_get mealType dayMeals with
       | Some (Some meal) => [mkMeal day mealType meal]
       | _ => []
       end)
    (Object_keys dayMeals).

(** The non-null slots, by day monday..sunday and within a day by
    breakfast, lunch, dinner. *)
Definition enumerate_meals (plan : MealPlan) : list Meal :=
  flat_map
    (fun day =>
       flat_map
         (fun mealType =>
            match own_slot plan day mealType with
            | Some (Some recipe) => [mkMeal day mealType recipe]
            | _ => []
            end)
         meal_types)
    week_days.

(** *** Categories: the rules as an ordered list, first match wins *)

Definition category_rules : list (string * list string) :=
  [ ("produce", produce_pattern); ("meat", meat_pattern); ("dairy", dairy_pattern);
    ("grains", grains_pattern); ("spices", spices_pattern); ("pantry", pantry_pattern) ].

Definition first_match (rules : list (string * list string)) (s : string) : string :=
  match find (fun rule => regex_match (snd rule) s) rules with
  | Some rule => fst rule
  | None => "other"
  end.

(** *** Shopping list *)

Definition same_name_ci (a b : string) : bool :=
  (toLowerCase a =? toLowerCase b)%string.

Definition named (name : string) (i : Ingredient) : bool :=
  (ing_name i =? name)%string.

(** Every ingredient of every planned meal, in enumeration order. *)
Definition ingredient_occurrences (meals : list Meal) : list Ingredient :=
  flat_map
    (fun meal =>
       match extendedIngredients (meal_recipe meal) with
       | Some l => l
       | None => []
       end)
    meals.

(** The entry of a name: category and unit come from its first
    occurrence, the amount is the sum over all its occurrences. *)
Definition entry_of (first : Ingredient) (others : list Ingredient) : GeneratedItem :=
  mkGeneratedItem
    (ing_name first)
    (categorizeIngredient (string_or (ing_aisle first) (ing_name first)))
    (fold_left Qplus (map (fun i => number_or_0 (ing_amount i)) others)
               (number_or_0 (ing_amount first)))
    (string_or (ing_unit first) "")
    false.

(** Grouping by exact name, one entry per name in order of first
    occurrence. *)
Equations? group_by_name (l : list Ingredient) : list GeneratedItem by wf (List.length l) lt :=
  group_by_name [] := [];
  group_by_name (first :: rest) :=
    entry_of first (filter (named (ing_name first)) rest)
    :: group_by_name (filter (fun i => negb (named (ing_name first) i)) rest).
Proof.
  simpl. apply Nat.lt_succ_r, filter_length_le.
Qed.

(** An entry of the [Map] once the occurrences [occ] have been added:
    those of its name have increased its amount, in order. *)
Definition absorb (occ : list Ingredient) (entry : string * GeneratedItem)
  : string * GeneratedItem :=
  (fst entry,
   mkGeneratedItem
     (gen_name (snd entry)) (gen_category (snd entry))
     (fold_left Qplus
                (map (fun i => number_or_0 (ing_amount i)) (filter (named (fst entry)) occ))
                (gen_amount (snd entry)))
     (gen_unit (snd entry)) (gen_checked (snd entry))).

Definition keyed (item : GeneratedItem) : string * GeneratedItem := (gen_name item, item).

(** The world after a successful [addToShoppingList]: the clock was read
    twice, for [id] and for [addedAt]. *)
Definition after_addToShoppingList (item : NewItem) (w : World) : World :=
  mkWorld
    (setItem SHOPPING_LIST
             (stored_shopping_list w ++
              [mkShoppingItem (clock w (ticks w)) (new_name item)
                              (string_or (new_category item) "other") false
                              (clock w (S (ticks w)))])
             (localStorage w))
    (clock w) (S (S (ticks w))) (builtin_writes w).

(** *** Nutrition *)

Definition non_null (slots : list Slot) : list Recipe :=
  flat_map (fun slot : Slot => match slot with Some r => [r] | None => [] end) slots.

(** The recipes in the slots of the seven days. *)
Definition week_recipes (plan : MealPlan) : list Recipe :=
  flat_map
    (fun day =>
       match own_get day plan with
       | Some dayMeals => non_null (Object_values dayMeals)
       | None => []
       end)
    week_days.

Definition total (field : NutritionValues -> Z) (recipes : list Recipe) : Z :=
  fold_right Z.add 0%Z (map (fun r => field (extractNutritionFromRecipe r)) recipes).

(** *** Recent searches *)

Fixpoint whitespace_only (s : string) : bool :=
  match s with
  | EmptyString => true
  | String c s' => is_white c && whitespace_only s'
  end.

Fixpoint add_searches (queries : list string) : M unit :=
  match queries with
  | [] => ret tt
  | q :: rest => addRecentSearch q ;;; add_searches rest
  end.

(** *** Sample data *)

Definition sample_time : Z := 1700000000000.

(** A fresh browser profile whose clock does not advance during the calls. *)
Definition fresh_world : World := mkWorld empty_store (fun _ => sample_time) 0 [].

Definition soup : Recipe := mkRecipe 715538 "Soup" None None None.
Definition salad : Recipe := mkRecipe 716429 "Salad" None None None.

(** Two recipes that both use an ingredient named exactly "Tomato", a
    third ingredient that differs from it by case only, and a plan that
    holds the two recipes. *)
Definition tomato_a : Ingredient :=
  mkIngredient "Tomato" (Some "Produce") (Some (2 # 1)) (Some "pieces").
Definition tomato_b : Ingredient :=
  mkIngredient "Tomato" (Some "Canned and Jarred") (Some (3 # 1)) (Some "cups").
Definition tomato_lower : Ingredient :=
  mkIngredient "tomato" None (Some (1 # 1)) None.
Definition basil : Ingredient :=
  mkIngredient "fresh basil" None (Some (1 # 2)) (Some "bunch").

Definition bruschetta : Recipe :=
  mkRecipe 2001 "Bruschetta" None (Some [tomato_a; basil]) None.
Definition salsa : Recipe :=
  mkRecipe 2002 "Salsa" None (Some [tomato_lower; tomato_b]) None.

Definition tomato_plan : MealPlan :=
  update_own "sunday" (Put "dinner" (Some salsa) empty_day)
    (update_own "monday" (Put "breakfast" (Some bruschetta) empty_day) default_plan).

Definition tomato_world : World :=
  mkWorld (setItem MEAL_PLAN tomato_plan empty_store) (fun _ => sample_time) 0 [].

Definition salt : NewItem := mkNewItem "salt" (Some "spices").
Definition pepper : NewItem := mkNewItem "pepper" (Some "spices").

(** Three recipes whose rounded calories are 455, 500 and 445, planned on
    Monday of an otherwise empty week. *)
Definition oatmeal : Recipe :=
  mkRecipe 1001 "Oatmeal"
    (Some (mkNutrition (Some [mkNutrient "Calories" (4554 # 10);
                              mkNutrient "Protein" (123 # 10)])))
    None None.

Definition wrap : Recipe :=
  mkRecipe 1002 "Wrap"
    (Some (mkNutrition (Some [mkNutrient "Fat" (201 # 10);
                              mkNutrient "Calories" (5003 # 10)])))
    None None.

Definition stew : Recipe :=
  mkRecipe 1003 "Stew"
    (Some (mkNutrition (Some [mkNutrient "Calories" (4446 # 10);
                              mkNutrient "Carbohydrates" (71 # 2)])))
    None None.

Definition monday_plan : MealPlan :=
  ("monday", [("breakfast", Some oatmeal); ("lunch", Some wrap); ("dinner", Some stew)])
  :: tl default_plan.

Definition monday_world : World :=
  mkWorld (setItem MEAL_PLAN monday_plan empty_store) (fun _ => sample_time) 0 [].

(* ===================================================================== *)
(** ** The rest of the storage module *)
(* ===================================================================== *)

Definition removeItem {A} (key : STORAGE_KEYS A) (s : Store) : Store :=
  match key with
  | FAVORITES =>
      mkStore None (meal_plan s) (shopping_list s) (user_preferences s) (recent_searches s)
  | MEAL_PLAN =>
      mkStore (favorites s) None (shopping_list s) (user_preferences s) (recent_searches s)
  | SHOPPING_LIST =>
      mkStore (favorites s) (meal_plan s) None (user_preferences s) (recent_searches s)
  | USER_PREFERENCES =>
      mkStore (favorites s) (meal_plan s) (shopping_list s) None (recent_searches s)
  | RECENT_SEARCHES =>
      mkStore (favorites s) (meal_plan s) (shopping_list s) (user_preferences s) None
  end.

Definition localStorage_removeItem {A} (key : STORAGE_KEYS A) : M unit :=
  fun w => (Ret tt, with_storage (removeItem key (localStorage w)) w).

Definition removeFromStorage {A} (key : STORAGE_KEYS A) : M bool :=
  try_catch
    (localStorage_removeItem key ;;; ret true)
    (fun _ => ret false).

(** [Object.values(STORAGE_KEYS).forEach(key => localStorage.removeItem(key))],
    the keys in the order of the object literal. *)
Definition clearAllStorage : M unit :=
  localStorage_removeItem FAVORITES ;;;
  localStorage_removeItem MEAL_PLAN ;;;
  localStorage_removeItem SHOPPING_LIST ;;;
  localStorage_removeItem USER_PREFERENCES ;;;
  localStorage_removeItem RECENT_SEARCHES.

Definition saveUserPreferences (preferences : UserPreferences) : M unit :=
  saveToStorage USER_PREFERENCES preferences ;;; ret tt.

(** [array.forEach(body)] for a body that has effects. *)
Fixpoint forEach {A} (array : list A) (body : A -> M unit) : M unit :=
  match array with
  | [] => ret tt
  | x :: rest => body x ;;; forEach rest body
  end.

(* ===================================================================== *)
(** ** Favorites page and recipe cards *)
(* ===================================================================== *)

(** The loop of [importFavorites] over the parsed array; reading the file
    and refreshing the page are left to the browser. *)
Definition importFavorites (importedFavorites : list Recipe) : M unit :=
  forEach importedFavorites (fun recipe => addToFavorites recipe ;;; ret tt).

(** What the favorite button shows. *)
Inductive heart : Type := FilledHeart | EmptyHeart.

(** [toggleFavorite(recipeId, button)]; [fetched] is what
    [API.getRecipeById(recipeId)] resolves to when it is awaited, and the
    result is the text left on the button. *)
Definition toggleFavorite (recipeId : Z) (fetched : option Recipe) : M heart :=
  isCurrentlyFavorite <- isInFavorites recipeId ;;
  if isCurrentlyFavorite then
    removeFromFavorites recipeId ;;;
    ret EmptyHeart
  else
    match fetched with
    | Some recipe => addToFavorites recipe ;;; ret FilledHeart
    | None => ret EmptyHeart
    end.

(** The names listed in the object literal assigned to [window.Storage]. *)
Definition Storage_exports : list string :=
  [ "saveToStorage"; "getFromStorage"; "removeFromStorage"; "clearAllStorage";
    "getFavorites"; "addToFavorites"; "removeFromFavorites"; "isInFavorites";
    "clearFavorites";
    "getMealPlan"; "addMealToPlan"; "removeMealFromPlan"; "clearMealPlan";
    "getAllMealsFromPlan";
    "getShoppingList"; "addToShoppingList"; "removeFromShoppingList";
    "toggleShoppingItem"; "clearShoppingList"; "generateShoppingListFromMealPlan";
    "getUserPreferences"; "saveUserPreferences"; "updatePreference";
    "getRecentSearches"; "addRecentSearch"; "clearRecentSearches" ].

(** The call [Storage.name(...)] of a function [f] of the storage module:
    [Storage.name] is [f] when the object literal lists [name]; otherwise
    the read gives [undefined] (or an inherited builtin of another
    signature) and the call is treated as a TypeError. *)
Definition Storage_call {A} (name : string) (f : M A) : M A :=
  if existsb (fun exported => (exported =? name)%string) Storage_exports
  then f else throw TypeError.

Inductive toast : Type :=
| FailedToAdd
| AddedIngredients (addedCount : nat)
| AllAlreadyInList.

(** The body of the [forEach] of [addIngredientsToShoppingList], with the
    counter it updates. *)
Fixpoint add_each_ingredient (ingredients : list Ingredient) (addedCount : nat) : M nat :=
  match ingredients with
  | [] => ret addedCount
  | ingredient :: rest =>
      category <- Storage_call "categorizeIngredient"
                    (ret (categorizeIngredient
                            (string_or (ing_aisle ingredient) (ing_name ingredient)))) ;;
      added <- Storage_call "addToShoppingList"
                 (addToShoppingList (mkNewItem (ing_name ingredient) (Some category))) ;;
      add_each_ingredient rest (if added then S addedCount else addedCount)
  end.

(** [addIngredientsToShoppingList(recipeId)]; [fetched] is what
    [API.getRecipeById(recipeId)] resolves to, the result is the toast. *)
Definition addIngredientsToShoppingList (fetched : option Recipe) : M toast :=
  match fetched with
  | None => ret FailedToAdd
  | Some recipe =>
      match extendedIngredients recipe with
      | None => ret FailedToAdd
      | Some ingredients =>
          addedCount <- add_each_ingredient ingredients 0 ;;
          if (0 <? addedCount)%nat then ret (AddedIngredients addedCount)
          else ret AllAlreadyInList
      end
  end.

(* ===================================================================== *)
(** ** Preferences page *)
(* ===================================================================== *)

(** The value of [c] as a digit in the given radix. *)
Definition digit_in (radix : Z) (c : ascii) : option Z :=
  let n := Z.of_N (N_of_ascii c) in
  let v := if ((48 <=? n) && (n <=? 57))%Z then Some (n - 48)%Z
           else if ((97 <=? n) && (n <=? 122))%Z then Some (n - 87)%Z
           else if ((65 <=? n) && (n <=? 90))%Z then Some (n - 55)%Z
           else None in
  match v with
  | Some d => if (d <? radix)%Z then Some d else None
  | None => None
  end.

(** The value of the longest prefix of digits, [acc] being the value of
    the digits read so far, if any. *)
Fixpoint leading_digits (radix : Z) (s : string) (acc : option Z) : option Z :=
  match s with
  | EmptyString => acc
  | String c s' =>
      match digit_in radix c with
      | Some d =>
          leading_digits radix s'
            (Some (radix * match acc with Some a => a | None => 0 end + d)%Z)
      | None => acc
      end
  end.

(** [parseInt(string)] without a radix: leading white space is skipped, a
    sign is read, a [0x] prefix selects radix 16, and the longest prefix of
    digits is the value; [None] is NaN. *)
Definition parseInt (s : string) : option Z :=
  let s := trimStart s in
  let (negative, s) :=
    match s with
    | String "-" s' => (true, s')
    | String "+" s' => (false, s')
    | _ => (false, s)
    end in
  let (radix, s) :=
    match s with
    | String "0" (String "x" s') => (16%Z, s')
    | String "0" (String "X" s') => (16%Z, s')
    | _ => (10%Z, s)
    end in
  match leading_digits radix s None with
  | Some n => Some (if negative then (- n)%Z else n)
  | None => None
  end.

(** [x || dflt] for the result of [parseInt]: NaN and 0 are falsy. *)
Definition int_or (x : option Z) (dflt : Z) : Z :=
  match x with
  | Some n => if (n =? 0)%Z then dflt else n
  | None => dflt
  end.

(** What [handleSavePreferences] reads from the form. *)
Record PreferencesForm : Type := mkPreferencesForm
  { checked_diets : list string;
    checked_allergies : list string;
    checked_cuisines : list string;
    calorieGoal_value : string;
    proteinGoal_value : string;
    carbsGoal_value : string;
    fatGoal_value : string;
    maxCookingTime_value : string }.

Definition validatePreferences (prefs : UserPreferences) : bool :=
  if ((calorieGoal prefs <? 1000) || (5000 <? calorieGoal prefs))%Z then false
  else if ((proteinGoal prefs <? 50) || (300 <? proteinGoal prefs))%Z then false
  else if ((carbsGoal prefs <? 50) || (500 <? carbsGoal prefs))%Z then false
  else if ((fatGoal prefs <? 20) || (150 <? fatGoal prefs))%Z then false
  else true.

Definition handleSavePreferences (form : PreferencesForm) : M unit :=
  now <- Date_now ;;
  let preferences :=
    mkUserPreferences
      (checked_diets form) (checked_allergies form) (checked_cuisines form)
      (int_or (parseInt (calorieGoal_value form)) 2000)
      (int_or (parseInt (proteinGoal_value form)) 150)
      (int_or (parseInt (carbsGoal_value form)) 250)
      (int_or (parseInt (fatGoal_value form)) 65)
      (string_or (Some (maxCookingTime_value form)) "")
      (Some now) in
  if negb (validatePreferences preferences) then ret tt
  else saveUserPreferences preferences.

(** [confirmed] is the answer to the [confirm] dialog. *)
Definition handleResetPreferences (confirmed : bool) : M unit :=
  if negb confirmed then ret tt
  else
    now <- Date_now ;;
    let defaultPrefs := mkUserPreferences [] [] [] 2000 150 250 65 "" (Some now) in
    saveUserPreferences defaultPrefs.

(* ===================================================================== *)
(** ** Weekly chart *)
(* ===================================================================== *)

Record Bar : Type := mkBar
  { bar_label : string;
    bar_value : Z;
    bar_percentage : Q }.

Definition chart_days : list string := [ "Mon"; "Tue"; "Wed"; "Thu"; "Fri"; "Sat"; "Sun" ].

(** The callback of [dayKeys.map]: the calories planned on one day. *)
Definition day_total (mealPlan : MealPlan) (dayKey : string) : Z :=
  match Get dayKey mealPlan with
  | Own dayMeals =>
      fold_left
        (fun total (meal : Slot) =>
           match meal with
           | Some meal => (total + calories (extractNutritionFromRecipe meal))%Z
           | None => total
           end)
        (Object_values dayMeals) 0%Z
  | _ => 0%Z
  end.

(** [Math.max(...values, floor)] *)
Definition Math_max (values : list Z) (floor : Z) : Z := fold_right Z.max floor values.

(** The bars [updateWeeklyChart] draws, [None] when the page has no chart
    container. *)
Definition updateWeeklyChart (hasContainer : bool) : M (option (list Bar)) :=
  if negb hasContainer then ret None
  else
    mealPlan <- getMealPlan ;;
    let dayCalories := map (day_total mealPlan) week_days in
    let maxCalories := Math_max dayCalories 2000 in
    ret (Some (map (fun day_calories : string * Z =>
                      let (day, calories) := day_calories in
                      mkBar day calories
                            (inject_Z calories / inject_Z maxCalories * 100))
                   (combine chart_days dayCalories))).

(* ===================================================================== *)
(** ** API response cache *)
(* ===================================================================== *)

(** The value kept under [api_cache_<key>]. *)
Record CacheEntry : Type := mkCacheEntry
  { cache_data : list Recipe;
    cache_timestamp : Z;
    cache_expiry : Z }.

(** The [localStorage] items whose name starts with [api_cache_], by the
    rest of the name. They share no name with the five keys of the
    storage module. *)
Definition ApiCache : Type := list (string * CacheEntry).

Fixpoint cache_getItem (key : string) (cache : ApiCache) : option CacheEntry :=
  match cache with
  | [] => None
  | (k, e) :: rest => if (k =? key)%string then Some e else cache_getItem key rest
  end.

Definition cache_removeItem (key : string) (cache : ApiCache) : ApiCache :=
  filter (fun item => negb (fst item =? key)%string) cache.

Definition cache_setItem (key : string) (e : CacheEntry) (cache : ApiCache) : ApiCache :=
  (key, e) :: cache_removeItem key cache.

(** [cacheAPIResponse(key, data, expiryMinutes)]; [None] takes the default
    of 60 minutes. The result is the cache after the call. *)
Definition cacheAPIResponse (key : string) (data : list Recipe) (expiryMinutes : option Z)
           (cache : ApiCache) : M ApiCache :=
  let expiryMinutes := match expiryMinutes with Some m => m | None => 60%Z end in
  timestamp <- Date_now ;;
  let cacheData := mkCacheEntry data timestamp (expiryMinutes * 60 * 1000)%Z in
  ret (cache_setItem key cacheData cache).

Definition getCachedAPIResponse (key : string) (cache : ApiCache)
  : M (option (list Recipe) * ApiCache) :=
  match cache_getItem key cache with
  | None => ret (None, cache)
  | Some cacheData =>
      now <- Date_now ;;
      if (now - cache_timestamp cacheData <? cache_expiry cacheData)%Z
      then ret (Some (cache_data cacheData), cache)
      else ret (None, cache_removeItem key cache)
  end.

(** [searchRecipesWithCache(query, filters)]: [filtersJson] is
    [JSON.stringify(filters)] and [results] is what [searchRecipes]
    resolves to should it be awaited. *)
Definition searchRecipesWithCache (query filtersJson : string) (results : list Recipe)
           (cache : ApiCache) : M (list Recipe * ApiCache) :=
  let cacheKey := ("search_" ++ query ++ "_" ++ filtersJson)%string in
  looked <- getCachedAPIResponse cacheKey cache ;;
  match fst looked with
  | Some cached => ret (cached, snd looked)
  | None =>
      if (0 <? List.length results)%nat
      then cache' <- cacheAPIResponse cacheKey results (Some 30%Z) (snd looked) ;;
           ret (results, cache')
      else ret (results, snd looked)
  end.

(* ===================================================================== *)
(** ** Notions used to state the further properties *)
(* ===================================================================== *)

(** The five collections of the store. *)
Inductive collection : Type :=
| Favorites | Plan | Shopping | Preferences | Searches.

(** Two stores hold the same value for a collection. *)
Definition same_at (c : collection) (s s' : Store) : Prop :=
  match c with
  | Favorites => favorites s = favorites s'
  | Plan => meal_plan s = meal_plan s'
  | Shopping => shopping_list s = shopping_list s'
  | Preferences => user_preferences s = user_preferences s'
  | Searches => recent_searches s = recent_searches s'
  end.

(** The thirteen operations of the storage module that write one of the
    five collections through the functions of that collection. The module
    also exports [removeFromStorage] and [clearAllStorage], which are
    added to them in [module_call] below, [saveToStorage], which stores
    any value under a key, and [updatePreference]; the last two are not
    among the calls considered. *)
Inductive storage_op : Type :=
| OpAddToFavorites (recipe : Recipe)
| OpRemoveFromFavorites (recipeId : Z)
| OpClearFavorites
| OpAddMealToPlan (day mealType : string) (recipe : Recipe)
| OpRemoveMealFromPlan (day mealType : string)
| OpClearMealPlan
| OpAddToShoppingList (item : NewItem)
| OpRemoveFromShoppingList (itemId : Z)
| OpToggleShoppingItem (itemId : Z)
| OpClearShoppingList
| OpSaveUserPreferences (preferences : UserPreferences)
| OpAddRecentSearch (query : string)
| OpClearRecentSearches.

Definition run_storage_op (op : storage_op) : M unit :=
  match op with
  | OpAddToFavorites recipe => addToFavorites recipe ;;; ret tt
  | OpRemoveFromFavorites recipeId => removeFromFavorites recipeId
  | OpClearFavorites => clearFavorites
  | OpAddMealToPlan day mealType recipe => addMealToPlan day mealType recipe ;;; ret tt
  | OpRemoveMealFromPlan day mealType => removeMealFromPlan day mealType ;;; ret tt
  | OpClearMealPlan => clearMealPlan
  | OpAddToShoppingList item => addToShoppingList item ;;; ret tt
  | OpRemoveFromShoppingList itemId => removeFromShoppingList itemId
  | OpToggleShoppingItem itemId => toggleShoppingItem itemId ;;; ret tt
  | OpClearShoppingList => clearShoppingList
  | OpSaveUserPreferences preferences => saveUserPreferences preferences
  | OpAddRecentSearch query => addRecentSearch query
  | OpClearRecentSearches => clearRecentSearches
  end.

(** The collection an operation works on. *)
Definition collection_of (op : storage_op) : collection :=
  match op with
  | OpAddToFavorites _ | OpRemoveFromFavorites _ | OpClearFavorites => Favorites
  | OpAddMealToPlan _ _ _ | OpRemoveMealFromPlan _ _ | OpClearMealPlan => Plan
  | OpAddToShoppingList _ | OpRemoveFromShoppingList _ | OpToggleShoppingItem _
  | OpClearShoppingList => Shopping
  | OpSaveUserPreferences _ => Preferences
  | OpAddRecentSearch _ | OpClearRecentSearches => Searches
  end.

(** [removeFromStorage(key)] for the key of a collection. *)
Definition remove_collection (c : collection) : M bool :=
  match c with
  | Favorites => removeFromStorage FAVORITES
  | Plan => removeFromStorage MEAL_PLAN
  | Shopping => removeFromStorage SHOPPING_LIST
  | Preferences => removeFromStorage USER_PREFERENCES
  | Searches => removeFromStorage RECENT_SEARCHES
  end.

(** The calls under which the stored records are followed: one of the
    thirteen operations, [removeFromStorage] of one of the five keys, or
    [clearAllStorage]. *)
Inductive module_call : Type :=
| CallOp (op : storage_op)
| CallRemoveFromStorage (c : collection)
| CallClearAllStorage.

Definition run_module_call (call : module_call) : M unit :=
  match call with
  | CallOp op => run_storage_op op
  | CallRemoveFromStorage c => remove_collection c ;;; ret tt
  | CallClearAllStorage => clearAllStorage
  end.

(** The world after a sequence of separate calls. *)
Definition after_calls (calls : list module_call) (w : World) : World :=
  fold_left (fun w call => exec (run_module_call call) w) calls w.

(** No call has assigned to a property of a builtin object so far. The
    reads of [Get] describe the program in such a world only: once a
    write is logged, what the builtin objects answer is no longer what
    [Object_prototype_names] and the other definitions assume. *)
Definition realm_intact (w : World) : Prop := builtin_writes w = [].

Definition stored_preferences (w : World) : UserPreferences :=
  or_default (user_preferences (localStorage w)) default_preferences.

(** The goals are within the ranges the preferences form accepts. *)
Definition goals_in_range (prefs : UserPreferences) : Prop :=
  (1000 <= calorieGoal prefs <= 5000)%Z /\
  (50 <= proteinGoal prefs <= 300)%Z /\
  (50 <= carbsGoal prefs <= 500)%Z /\
  (20 <= fatGoal prefs <= 150)%Z.

(** No two stored items have the same name up to case. *)
Definition unique_by_name (items : list ShoppingItem) : Prop :=
  NoDup (map (fun i => toLowerCase (item_name i)) items).

(** A world whose clock advances by one millisecond at every reading. *)
Definition ticking_world : World :=
  mkWorld empty_store (fun n => sample_time + Z.of_nat n)%Z 0 [].

(** Whether a recipe id occurs in a list of favorites. *)
Definition is_member (recipeId : Z) (favs : list Recipe) : bool :=
  existsb (fun fav => (recipe_id fav =? recipeId)%Z) favs.

(** The clock strictly advances from one reading to the next. *)
Definition clock_advances (w : World) : Prop :=
  forall n : nat, (clock w n < clock w (S n))%Z.

(** The stored ids are distinct and all earlier than the next reading of
    the clock. *)
Definition ids_fresh (w : World) : Prop :=
  NoDup (map item_id (stored_shopping_list w)) /\
  forall i, In i (stored_shopping_list w) -> (item_id i < clock w (ticks w))%Z.

(** An item with its [checked] flag flipped. *)
Definition flipped (i : ShoppingItem) : ShoppingItem :=
  mkShoppingItem (item_id i) (item_name i) (item_category i)
                 (negb (item_checked i)) (item_addedAt i).

(** The stored queries are distinct and none is blank. *)
Definition searches_well_formed (searches : list string) : Prop :=
  NoDup searches /\ Forall (fun s => whitespace_only s = false) searches.

(** The record [handleSavePreferences] builds from the form at clock
    reading [now]. *)
Definition submitted_preferences (form : PreferencesForm) (now : Z) : UserPreferences :=
  mkUserPreferences
    (checked_diets form) (checked_allergies form) (checked_cuisines form)
    (int_or (parseInt (calorieGoal_value form)) 2000)
    (int_or (parseInt (proteinGoal_value form)) 150)
    (int_or (parseInt (carbsGoal_value form)) 250)
    (int_or (parseInt (fatGoal_value form)) 65)
    (maxCookingTime_value form)
    (Some now).

Definition sum_values (values : list Z) : Z := fold_right Z.add 0%Z values.

(** [toggleFavoriteDetail(recipe, button)] of the recipe page, which has
    the recipe at hand; the result is the text left on the button. *)
Inductive save_label : Type := SaveToFavorites | Saved.

Definition toggleFavoriteDetail (recipe : Recipe) : M save_label :=
  isFavorite <- isInFavorites (recipe_id recipe) ;;
  if isFavorite then
    removeFromFavorites (recipe_id recipe) ;;;
    ret SaveToFavorites
  else
    addToFavorites recipe ;;;
    ret Saved.

(** What a visitor can do with the preferences form. *)
Inductive form_action : Type :=
| Submit (form : PreferencesForm)
| Reset (confirmed : bool).

Definition run_form_action (action : form_action) : M unit :=
  match action with
  | Submit form => handleSavePreferences form
  | Reset confirmed => handleResetPreferences confirmed
  end.

Definition after_form_actions (actions : list form_action) (w : World) : World :=
  fold_left (fun w action => exec (run_form_action action) w) actions w.

(** No nutrient of the recipe has a negative amount. *)
Definition amounts_nonnegative (recipe : Recipe) : Prop :=
  forall (nutrition : Nutrition) (l : list Nutrient) (n : Nutrient),
    recipe_nutrition recipe = Some nutrition ->
    nutrients nutrition = Some l ->
    In n l -> (0 <= nutrient_amount n)%Q.

(* ===================================================================== *)
(** * Properties *)
(* ===================================================================== *)

(** ** Reading the store *)

Lemma getFavorites_run (w : World) : getFavorites w = (Ret (stored_favorites w), w).
Proof. reflexivity. Qed.

Lemma getMealPlan_run (w : World) : getMealPlan w = (Ret (stored_plan w), w).
Proof. reflexivity. Qed.

Lemma getShoppingList_run (w : World) :
  getShoppingList w = (Ret (stored_shopping_list w), w).
Proof. reflexivity. Qed.

Lemma getRecentSearches_run (w : World) :
  getRecentSearches w = (Ret (stored_searches w), w).
Proof. reflexivity. Qed.

(** ** Favorites *)

Lemma existsb_id_In (id : Z) (favs : list Recipe) :
  existsb (fun fav => (recipe_id fav =? id)%Z) favs = true <->
  In id (map recipe_id favs).
Proof.
  rewrite existsb_exists, in_map_iff. split.
  - intros (fav & Hin & Heq). exists fav. apply Z.eqb_eq in Heq. auto.
  - intros (fav & Heq & Hin). exists fav. split; [exact Hin | now apply Z.eqb_eq].
Qed.

Lemma existsb_id_not_In (id : Z) (favs : list Recipe) :
  existsb (fun fav => (recipe_id fav =? id)%Z) favs = false <->
  ~ In id (map recipe_id favs).
Proof.
  rewrite <- existsb_id_In. destruct (existsb _ favs); split; congruence.
Qed.

Lemma addToFavorites_present (w : World) (recipe : Recipe) :
  In (recipe_id recipe) (map recipe_id (stored_favorites w)) ->
  addToFavorites recipe w = (Ret false, w).
Proof.
  intros Hin. apply existsb_id_In in Hin.
  unfold addToFavorites, bind. rewrite getFavorites_run, Hin. reflexivity.
Qed.

Lemma addToFavorites_absent (w : World) (recipe : Recipe) :
  ~ In (recipe_id recipe) (map recipe_id (stored_favorites w)) ->
  addToFavorites recipe w = (Ret true, after_addToFavorites recipe w).
Proof.
  intros Hnin. apply existsb_id_not_In in Hnin.
  unfold addToFavorites, bind. rewrite getFavorites_run, Hnin. reflexivity.
Qed.

Lemma stored_after_addToFavorites (recipe : Recipe) (w : World) :
  stored_favorites (after_addToFavorites recipe w) =
  stored_favorites w ++ [with_addedAt recipe (clock w (ticks w))].
Proof. reflexivity. Qed.

Lemma unique_by_id_snoc (favs : list Recipe) (fav : Recipe) :
  unique_by_id favs ->
  ~ In (recipe_id fav) (map recipe_id favs) ->
  unique_by_id (favs ++ [fav]).
Proof.
  unfold unique_by_id. intros Hnd Hnin.
  rewrite map_app. simpl.
  apply NoDup_rev in Hnd. rewrite <- (rev_involutive (map recipe_id favs ++ _)).
  apply NoDup_rev. rewrite rev_app_distr. simpl.
  constructor; [ | exact Hnd ].
  rewrite <- in_rev. exact Hnin.
Qed.

Lemma unique_by_id_filter (keep : Recipe -> bool) (favs : list Recipe) :
  unique_by_id favs -> unique_by_id (filter keep favs).
Proof.
  unfold unique_by_id. induction favs as [ | fav favs IH ]; simpl; intros Hnd.
  - constructor.
  - inversion Hnd as [ | x l Hnin Hnd' ]; subst.
    destruct (keep fav); simpl; [ | now apply IH ].
    constructor; [ | now apply IH ].
    intros Hin. apply Hnin.
    apply in_map_iff in Hin. destruct Hin as (y & Hy & Hin).
    apply filter_In in Hin. apply in_map_iff. exists y. tauto.
Qed.

Lemma addToFavorites_unique (w : World) (recipe : Recipe) :
  unique_by_id (stored_favorites w) ->
  unique_by_id (stored_favorites (exec (addToFavorites recipe) w)).
Proof.
  intros Hu. unfold exec.
  destruct (in_dec Z.eq_dec (recipe_id recipe) (map recipe_id (stored_favorites w)))
    as [ Hin | Hnin ].
  - rewrite (addToFavorites_present _ _ Hin). exact Hu.
  - rewrite (addToFavorites_absent _ _ Hnin). simpl snd.
    rewrite stored_after_addToFavorites.
    apply unique_by_id_snoc; assumption.
Qed.

Lemma occurrences_snoc (id : Z) (favs : list Recipe) (fav : Recipe) :
  recipe_id fav = id ->
  occurrences_of_id id (favs ++ [fav]) = S (occurrences_of_id id favs).
Proof.
  intros Hid. unfold occurrences_of_id.
  rewrite map_app, count_occ_app. simpl.
  destruct (Z.eq_dec (recipe_id fav) id); [ lia | contradiction ].
Qed.

Lemma addToFavorites_twice (w : World) (recipe again : Recipe) :
  unique_by_id (stored_favorites w) ->
  recipe_id again = recipe_id recipe ->
  let w1 := exec (addToFavorites recipe) w in
  addToFavorites again w1 = (Ret false, w1) /\
  occurrences_of_id (recipe_id recipe) (stored_favorites w1) = 1%nat.
Proof.
  intros Hu Hid w1. subst w1. unfold exec.
  destruct (in_dec Z.eq_dec (recipe_id recipe) (map recipe_id (stored_favorites w)))
    as [ Hin | Hnin ].
  - rewrite (addToFavorites_present _ _ Hin). simpl snd. split.
    + apply addToFavorites_present. now rewrite Hid.
    + unfold occurrences_of_id. now apply NoDup_count_occ'.
  - rewrite (addToFavorites_absent _ _ Hnin). simpl snd. split.
    + apply addToFavorites_present. rewrite Hid, stored_after_addToFavorites.
      rewrite map_app. apply in_or_app. right. simpl. now left.
    + rewrite stored_after_addToFavorites, occurrences_snoc by reflexivity.
      f_equal. unfold occurrences_of_id. now apply count_occ_not_In.
Qed.

Lemma favorites_op_unique (op : favorites_op) (w : World) :
  unique_by_id (stored_favorites w) ->
  unique_by_id (stored_favorites (exec (run_favorites_op op) w)).
Proof.
  intros Hu. destruct op as [ | recipe | recipeId | recipeId | ].
  - exact Hu.
  - pose proof (addToFavorites_unique w recipe Hu) as H.
    unfold exec in *. simpl. unfold bind.
    destruct (addToFavorites recipe w) as [ [ b | e ] w' ]; exact H.
  - apply (unique_by_id_filter _ _ Hu).
  - exact Hu.
  - constructor.
Qed.

(** C1. On every stored collection, [addToFavorites] of a recipe whose id
    is already there returns false and changes nothing; of a recipe whose
    id is not there it returns true and appends the recipe with its
    [addedAt] set to the one clock reading the call takes (replacing an
    [addedAt] the recipe came with) and its other fields as they are.
    Starting from a collection unique by id, adding the same
    id twice leaves exactly one entry with that id (the second call
    returns false), and every favorites operation keeps the collection
    unique by id. *)
Theorem addToFavorites_unique_by_id :
  forall (w : World) (recipe : Recipe),
    (In (recipe_id recipe) (map recipe_id (stored_favorites w)) ->
     addToFavorites recipe w = (Ret false, w))
    /\
    (~ In (recipe_id recipe) (map recipe_id (stored_favorites w)) ->
     addToFavorites recipe w = (Ret true, after_addToFavorites recipe w) /\
     stored_favorites (after_addToFavorites recipe w) =
       stored_favorites w ++ [with_addedAt recipe (clock w (ticks w))] /\
     favorites (localStorage (exec (addToFavorites recipe) w)) =
       Some (stored_favorites w ++
             [mkRecipe (recipe_id recipe) (recipe_title recipe) (recipe_nutrition recipe)
                       (extendedIngredients recipe) (Some (clock w (ticks w)))]) /\
     ticks (exec (addToFavorites recipe) w) = S (ticks w))
    /\
    (unique_by_id (stored_favorites w) ->
     forall again : Recipe,
       recipe_id again = recipe_id recipe ->
       let w1 := exec (addToFavorites recipe) w in
       addToFavorites again w1 = (Ret false, w1) /\
       occurrences_of_id (recipe_id recipe) (stored_favorites w1) = 1%nat)
    /\
    (unique_by_id (stored_favorites w) ->
     forall op : favorites_op,
       unique_by_id (stored_favorites (exec (run_favorites_op op) w))).
Proof.
  intros w recipe. split; [ | split; [ | split ] ].
  - apply addToFavorites_present.
  - intros Hnin. split; [ now apply addToFavorites_absent | ].
    split; [ reflexivity | ].
    unfold exec. rewrite (addToFavorites_absent _ _ Hnin).
    split; reflexivity.
  - intros Hu again Hid. now apply addToFavorites_twice.
  - intros Hu op. now apply favorites_op_unique.
Qed.

Lemma addToFavorites_unique_by_id_witness :
  addToFavorites soup fresh_world = (Ret true, after_addToFavorites soup fresh_world) /\
  favorites (localStorage (exec (addToFavorites soup) fresh_world)) =
    Some [mkRecipe 715538 "Soup" None None (Some sample_time)] /\
  occurrences_of_id (recipe_id soup)
    (stored_favorites (exec (addToFavorites soup) fresh_world)) = 1%nat /\
  unique_by_id (stored_favorites (exec (run_favorites_op (AddToFavorites soup)) fresh_world)).
Proof.
  destruct (addToFavorites_unique_by_id fresh_world soup)
    as (_ & Habsent & Htwice & Hops).
  assert (Hnew : ~ In (recipe_id soup) (map recipe_id (stored_favorites fresh_world)))
    by (simpl; tauto).
  split; [ | split; [ | split ] ].
  - apply (Habsent Hnew).
  - apply (Habsent Hnew).
  - apply (Htwice (NoDup_nil _) soup eq_refl).
  - apply (Hops (NoDup_nil _)).
Defined.

(** ** Own properties of plain objects *)

Lemma has_own_spec {V} (k : string) (o : obj V) :
  has_own k o = true <-> exists v, own_get k o = Some v.
Proof.
  unfold has_own. destruct (own_get k o) as [ v | ]; split.
  - intros _. now exists v.
  - reflexivity.
  - discriminate.
  - intros (v & Hv). discriminate.
Qed.

Lemma own_get_update_own {V} (k : string) (v : V) (o : obj V) :
  has_own k o = true -> own_get k (update_own k v o) = Some v.
Proof.
  unfold has_own. induction o as [ | [k' v'] o IH ]; simpl.
  - discriminate.
  - destruct (String.eqb_spec k' k) as [ -> | Hne ]; simpl.
    + now rewrite String.eqb_refl.
    + intros H. apply String.eqb_neq in Hne. rewrite Hne. now apply IH.
Qed.

Lemma update_own_same {V} (k : string) (v : V) (o : obj V) :
  own_get k o = Some v -> update_own k v o = o.
Proof.
  induction o as [ | [k' v'] o IH ]; simpl.
  - reflexivity.
  - destruct (k' =? k)%string.
    + now intros [= ->].
    + intros H. now rewrite IH.
Qed.

Lemma own_get_update_own_other {V} (k k' : string) (v : V) (o : obj V) :
  k' <> k -> own_get k' (update_own k v o) = own_get k' o.
Proof.
  intros Hne. induction o as [ | [k0 v0] o IH ]; simpl.
  - reflexivity.
  - destruct (String.eqb_spec k0 k) as [ -> | Hk ]; simpl.
    + destruct (String.eqb_spec k k') as [ <- | _ ]; [ contradiction | reflexivity ].
    + now rewrite IH.
Qed.

Lemma Object_keys_update_own {V} (k : string) (v : V) (o : obj V) :
  Object_keys (update_own k v o) = Object_keys o.
Proof.
  unfold Object_keys. induction o as [ | [k' v'] o IH ]; simpl.
  - reflexivity.
  - destruct (k' =? k)%string; simpl; [ reflexivity | now rewrite IH ].
Qed.

Lemma own_get_snoc {V} (k k' : string) (v : V) (o : obj V) :
  own_get k' (o ++ [(k, v)]) =
  match own_get k' o with
  | Some v' => Some v'
  | None => if (k =? k')%string then Some v else None
  end.
Proof.
  induction o as [ | [k0 v0] o IH ]; simpl.
  - reflexivity.
  - destruct (k0 =? k')%string; [ reflexivity | exact IH ].
Qed.

Lemma own_get_insert_index {V} (n : N) (k k' : string) (v : V) (o : obj V) :
  own_get k o = None ->
  own_get k' (insert_index n k v o) =
  if (k =? k')%string then Some v else own_get k' o.
Proof.
  induction o as [ | [k0 v0] o IH ]; simpl; intros Hnone.
  - reflexivity.
  - destruct (String.eqb_spec k0 k) as [ -> | Hk0 ]; [ discriminate | ].
    destruct (array_index k0) as [ n0 | ]; [ destruct (n0 <? n)%N | ]; simpl;
      try reflexivity.
    rewrite (IH Hnone).
    destruct (String.eqb_spec k k') as [ <- | Hk ].
    + apply String.eqb_neq in Hk0. now rewrite Hk0.
    + reflexivity.
Qed.

Lemma own_get_define_own {V} (k k' : string) (v : V) (o : obj V) :
  own_get k o = None ->
  own_get k' (define_own k v o) =
  if (k =? k')%string then Some v else own_get k' o.
Proof.
  intros Hnone. unfold define_own. destruct (array_index k) as [ n | ].
  - now apply own_get_insert_index.
  - rewrite own_get_snoc.
    destruct (String.eqb_spec k k') as [ <- | Hk ].
    + now rewrite Hnone.
    + now destruct (own_get k' o).
Qed.

(** After [o[k] = v] the own property [k] holds [v], unless [k] is the
    accessor name [__proto__] and [o] has no own property of that name. *)
Lemma own_get_Put {V} (k : string) (v : V) (o : obj V) :
  k <> "__proto__" -> own_get k (Put k v o) = Some v.
Proof.
  intros Hk. unfold Put. destruct (has_own k o) eqn:Hown.
  - now apply own_get_update_own.
  - apply String.eqb_neq in Hk. rewrite Hk.
    rewrite own_get_define_own, String.eqb_refl; [ reflexivity | ].
    unfold has_own in Hown. now destruct (own_get k o).
Qed.

(** An own property is overwritten, whatever its name. *)
Lemma own_get_Put_own {V} (k : string) (v : V) (o : obj V) :
  has_own k o = true -> own_get k (Put k v o) = Some v.
Proof.
  intros Hown. unfold Put. rewrite Hown. now apply own_get_update_own.
Qed.

(** The key [__proto__] that is not an own property leaves the own
    properties as they are. *)
Lemma Put_proto_not_own {V} (v : V) (o : obj V) :
  has_own "__proto__" o = false -> Put "__proto__" v o = o.
Proof.
  intros Hown. unfold Put. now rewrite Hown.
Qed.

(** The other own properties are left as they were. *)
Lemma own_get_Put_other {V} (k k' : string) (v : V) (o : obj V) :
  k' <> k -> own_get k' (Put k v o) = own_get k' o.
Proof.
  intros Hne. unfold Put. destruct (has_own k o) eqn:Hown.
  - now apply own_get_update_own_other.
  - destruct (k =? "__proto__")%string; [ reflexivity | ].
    rewrite own_get_define_own.
    + destruct (String.eqb_spec k k') as [ <- | _ ]; [ contradiction | reflexivity ].
    + unfold has_own in Hown. now destruct (own_get k o).
Qed.

Lemma week_day_not_inherited (day : string) :
  In day week_days -> inherited day = false.
Proof.
  simpl. intros H. repeat (destruct H as [ <- | H ]; [ reflexivity | ]). contradiction.
Qed.

(** ** Meal plan *)

Lemma addMealToPlan_own_day (w : World) (day mealType : string) (recipe : Recipe)
      (dayMeals : DayMeals) :
  own_get day (stored_plan w) = Some dayMeals ->
  addMealToPlan day mealType recipe w =
  (Ret true,
   with_storage
     (setItem MEAL_PLAN
              (update_own day (Put mealType (Some recipe) dayMeals) (stored_plan w))
              (localStorage w))
     w).
Proof.
  intros Hday. unfold addMealToPlan, bind. rewrite getMealPlan_run.
  unfold Get. rewrite Hday. reflexivity.
Qed.

(** A day that is neither an own key of the plan nor a name inherited
    from [Object.prototype] is rejected and nothing is written. *)
Lemma addMealToPlan_unknown_day (w : World) (day mealType : string) (recipe : Recipe) :
  own_get day (stored_plan w) = None ->
  inherited day = false ->
  addMealToPlan day mealType recipe w = (Ret false, w).
Proof.
  intros Hday Hinh. unfold addMealToPlan, bind. rewrite getMealPlan_run.
  unfold Get. rewrite Hday, Hinh. reflexivity.
Qed.

(** A day that names an inherited property passes the validity test: the
    recipe is written onto the builtin and the plan is saved. *)
Lemma addMealToPlan_inherited_day (w : World) (day mealType : string) (recipe : Recipe) :
  own_get day (stored_plan w) = None ->
  inherited day = true ->
  mealType <> "__proto__" ->
  addMealToPlan day mealType recipe w =
  (Ret true,
   mkWorld (setItem MEAL_PLAN (stored_plan w) (localStorage w)) (clock w) (ticks w)
           (builtin_writes w ++ [(day, mealType)])).
Proof.
  intros Hday Hinh Hmt. unfold addMealToPlan, bind. rewrite getMealPlan_run.
  unfold Get. rewrite Hday, Hinh. unfold builtin_assign.
  apply String.eqb_neq in Hmt. rewrite Hmt, andb_false_r. reflexivity.
Qed.

Lemma has_week_days_default : has_week_days default_plan.
Proof.
  intros day H. simpl in H.
  repeat (destruct H as [ <- | H ]; [ reflexivity | ]). contradiction.
Qed.

Lemma has_week_days_update_own (plan : MealPlan) (day : string) (dayMeals : DayMeals) :
  has_week_days plan -> has_week_days (update_own day dayMeals plan).
Proof.
  intros Hwd d Hd. specialize (Hwd d Hd).
  destruct (String.eqb_spec d day) as [ -> | Hne ].
  - unfold has_own. now rewrite own_get_update_own.
  - unfold has_own in *. now rewrite own_get_update_own_other.
Qed.

(** A misspelt day is rejected, as the specification asks. *)
Example addMealToPlan_funday :
  addMealToPlan "funday" "lunch" soup fresh_world = (Ret false, fresh_world).
Proof. now apply addMealToPlan_unknown_day. Qed.

(** With both keys equal to [__proto__] the call does not return: the
    setter refuses to change the prototype of [Object.prototype]. *)
Example addMealToPlan_proto_proto :
  addMealToPlan "__proto__" "__proto__" soup fresh_world = (Throw TypeError, fresh_world).
Proof. reflexivity. Qed.

(** C3. The day test of [addMealToPlan] lets through a day that is not
    one of the seven weekday keys: for the day [constructor], a name
    every plain object inherits, the call on a fresh store returns true
    instead of false, writes the recipe onto the builtin and persists a
    meal-plan record where there was none. *)
Theorem addMealToPlan_accepts_inherited_day :
  ~ In "constructor" week_days /\
  meal_plan (localStorage fresh_world) = None /\
  addMealToPlan "constructor" "lunch" soup fresh_world =
    (Ret true,
     mkWorld (setItem MEAL_PLAN default_plan empty_store) (clock fresh_world) 0
             [("constructor", "lunch")]).
Proof.
  split; [ | split ].
  - simpl. intros H.
    repeat (destruct H as [ H | H ]; [ discriminate H | ]). exact H.
  - reflexivity.
  - reflexivity.
Qed.

(** C4. [addMealToPlan] checks the day only. For a stored plan that has
    the seven days and every weekday, the call returns true and persists
    a plan with the seven days, whatever the mealType. The recipe is then
    the own slot [mealType] of that day, whether or not [mealType] is one
    of breakfast, lunch, dinner, with one exception: for the mealType
    [__proto__], on a day object that has no own key of that name, the
    assignment goes to the prototype accessor, so the call still returns
    true but the persisted plan is the plan as it was read and has no
    such slot. *)
Theorem addMealToPlan_drops_proto_mealType :
  forall (w : World) (day mealType : string) (recipe : Recipe),
    has_week_days (stored_plan w) ->
    In day week_days ->
    exists (dayMeals : DayMeals) (w' : World),
      own_get day (stored_plan w) = Some dayMeals /\
      addMealToPlan day mealType recipe w = (Ret true, w') /\
      meal_plan (localStorage w') = Some (stored_plan w') /\
      has_week_days (stored_plan w') /\
      (mealType <> "__proto__" \/ has_own "__proto__" dayMeals = true ->
       own_slot (stored_plan w') day mealType = Some (Some recipe)) /\
      (mealType = "__proto__" -> has_own "__proto__" dayMeals = false ->
       stored_plan w' = stored_plan w /\
       own_slot (stored_plan w') day mealType = None).
Proof.
  intros w day mealType recipe Hdays Hday.
  destruct (proj1 (has_own_spec day (stored_plan w)) (Hdays day Hday)) as (dayMeals & Hget).
  exists dayMeals. eexists.
  split; [ exact Hget | ].
  split; [ apply (addMealToPlan_own_day _ _ _ _ _ Hget) | ].
  assert (Hplan : forall plan, stored_plan
            (with_storage (setItem MEAL_PLAN plan (localStorage w)) w) = plan)
    by (intros plan; destruct w as [ [ f m s u r ] c t b ]; reflexivity).
  split; [ destruct w as [ [ f m s u r ] c t b ]; reflexivity | ].
  rewrite Hplan.
  split; [ now apply has_week_days_update_own | ].
  split.
  - intros Hstored. unfold own_slot.
    rewrite own_get_update_own by (now apply Hdays).
    destruct (String.eqb_spec mealType "__proto__") as [ -> | Hmt ].
    + destruct Hstored as [ Hmt | Hown ]; [ contradiction | ].
      now apply own_get_Put_own.
    + now apply own_get_Put.
  - intros -> Hnone.
    assert (Hput : Put "__proto__" (Some recipe) dayMeals = dayMeals)
      by (now apply Put_proto_not_own).
    unfold MealPlan, DayMeals, Slot in *.
    rewrite Hput, (update_own_same _ _ _ Hget).
    split; [ reflexivity | ].
    unfold own_slot, has_own in *. unfold MealPlan, DayMeals, Slot in *.
    rewrite Hget. now destruct (own_get "__proto__" dayMeals).
Qed.

Lemma addMealToPlan_drops_proto_mealType_witness :
  ~ In "brunch" meal_types /\
  (exists w' : World,
     addMealToPlan "monday" "brunch" soup fresh_world = (Ret true, w') /\
     own_slot (stored_plan w') "monday" "brunch" = Some (Some soup)) /\
  (exists w' : World,
     addMealToPlan "monday" "__proto__" soup fresh_world = (Ret true, w') /\
     stored_plan w' = default_plan /\
     own_slot (stored_plan w') "monday" "__proto__" = None).
Proof.
  assert (Hmonday : In "monday" week_days) by (simpl; tauto).
  split; [ | split ].
  - simpl. intros H.
    repeat (destruct H as [ H | H ]; [ discriminate H | ]). exact H.
  - destruct (addMealToPlan_drops_proto_mealType
                fresh_world "monday" "brunch" soup has_week_days_default Hmonday)
      as (dayMeals & w' & _ & Hrun & _ & _ & Hstored & _).
    exists w'. split; [ exact Hrun | ].
    apply Hstored. left. discriminate.
  - destruct (addMealToPlan_drops_proto_mealType
                fresh_world "monday" "__proto__" soup has_week_days_default Hmonday)
      as (dayMeals & w' & Hget & Hrun & _ & _ & _ & Hdropped).
    injection Hget as <-.
    exists w'. split; [ exact Hrun | ].
    apply (Hdropped eq_refl eq_refl).
Defined.

(** C5. On a store with no meal-plan record [getMealPlan] returns the
    plan with the seven weekday keys, each with the breakfast, lunch and
    dinner slots, all 21 slots null, and it writes nothing: the record is
    still absent afterwards. *)
Theorem getMealPlan_default :
  forall w : World,
    meal_plan (localStorage w) = None ->
    getMealPlan w = (Ret default_plan, w) /\
    meal_plan (localStorage (exec getMealPlan w)) = None /\
    standard_shape default_plan /\
    (forall day mealType,
        In day week_days -> In mealType meal_types ->
        own_slot default_plan day mealType = Some None) /\
    flat_map (fun dayMeals : DayMeals => Object_values dayMeals) (Object_values default_plan) =
      repeat None 21.
Proof.
  intros w Hnone.
  assert (Hrun : getMealPlan w = (Ret default_plan, w)).
  { rewrite getMealPlan_run. unfold stored_plan. now rewrite Hnone. }
  split; [ exact Hrun | ].
  split; [ unfold exec; now rewrite Hrun | ].
  split; [ split; [ reflexivity | repeat constructor ] | ].
  split; [ | reflexivity ].
  intros day mealType Hday Hmt. simpl in Hday, Hmt.
  repeat (destruct Hday as [ <- | Hday ];
          [ repeat (destruct Hmt as [ <- | Hmt ]; [ reflexivity | ]); contradiction | ]).
  contradiction.
Qed.

Lemma getMealPlan_default_witness :
  getMealPlan fresh_world = (Ret default_plan, fresh_world) /\
  meal_plan (localStorage (exec getMealPlan fresh_world)) = None.
Proof.
  destruct (getMealPlan_default fresh_world eq_refl) as (Hrun & Habsent & _).
  split; assumption.
Defined.

(** ** Enumerating the planned meals *)

(** A loop that pushes onto [meals] what [f] gives for each element. *)
Lemma fold_left_push {A B} (f : A -> list B) (l : list A) (meals : list B) :
  fold_left (fun meals x => meals ++ f x) l meals = meals ++ flat_map f l.
Proof.
  revert meals. induction l as [ | x l IH ]; intros meals; simpl.
  - now rewrite app_nil_r.
  - now rewrite IH, app_assoc.
Qed.

Lemma flat_map_ext_In {A B} (f g : A -> list B) (l : list A) :
  (forall x, In x l -> f x = g x) -> flat_map f l = flat_map g l.
Proof.
  induction l as [ | x l IH ]; simpl; intros H.
  - reflexivity.
  - rewrite (H x) by now left. f_equal. apply IH. intros y Hy. apply H. now right.
Qed.

Lemma flat_map_nil {A B} (l : list A) : flat_map (fun _ : A => @nil B) l = [].
Proof. induction l; simpl; auto. Qed.

Lemma inner_loop_meals (day : string) (dayMeals : DayMeals) (keys : list string)
      (meals : list Meal) :
  fold_left
    (fun meals mealType =>
       match own_get mealType dayMeals with
       | Some (Some meal) => meals ++ [mkMeal day mealType meal]
       | _ => meals
       end)
    keys meals =
  meals ++
  flat_map
    (fun mealType =>
       match own_get mealType dayMeals with
       | Some (Some meal) => [mkMeal day mealType meal]
       | _ => []
       end)
    keys.
Proof.
  rewrite <- fold_left_push. revert meals.
  induction keys as [ | mealType keys IH ]; intros meals; simpl.
  - reflexivity.
  - rewrite <- IH. f_equal.
    destruct (own_get mealType dayMeals) as [ [ meal | ] | ]; simpl;
      now rewrite ?app_nil_r.
Qed.

Lemma outer_loop_meals (plan : MealPlan) (days : list string) (meals : list Meal) :
  fold_left
    (fun meals day =>
       match own_get day plan with
       | Some dayMeals =>
           fold_left
             (fun meals mealType =>
                match own_get mealType dayMeals with
                | Some (Some meal) => meals ++ [mkMeal day mealType meal]
                | _ => meals
                end)
             (Object_keys dayMeals) meals
       | None => meals
       end)
    days meals =
  meals ++
  flat_map
    (fun day =>
       match own_get day plan with
       | Some dayMeals => meals_of_day day dayMeals
       | None => []
       end)
    days.
Proof.
  revert meals. induction days as [ | day days IH ]; intros meals; simpl.
  - now rewrite app_nil_r.
  - rewrite IH. destruct (own_get day plan) as [ dayMeals | ]; simpl.
    + rewrite inner_loop_meals. unfold meals_of_day. now rewrite app_assoc.
    + reflexivity.
Qed.

(** What the two nested loops compute, for any stored plan. *)
Lemma getAllMealsFromPlan_run (w : World) :
  getAllMealsFromPlan w =
  (Ret (flat_map
          (fun day =>
             match own_get day (stored_plan w) with
             | Some dayMeals => meals_of_day day dayMeals
             | None => []
             end)
          (Object_keys (stored_plan w))),
   w).
Proof.
  unfold getAllMealsFromPlan, bind. rewrite getMealPlan_run. unfold ret.
  now rewrite outer_loop_meals.
Qed.

Lemma own_get_In_values {V} (k : string) (v : V) (o : obj V) :
  own_get k o = Some v -> In v (Object_values o).
Proof.
  unfold Object_values. induction o as [ | [k' v'] o IH ]; simpl.
  - discriminate.
  - destruct (k' =? k)%string.
    + intros [= ->]. now left.
    + intros H. right. now apply IH.
Qed.

Lemma getAllMealsFromPlan_standard (w : World) :
  standard_shape (stored_plan w) ->
  getAllMealsFromPlan w = (Ret (enumerate_meals (stored_plan w)), w).
Proof.
  intros (Hdays & Hslots). rewrite getAllMealsFromPlan_run, Hdays.
  do 2 f_equal. unfold enumerate_meals. apply flat_map_ext_In. intros day _.
  unfold own_slot. destruct (own_get day (stored_plan w)) as [ dayMeals | ] eqn:Hget.
  - unfold meals_of_day. rewrite Forall_forall in Hslots.
    now rewrite (Hslots dayMeals (own_get_In_values _ _ _ Hget)).
  - now rewrite flat_map_nil.
Qed.

(** The slots of the plan after a recipe was put into one of them. *)
Lemma own_slot_after_put (plan : MealPlan) (day mealType : string) (slot : Slot)
      (dayMeals : DayMeals) (d m : string) :
  own_get day plan = Some dayMeals ->
  mealType <> "__proto__" ->
  own_slot (update_own day (Put mealType slot dayMeals) plan) d m =
  if ((d =? day) && (m =? mealType))%string then Some slot else own_slot plan d m.
Proof.
  intros Hget Hmt. unfold own_slot.
  destruct (String.eqb_spec d day) as [ -> | Hd ]; simpl.
  - rewrite own_get_update_own by (apply has_own_spec; eauto).
    rewrite Hget. destruct (String.eqb_spec m mealType) as [ -> | Hm ].
    + now apply own_get_Put.
    + now apply own_get_Put_other.
  - now rewrite own_get_update_own_other.
Qed.

Lemma standard_shape_default : standard_shape default_plan.
Proof. split; [ reflexivity | repeat constructor ]. Qed.

Lemma Forall_values_update_own {V} (P : V -> Prop) (k : string) (v : V) (o : obj V) :
  P v -> Forall P (Object_values o) -> Forall P (Object_values (update_own k v o)).
Proof.
  intros Hv. unfold Object_values. induction o as [ | [k' v'] o IH ]; simpl; intros H.
  - constructor.
  - inversion H as [ | x l Hx Hl ]; subst.
    destruct (k' =? k)%string; simpl; constructor; auto.
Qed.

(** Writing one of the three slots of a weekday keeps the 7 x 3 shape. *)
Lemma standard_shape_after_put (plan : MealPlan) (day mealType : string) (slot : Slot)
      (dayMeals : DayMeals) :
  standard_shape plan ->
  own_get day plan = Some dayMeals ->
  In mealType meal_types ->
  standard_shape (update_own day (Put mealType slot dayMeals) plan).
Proof.
  intros (Hdays & Hslots) Hget Hmt. split.
  - now rewrite Object_keys_update_own.
  - apply Forall_values_update_own; [ | exact Hslots ].
    rewrite Forall_forall in Hslots.
    pose proof (Hslots dayMeals (own_get_In_values _ _ _ Hget)) as Hkeys.
    assert (Hown : has_own mealType dayMeals = true).
    { destruct dayMeals as [ | [k1 s1] [ | [k2 s2] [ | [k3 s3] [ | ? ? ] ] ] ];
        try discriminate Hkeys.
      injection Hkeys as -> -> ->. simpl in Hmt.
      repeat (destruct Hmt as [ <- | Hmt ]; [ reflexivity | ]). contradiction. }
    unfold Put. rewrite Hown. now rewrite Object_keys_update_own.
Qed.

Lemma standard_shape_has_week_days (plan : MealPlan) :
  standard_shape plan -> has_week_days plan.
Proof.
  intros (Hdays & _) day Hday.
  destruct plan as [ | [k1 d1] [ | [k2 d2] [ | [k3 d3] [ | [k4 d4] [ | [k5 d5]
    [ | [k6 d6] [ | [k7 d7] [ | ? ? ] ] ] ] ] ] ] ]; try discriminate Hdays.
  injection Hdays as -> -> -> -> -> -> ->. simpl in Hday.
  repeat (destruct Hday as [ <- | Hday ]; [ reflexivity | ]). contradiction.
Qed.

Lemma meal_type_not_proto (mealType : string) :
  In mealType meal_types -> mealType <> "__proto__".
Proof.
  simpl. intros H.
  repeat (destruct H as [ <- | H ]; [ discriminate | ]). contradiction.
Qed.

Lemma bind_run {A B} (c : M A) (k : A -> M B) (w w' : World) (a : A) :
  c w = (Ret a, w') -> bind c k w = k a w'.
Proof. intros H. unfold bind. now rewrite H. Qed.

Lemma stored_plan_with_storage (w : World) (plan : MealPlan) :
  stored_plan (with_storage (setItem MEAL_PLAN plan (localStorage w)) w) = plan.
Proof. reflexivity. Qed.

(** Putting a recipe into one of the 21 slots: the call succeeds, the
    shape is kept, that slot holds the recipe and the others are as before. *)
Lemma addMealToPlan_standard (w : World) (day mealType : string) (recipe : Recipe) :
  standard_shape (stored_plan w) ->
  In day week_days ->
  In mealType meal_types ->
  exists w' : World,
    addMealToPlan day mealType recipe w = (Ret true, w') /\
    standard_shape (stored_plan w') /\
    forall d m,
      own_slot (stored_plan w') d m =
      if ((d =? day) && (m =? mealType))%string then Some (Some recipe)
      else own_slot (stored_plan w) d m.
Proof.
  intros Hshape Hday Hmt.
  pose proof (standard_shape_has_week_days _ Hshape day Hday) as Hown.
  apply has_own_spec in Hown. destruct Hown as (dayMeals & Hget).
  eexists. split; [ apply (addMealToPlan_own_day _ _ _ _ _ Hget) | ].
  rewrite stored_plan_with_storage. split.
  - now apply standard_shape_after_put.
  - intros d m. apply own_slot_after_put; [ exact Hget | ].
    now apply meal_type_not_proto.
Qed.

Lemma enumerate_meals_ext (plan plan' : MealPlan) :
  (forall d m, In d week_days -> In m meal_types ->
               own_slot plan d m = own_slot plan' d m) ->
  enumerate_meals plan = enumerate_meals plan'.
Proof.
  intros H. unfold enumerate_meals.
  apply flat_map_ext_In. intros d Hd.
  apply flat_map_ext_In. intros m Hm.
  now rewrite (H d m Hd Hm).
Qed.

(** What [getAllMealsFromPlan] returns after two slots were populated. *)
Lemma getAllMealsFromPlan_after_two (w : World) (d1 m1 : string) (r1 : Recipe)
      (d2 m2 : string) (r2 : Recipe) :
  standard_shape (stored_plan w) ->
  In d1 week_days -> In m1 meal_types ->
  In d2 week_days -> In m2 meal_types ->
  exists plan : MealPlan,
    outcome (addMealToPlan d1 m1 r1 ;;; addMealToPlan d2 m2 r2 ;;; getAllMealsFromPlan) w =
      Ret (enumerate_meals plan) /\
    forall d m,
      own_slot plan d m =
      if ((d =? d2) && (m =? m2))%string then Some (Some r2)
      else if ((d =? d1) && (m =? m1))%string then Some (Some r1)
      else own_slot (stored_plan w) d m.
Proof.
  intros Hshape Hd1 Hm1 Hd2 Hm2.
  destruct (addMealToPlan_standard w d1 m1 r1 Hshape Hd1 Hm1) as (w1 & Hrun1 & Hshape1 & Hslot1).
  destruct (addMealToPlan_standard w1 d2 m2 r2 Hshape1 Hd2 Hm2) as (w2 & Hrun2 & Hshape2 & Hslot2).
  exists (stored_plan w2). split.
  - unfold outcome. rewrite (bind_run _ _ _ _ _ Hrun1), (bind_run _ _ _ _ _ Hrun2).
    now rewrite (getAllMealsFromPlan_standard _ Hshape2).
  - intros d m. rewrite Hslot2, Hslot1. reflexivity.
Qed.

(** C6. [getAllMealsFromPlan] returns exactly the non-null own slots of
    the stored plan, day by day in key order. On a plan of the 7 x 3 shape
    that is the order monday..sunday and, within a day, breakfast, lunch,
    dinner; the order in which two different slots were populated does
    not show in the result; and on a plan whose slots are all null,
    populating monday/breakfast and sunday/dinner in either order gives
    the two entries monday-breakfast, sunday-dinner in that order. *)
Theorem getAllMealsFromPlan_day_order :
  forall w : World,
    getAllMealsFromPlan w =
      (Ret (flat_map
              (fun day =>
                 match own_get day (stored_plan w) with
                 | Some dayMeals => meals_of_day day dayMeals
                 | None => []
                 end)
              (Object_keys (stored_plan w))),
       w)
    /\
    (standard_shape (stored_plan w) ->
     getAllMealsFromPlan w = (Ret (enumerate_meals (stored_plan w)), w)
     /\
     (forall d1 m1 r1 d2 m2 r2,
         In d1 week_days -> In m1 meal_types ->
         In d2 week_days -> In m2 meal_types ->
         (d1, m1) <> (d2, m2) ->
         outcome (addMealToPlan d1 m1 r1 ;;; addMealToPlan d2 m2 r2 ;;;
                  getAllMealsFromPlan) w =
         outcome (addMealToPlan d2 m2 r2 ;;; addMealToPlan d1 m1 r1 ;;;
                  getAllMealsFromPlan) w)
     /\
     (stored_plan w = default_plan ->
      forall r1 r2,
        outcome (addMealToPlan "monday" "breakfast" r1 ;;;
                 addMealToPlan "sunday" "dinner" r2 ;;; getAllMealsFromPlan) w =
          Ret [mkMeal "monday" "breakfast" r1; mkMeal "sunday" "dinner" r2] /\
        outcome (addMealToPlan "sunday" "dinner" r2 ;;;
                 addMealToPlan "monday" "breakfast" r1 ;;; getAllMealsFromPlan) w =
          Ret [mkMeal "monday" "breakfast" r1; mkMeal "sunday" "dinner" r2])).
Proof.
  intros w. split; [ apply getAllMealsFromPlan_run | ].
  intros Hshape. split; [ now apply getAllMealsFromPlan_standard | split ].
  - intros d1 m1 r1 d2 m2 r2 Hd1 Hm1 Hd2 Hm2 Hdiff.
    destruct (getAllMealsFromPlan_after_two w d1 m1 r1 d2 m2 r2 Hshape Hd1 Hm1 Hd2 Hm2)
      as (p12 & -> & H12).
    destruct (getAllMealsFromPlan_after_two w d2 m2 r2 d1 m1 r1 Hshape Hd2 Hm2 Hd1 Hm1)
      as (p21 & -> & H21).
    f_equal. apply enumerate_meals_ext. intros d m _ _. rewrite H12, H21.
    destruct (String.eqb_spec d d2) as [ -> | ]; simpl; [ | reflexivity ].
    destruct (String.eqb_spec m m2) as [ -> | ]; simpl; [ | reflexivity ].
    destruct (String.eqb_spec d2 d1) as [ -> | ]; simpl; [ | reflexivity ].
    destruct (String.eqb_spec m2 m1) as [ -> | ]; simpl; [ | reflexivity ].
    now contradiction Hdiff.
  - intros Hnull r1 r2.
    assert (Hmon : In "monday" week_days) by (simpl; tauto).
    assert (Hsun : In "sunday" week_days) by (simpl; tauto).
    assert (Hbre : In "breakfast" meal_types) by (simpl; tauto).
    assert (Hdin : In "dinner" meal_types) by (simpl; tauto).
    destruct (getAllMealsFromPlan_after_two w "monday" "breakfast" r1 "sunday" "dinner" r2
                Hshape Hmon Hbre Hsun Hdin) as (p12 & -> & H12).
    destruct (getAllMealsFromPlan_after_two w "sunday" "dinner" r2 "monday" "breakfast" r1
                Hshape Hsun Hdin Hmon Hbre) as (p21 & -> & H21).
    rewrite Hnull in H12, H21.
    split; f_equal; unfold enumerate_meals; simpl flat_map;
      rewrite ?H12, ?H21; reflexivity.
Qed.

Lemma getAllMealsFromPlan_day_order_witness :
  getAllMealsFromPlan fresh_world = (Ret [], fresh_world) /\
  outcome (addMealToPlan "sunday" "dinner" salad ;;;
           addMealToPlan "monday" "breakfast" soup ;;; getAllMealsFromPlan) fresh_world =
    Ret [mkMeal "monday" "breakfast" soup; mkMeal "sunday" "dinner" salad].
Proof.
  destruct (getAllMealsFromPlan_day_order fresh_world) as (_ & Hstandard).
  destruct (Hstandard standard_shape_default) as (Hrun & _ & Hexample).
  split.
  - exact Hrun.
  - apply (Hexample eq_refl soup salad).
Defined.

(** ** Categories *)

Lemma string_or_Some_empty (s : string) : string_or (Some s) "" = s.
Proof.
  unfold string_or. destruct (String.eqb_spec s "") as [ -> | ]; reflexivity.
Qed.

(** C8. [categorizeIngredient] lower-cases its input and returns the
    category of the first rule, in the order produce, meat, dairy,
    grains, spices, pantry, whose pattern matches, and "other" when none
    does; "fresh basil" matches both the produce and the spices pattern
    and is categorized as "produce". *)
Theorem categorizeIngredient_first_match :
  forall aisle : string,
    categorizeIngredient aisle = first_match category_rules (toLowerCase aisle)
    /\ map fst category_rules = ["produce"; "meat"; "dairy"; "grains"; "spices"; "pantry"]
    /\ ((forall rule, In rule category_rules ->
                      regex_match (snd rule) (toLowerCase aisle) = false) ->
        categorizeIngredient aisle = "other")
    /\ regex_match produce_pattern (toLowerCase "fresh basil") = true
    /\ regex_match spices_pattern (toLowerCase "fresh basil") = true
    /\ categorizeIngredient "fresh basil" = "produce".
Proof.
  intros aisle.
  assert (Hfirst : categorizeIngredient aisle =
                   first_match category_rules (toLowerCase aisle)).
  { unfold categorizeIngredient, first_match. rewrite string_or_Some_empty.
    cbn [category_rules find snd fst].
    repeat (match goal with
            | |- context [ regex_match ?p ?s ] => destruct (regex_match p s)
            end; try reflexivity). }
  split; [ exact Hfirst | ].
  split; [ reflexivity | ].
  split; [ | repeat split; reflexivity ].
  intros Hnone. rewrite Hfirst. unfold first_match.
  destruct (find _ category_rules) as [ rule | ] eqn:Hfind; [ | reflexivity ].
  apply find_some in Hfind. destruct Hfind as (Hin & Hmatch).
  rewrite (Hnone rule Hin) in Hmatch. discriminate.
Qed.

Lemma categorizeIngredient_first_match_witness :
  categorizeIngredient "Water" = "other" /\ categorizeIngredient "Fresh Basil" = "produce".
Proof.
  destruct (categorizeIngredient_first_match "Water") as (_ & _ & Hother & _).
  split.
  - apply Hother. intros rule Hin. simpl in Hin.
    repeat (destruct Hin as [ <- | Hin ]; [ reflexivity | ]). contradiction.
  - reflexivity.
Defined.

(** ** Recent searches *)

Lemma trimStart_blank (s : string) :
  whitespace_only s = true -> trimStart s = "".
Proof.
  induction s as [ | c s IH ]; simpl.
  - reflexivity.
  - destruct (is_white c); simpl; [ exact IH | discriminate ].
Qed.

Lemma whitespace_only_trimStart (s : string) :
  whitespace_only (trimStart s) = whitespace_only s.
Proof.
  induction s as [ | c s IH ]; simpl.
  - reflexivity.
  - destruct (is_white c) eqn:Hc; simpl; [ exact IH | now rewrite Hc ].
Qed.

Lemma trimEnd_empty (s : string) :
  trimEnd s = "" -> whitespace_only s = true.
Proof.
  induction s as [ | c s IH ]; simpl.
  - reflexivity.
  - destruct (is_white c); simpl; [ | discriminate ].
    destruct (String.eqb_spec (trimEnd s) "") as [ Hempty | ]; [ | discriminate ].
    intros _. now apply IH.
Qed.

(** [query.trim() === ''] says that every character is white space. *)
Lemma trim_empty_iff (s : string) :
  trim s = "" <-> whitespace_only s = true.
Proof.
  unfold trim. split.
  - intros H. apply trimEnd_empty in H. now rewrite whitespace_only_trimStart in H.
  - intros H. now rewrite (trimStart_blank _ H).
Qed.

Lemma addRecentSearch_guard (query : string) :
  ((query =? "") || (trim query =? ""))%string = whitespace_only query.
Proof.
  destruct (whitespace_only query) eqn:Hws.
  - apply trim_empty_iff in Hws. rewrite Hws. simpl. apply orb_true_r.
  - destruct (String.eqb_spec query "") as [ -> | _ ]; [ discriminate Hws | ].
    destruct (String.eqb_spec (trim query) "") as [ Ht | _ ]; [ | reflexivity ].
    apply trim_empty_iff in Ht. congruence.
Qed.

Lemma addRecentSearch_blank (w : World) (query : string) :
  whitespace_only query = true -> addRecentSearch query w = (Ret tt, w).
Proof.
  intros H. unfold addRecentSearch. now rewrite addRecentSearch_guard, H.
Qed.

Lemma addRecentSearch_run (w : World) (query : string) :
  whitespace_only query = false ->
  addRecentSearch query w =
  (Ret tt,
   with_storage
     (setItem RECENT_SEARCHES
              (firstn 10 (query :: filter (fun s => negb (s =? query)%string)
                                          (stored_searches w)))
              (localStorage w))
     w).
Proof.
  intros H. unfold addRecentSearch. rewrite addRecentSearch_guard, H. reflexivity.
Qed.

Lemma addRecentSearch_bound (w : World) (query : string) :
  (List.length (stored_searches w) <= 10)%nat ->
  (List.length (stored_searches (exec (addRecentSearch query) w)) <= 10)%nat.
Proof.
  intros Hle. unfold exec. destruct (whitespace_only query) eqn:Hws.
  - now rewrite (addRecentSearch_blank _ _ Hws).
  - rewrite (addRecentSearch_run _ _ Hws). apply firstn_le_length.
Qed.

Lemma add_searches_bound (queries : list string) (w : World) :
  (List.length (stored_searches w) <= 10)%nat ->
  (List.length (stored_searches (exec (add_searches queries) w)) <= 10)%nat.
Proof.
  revert w. induction queries as [ | q queries IH ]; intros w Hle.
  - exact Hle.
  - pose proof (addRecentSearch_bound w q Hle) as Hstep.
    unfold exec in *. simpl. unfold bind.
    destruct (addRecentSearch q w) as [ [ [] | e ] w' ] eqn:Hrun.
    + now apply IH.
    + exact Hstep.
Qed.

(** C10. [addRecentSearch] ignores a query made of white space only (the
    empty query included). Any other query is prepended to the stored
    list from which the entries equal to it were removed, and the result
    is cut to its first 10 entries. From an empty list the queries pasta,
    soup, pasta leave [pasta; soup]; and a list of at most 10 entries
    stays so under every sequence of calls. *)
Theorem addRecentSearch_moves_to_front :
  forall (w : World) (query : string),
    (whitespace_only query = true -> addRecentSearch query w = (Ret tt, w))
    /\
    (whitespace_only query = false ->
     outcome (addRecentSearch query) w = Ret tt /\
     recent_searches (localStorage (exec (addRecentSearch query) w)) =
       Some (firstn 10 (query :: filter (fun s => negb (s =? query)%string)
                                        (stored_searches w))) /\
     (List.length (stored_searches (exec (addRecentSearch query) w)) <= 10)%nat)
    /\
    (stored_searches w = [] ->
     stored_searches (exec (add_searches ["pasta"; "soup"; "pasta"]) w) = ["pasta"; "soup"])
    /\
    ((List.length (stored_searches w) <= 10)%nat ->
     forall queries : list string,
       (List.length (stored_searches (exec (add_searches queries) w)) <= 10)%nat).
Proof.
  intros w query. split; [ | split; [ | split ] ].
  - apply addRecentSearch_blank.
  - intros Hws. unfold outcome, exec. rewrite (addRecentSearch_run _ _ Hws).
    split; [ reflexivity | split ].
    + destruct w as [ [ f m s u r ] c t b ]. reflexivity.
    + apply firstn_le_length.
  - intros Hempty. unfold exec. simpl add_searches.
    rewrite (bind_run _ _ _ _ _ (addRecentSearch_run w "pasta" eq_refl)).
    rewrite (bind_run _ _ _ _ _ (addRecentSearch_run _ "soup" eq_refl)).
    rewrite (bind_run _ _ _ _ _ (addRecentSearch_run _ "pasta" eq_refl)).
    destruct w as [ [ f m s u r ] c t b ]. unfold stored_searches in *. simpl in *.
    rewrite Hempty. reflexivity.
  - intros Hle queries. now apply add_searches_bound.
Qed.

Lemma addRecentSearch_moves_to_front_witness :
  addRecentSearch "   " fresh_world = (Ret tt, fresh_world) /\
  stored_searches (exec (add_searches ["pasta"; "soup"; "pasta"]) fresh_world) =
    ["pasta"; "soup"] /\
  (List.length (stored_searches (exec (add_searches ["a"; "b"; "a"]) fresh_world)) <= 10)%nat.
Proof.
  destruct (addRecentSearch_moves_to_front fresh_world "   ")
    as (Hblank & _ & Hexample & Hbound).
  split; [ | split ].
  - apply Hblank. reflexivity.
  - apply Hexample. reflexivity.
  - apply Hbound. simpl. lia.
Defined.

(** ** Weekly nutrition *)

Lemma Math_round_nearest (x : Q) :
  (x - (1 # 2) < inject_Z (Math_round x))%Q /\ (inject_Z (Math_round x) <= x + (1 # 2))%Q.
Proof.
  unfold Math_round.
  pose proof (Qlt_floor (x + (1 # 2))) as Hlt.
  pose proof (Qfloor_le (x + (1 # 2))) as Hle.
  rewrite inject_Z_plus in Hlt.
  generalize dependent (inject_Z (Qfloor (x + (1 # 2)))). intros q Hlt Hle.
  unfold inject_Z in Hlt. split; lra.
Qed.

(** Dividing an integer total by 7 and rounding, in integer arithmetic. *)
Lemma daily_average_div (weekly : Z) : daily_average weekly = ((2 * weekly + 7) / 14)%Z.
Proof.
  unfold daily_average, Math_round, Qfloor, Qdiv, Qmult, Qplus, Qinv, inject_Z.
  cbn [Qnum Qden Pos.mul]. f_equal. lia.
Qed.

Lemma accumulate_fields (recipes : list Recipe) (weekly : NutritionValues) :
  fold_left accumulate (map extractNutritionFromRecipe recipes) weekly =
  mkNutritionValues (calories weekly + total calories recipes)
                    (protein weekly + total protein recipes)
                    (carbs weekly + total carbs recipes)
                    (fat weekly + total fat recipes).
Proof.
  revert weekly. induction recipes as [ | r recipes IH ]; intros weekly.
  - destruct weekly. unfold total. simpl. now rewrite !Z.add_0_r.
  - simpl fold_left. rewrite IH. unfold total, accumulate. simpl.
    f_equal; lia.
Qed.

Lemma day_loop_totals (slots : list Slot) (weekly : NutritionValues) :
  fold_left
    (fun weekly (meal : Slot) =>
       match meal with
       | Some meal => accumulate weekly (extractNutritionFromRecipe meal)
       | None => weekly
       end)
    slots weekly =
  fold_left accumulate (map extractNutritionFromRecipe (non_null slots)) weekly.
Proof.
  revert weekly. induction slots as [ | [ meal | ] slots IH ]; intros weekly; simpl.
  - reflexivity.
  - apply IH.
  - apply IH.
Qed.

Lemma week_loop_totals (plan : MealPlan) (days : list string) (weekly : NutritionValues) :
  fold_left
    (fun weekly day =>
       match Get day plan with
       | Own dayMeals =>
           fold_left
             (fun weekly (meal : Slot) =>
                match meal with
                | Some meal => accumulate weekly (extractNutritionFromRecipe meal)
                | None => weekly
                end)
             (Object_values dayMeals) weekly
       | _ => weekly
       end)
    days weekly =
  fold_left accumulate
    (map extractNutritionFromRecipe
         (flat_map
            (fun day =>
               match own_get day plan with
               | Some dayMeals => non_null (Object_values dayMeals)
               | None => []
               end)
            days))
    weekly.
Proof.
  revert weekly. induction days as [ | day days IH ]; intros weekly; simpl.
  - reflexivity.
  - rewrite IH, map_app, fold_left_app. f_equal.
    unfold Get. destruct (own_get day plan) as [ dayMeals | ].
    + apply day_loop_totals.
    + now destruct (inherited day).
Qed.

Lemma weekly_totals_sums (plan : MealPlan) :
  weekly_totals plan =
  mkNutritionValues (total calories (week_recipes plan)) (total protein (week_recipes plan))
                    (total carbs (week_recipes plan)) (total fat (week_recipes plan)).
Proof.
  unfold weekly_totals. rewrite week_loop_totals.
  fold (week_recipes plan). now rewrite accumulate_fields.
Qed.

Lemma loadWeekNutrition_run (w : World) :
  loadWeekNutrition w =
  (Ret (mkNutritionValues
          (daily_average (total calories (week_recipes (stored_plan w))))
          (daily_average (total protein (week_recipes (stored_plan w))))
          (daily_average (total carbs (week_recipes (stored_plan w))))
          (daily_average (total fat (week_recipes (stored_plan w)))),
        let preferences := or_default (user_preferences (localStorage w)) default_preferences in
        mkNutritionValues (calorieGoal preferences) (proteinGoal preferences)
                          (carbsGoal preferences) (fatGoal preferences)),
   w).
Proof.
  unfold loadWeekNutrition, bind. rewrite getMealPlan_run.
  rewrite weekly_totals_sums. reflexivity.
Qed.

(** Each extracted value is the rounded amount of the first nutrient of
    that name, and 0 when there is none. *)
Lemma extractNutritionFromRecipe_values (recipe : Recipe) (l : list Nutrient) :
  recipe_nutrition recipe = Some (mkNutrition (Some l)) ->
  extractNutritionFromRecipe recipe =
  mkNutritionValues (rounded_amount (find_nutrient "Calories" l))
                    (rounded_amount (find_nutrient "Protein" l))
                    (rounded_amount (find_nutrient "Carbohydrates" l))
                    (rounded_amount (find_nutrient "Fat" l)).
Proof. intros H. unfold extractNutritionFromRecipe. now rewrite H. Qed.

Lemma extractNutritionFromRecipe_missing (recipe : Recipe) :
  recipe_nutrition recipe = None \/ recipe_nutrition recipe = Some (mkNutrition None) ->
  extractNutritionFromRecipe recipe = mkNutritionValues 0 0 0 0.
Proof.
  intros [ H | H ]; unfold extractNutritionFromRecipe; now rewrite H.
Qed.

(** A recipe whose only nutrient is Calories 455.4. *)
Example extractNutritionFromRecipe_calories_only :
  extractNutritionFromRecipe
    (mkRecipe 1 "Toast" (Some (mkNutrition (Some [mkNutrient "Calories" (4554 # 10)])))
              None None) =
  mkNutritionValues 455 0 0 0.
Proof. reflexivity. Qed.

(** C9. [loadWeekNutrition] reports, for calories, protein, carbs and
    fat, the total of the extracted values over the recipes in the slots
    of the seven days, divided by 7 and rounded to the nearest integer.
    An extracted value is the rounded amount of the named nutrient, or 0
    when the nutrient or the whole nutrition payload is missing. When the
    calories of the week total 1400 the reported average is 200. *)
Theorem loadWeekNutrition_daily_average :
  forall w : World,
    let recipes := week_recipes (stored_plan w) in
    (exists goals : NutritionValues,
        loadWeekNutrition w =
        (Ret (mkNutritionValues
                (Math_round (inject_Z (total calories recipes) / 7))
                (Math_round (inject_Z (total protein recipes) / 7))
                (Math_round (inject_Z (total carbs recipes) / 7))
                (Math_round (inject_Z (total fat recipes) / 7)),
              goals),
         w))
    /\
    (forall x : Q,
        (x - (1 # 2) < inject_Z (Math_round x))%Q /\
        (inject_Z (Math_round x) <= x + (1 # 2))%Q)
    /\
    (forall (recipe : Recipe) (l : list Nutrient),
        recipe_nutrition recipe = Some (mkNutrition (Some l)) ->
        extractNutritionFromRecipe recipe =
        mkNutritionValues
          (match find_nutrient "Calories" l with
           | Some n => Math_round (nutrient_amount n) | None => 0%Z end)
          (match find_nutrient "Protein" l with
           | Some n => Math_round (nutrient_amount n) | None => 0%Z end)
          (match find_nutrient "Carbohydrates" l with
           | Some n => Math_round (nutrient_amount n) | None => 0%Z end)
          (match find_nutrient "Fat" l with
           | Some n => Math_round (nutrient_amount n) | None => 0%Z end))
    /\
    (forall recipe : Recipe,
        recipe_nutrition recipe = None \/ recipe_nutrition recipe = Some (mkNutrition None) ->
        extractNutritionFromRecipe recipe = mkNutritionValues 0 0 0 0)
    /\
    (total calories recipes = 1400%Z ->
     exists avg goals : NutritionValues,
       outcome loadWeekNutrition w = Ret (avg, goals) /\ calories avg = 200%Z).
Proof.
  intros w recipes. subst recipes.
  split; [ eexists; apply loadWeekNutrition_run | ].
  split; [ apply Math_round_nearest | ].
  split; [ apply extractNutritionFromRecipe_values | ].
  split; [ apply extractNutritionFromRecipe_missing | ].
  intros H1400. unfold outcome. rewrite loadWeekNutrition_run.
  do 2 eexists. split; [ reflexivity | ].
  simpl calories. now rewrite H1400.
Qed.

Lemma loadWeekNutrition_daily_average_witness :
  week_recipes (stored_plan monday_world) = [oatmeal; wrap; stew] /\
  map (fun r => calories (extractNutritionFromRecipe r)) [oatmeal; wrap; stew] =
    [455; 500; 445]%Z /\
  exists avg goals : NutritionValues,
    outcome loadWeekNutrition monday_world = Ret (avg, goals) /\ calories avg = 200%Z.
Proof.
  destruct (loadWeekNutrition_daily_average monday_world) as (_ & _ & _ & _ & H1400).
  split; [ reflexivity | ].
  split; [ reflexivity | ].
  apply H1400. reflexivity.
Defined.

(** ** Shopping list *)

Lemma addToShoppingList_duplicate (w : World) (item : NewItem) :
  existsb (fun i => same_name_ci (item_name i) (new_name item)) (stored_shopping_list w) = true ->
  addToShoppingList item w = (Ret false, w).
Proof.
  intros H. unfold addToShoppingList, bind. rewrite getShoppingList_run.
  unfold same_name_ci in H. now rewrite H.
Qed.

Lemma addToShoppingList_new (w : World) (item : NewItem) :
  existsb (fun i => same_name_ci (item_name i) (new_name item)) (stored_shopping_list w) = false ->
  addToShoppingList item w = (Ret true, after_addToShoppingList item w).
Proof.
  intros H. unfold addToShoppingList, bind. rewrite getShoppingList_run.
  unfold same_name_ci in H. now rewrite H.
Qed.

Lemma same_name_ci_trans (a b c : string) :
  same_name_ci a b = true -> same_name_ci b c = true -> same_name_ci a c = true.
Proof.
  unfold same_name_ci. rewrite !String.eqb_eq. congruence.
Qed.

Lemma same_name_ci_sym (a b : string) : same_name_ci a b = same_name_ci b a.
Proof. unfold same_name_ci. apply String.eqb_sym. Qed.

(** Once an item was offered, an item of the same name up to case is
    rejected and the list is left as it is. *)
Lemma addToShoppingList_second_rejected (w : World) (first second : NewItem) :
  same_name_ci (new_name first) (new_name second) = true ->
  let w1 := exec (addToShoppingList first) w in
  addToShoppingList second w1 = (Ret false, w1).
Proof.
  intros Hsame w1. subst w1. unfold exec.
  destruct (existsb (fun i => same_name_ci (item_name i) (new_name first))
                    (stored_shopping_list w)) eqn:Hex.
  - rewrite (addToShoppingList_duplicate _ _ Hex). simpl snd.
    apply addToShoppingList_duplicate.
    apply existsb_exists in Hex. destruct Hex as (i & Hin & Hi).
    apply existsb_exists. exists i. split; [ exact Hin | ].
    now apply (same_name_ci_trans _ _ _ Hi).
  - rewrite (addToShoppingList_new _ _ Hex). simpl snd.
    apply addToShoppingList_duplicate.
    apply existsb_exists. eexists. split.
    + change (stored_shopping_list (after_addToShoppingList first w))
        with (stored_shopping_list w ++
              [mkShoppingItem (clock w (ticks w)) (new_name first)
                              (string_or (new_category first) "other") false
                              (clock w (S (ticks w)))]).
      apply in_or_app. right. now left.
    + exact Hsame.
Qed.

(** *** The generated list *)

Lemma own_get_None_iff {V} (k : string) (o : obj V) :
  own_get k o = None <-> ~ In k (Object_keys o).
Proof.
  unfold Object_keys. induction o as [ | [k' v'] o IH ]; simpl.
  - tauto.
  - destruct (String.eqb_spec k' k) as [ -> | Hne ].
    + split; [ discriminate | intros H; exfalso; apply H; now left ].
    + rewrite IH. tauto.
Qed.

Lemma has_own_update_own {V} (k k' : string) (v : V) (o : obj V) :
  has_own k' (update_own k v o) = has_own k' o.
Proof.
  unfold has_own. induction o as [ | [k0 v0] o IH ]; simpl.
  - reflexivity.
  - destruct (String.eqb_spec k0 k) as [ -> | Hk ]; simpl.
    + now destruct (k =? k')%string.
    + destruct (k0 =? k')%string; [ reflexivity | exact IH ].
Qed.

Lemma has_own_snoc {V} (k k' : string) (v : V) (o : obj V) :
  has_own k' (o ++ [(k, v)]) = has_own k' o || (k =? k')%string.
Proof.
  unfold has_own. rewrite own_get_snoc.
  destruct (own_get k' o); [ reflexivity | ]. now destruct (k =? k')%string.
Qed.

Lemma filter_filter_and {A} (p q : A -> bool) (l : list A) :
  filter p (filter q l) = filter (fun x => q x && p x) l.
Proof.
  induction l as [ | x l IH ]; simpl.
  - reflexivity.
  - destruct (q x); simpl; [ destruct (p x); now rewrite IH | exact IH ].
Qed.

Lemma absorb_nil (entry : string * GeneratedItem) : absorb [] entry = entry.
Proof. destruct entry as [ k [ n c a u ch ] ]. reflexivity. Qed.

Lemma absorb_cons_other (o : Ingredient) (occ : list Ingredient)
      (entry : string * GeneratedItem) :
  ing_name o <> fst entry -> absorb (o :: occ) entry = absorb occ entry.
Proof.
  intros Hne. unfold absorb. simpl filter. unfold named at 1.
  apply String.eqb_neq in Hne. now rewrite Hne.
Qed.

Lemma map_absorb_fresh (o : Ingredient) (occ : list Ingredient)
      (m : list (string * GeneratedItem)) :
  ~ In (ing_name o) (Object_keys m) ->
  map (absorb (o :: occ)) m = map (absorb occ) m.
Proof.
  intros Hnin. apply map_ext_in. intros entry Hin.
  apply absorb_cons_other. intros Heq. apply Hnin.
  rewrite Heq. unfold Object_keys. now apply in_map.
Qed.

Lemma map_absorb_update (o : Ingredient) (occ : list Ingredient)
      (m : list (string * GeneratedItem)) (existing : GeneratedItem) :
  NoDup (Object_keys m) ->
  own_get (ing_name o) m = Some existing ->
  map (absorb occ)
      (update_own (ing_name o)
         (mkGeneratedItem (gen_name existing) (gen_category existing)
                          (gen_amount existing + number_or_0 (ing_amount o))
                          (gen_unit existing) (gen_checked existing))
         m) =
  map (absorb (o :: occ)) m.
Proof.
  induction m as [ | [k0 e0] m IH ]; simpl; intros Hnd Hget.
  - discriminate.
  - inversion Hnd as [ | x l Hnin Hnd' ]; subst.
    destruct (String.eqb_spec k0 (ing_name o)) as [ -> | Hk ].
    + injection Hget as ->. simpl map. f_equal.
      * unfold absorb. simpl fst. simpl snd. simpl filter.
        unfold named at 2. rewrite String.eqb_refl. reflexivity.
      * symmetry. now apply map_absorb_fresh.
    + simpl map. f_equal.
      * symmetry. apply absorb_cons_other. simpl. congruence.
      * now apply IH.
Qed.

(** The inner loop, started on a [Map] that already has entries. *)
Lemma add_ingredient_loop (occ : list Ingredient) (m : list (string * GeneratedItem)) :
  NoDup (Object_keys m) ->
  fold_left add_ingredient occ m =
  map (absorb occ) m ++
  map keyed (group_by_name (filter (fun i => negb (has_own (ing_name i) m)) occ)).
Proof.
  revert m. induction occ as [ | o occ IH ]; intros m Hnd.
  - simpl. simp group_by_name. simpl. rewrite app_nil_r.
    rewrite (map_ext _ (fun e => e) absorb_nil). now rewrite map_id.
  - simpl fold_left. simpl filter. unfold add_ingredient at 2. unfold has_own at 1.
    destruct (own_get (ing_name o) m) as [ existing | ] eqn:Hget; simpl negb; cbv iota.
    + rewrite IH by (now rewrite Object_keys_update_own).
      rewrite (map_absorb_update _ _ _ _ Hnd Hget). f_equal. f_equal. f_equal.
      apply filter_ext. intros i. now rewrite has_own_update_own.
    + pose proof (proj1 (own_get_None_iff _ _) Hget) as Hnin.
      rewrite IH.
      2:{ unfold Object_keys. rewrite map_app. simpl.
          apply NoDup_rev in Hnd. rewrite <- (rev_involutive (map fst m ++ _)).
          apply NoDup_rev. rewrite rev_app_distr. simpl.
          constructor; [ | exact Hnd ]. now rewrite <- in_rev. }
      rewrite map_app, <- app_assoc. f_equal.
      * symmetry. now apply map_absorb_fresh.
      * simp group_by_name. simpl map. simpl app. f_equal.
        -- unfold absorb, keyed, entry_of. simpl. do 4 f_equal.
           rewrite filter_filter_and. apply filter_ext_in. intros i _.
           unfold named. destruct (String.eqb_spec (ing_name i) (ing_name o)) as [ Heq | ];
             [ | now rewrite andb_false_r ].
           rewrite Heq. unfold has_own. now rewrite Hget.
        -- do 2 f_equal. rewrite filter_filter_and. apply filter_ext. intros i.
           rewrite has_own_snoc, negb_orb. unfold named.
           now rewrite (String.eqb_sym (ing_name o)).
Qed.

Lemma meals_loop_ingredients (meals : list Meal) (m : list (string * GeneratedItem)) :
  fold_left
    (fun ingredients meal =>
       match extendedIngredients (meal_recipe meal) with
       | Some ingredientList => fold_left add_ingredient ingredientList ingredients
       | None => ingredients
       end)
    meals m =
  fold_left add_ingredient (ingredient_occurrences meals) m.
Proof.
  revert m. induction meals as [ | meal meals IH ]; intros m; simpl.
  - reflexivity.
  - rewrite fold_left_app, IH.
    now destruct (extendedIngredients (meal_recipe meal)).
Qed.

Lemma generateShoppingListFromMealPlan_run (w : World) (meals : list Meal) :
  getAllMealsFromPlan w = (Ret meals, w) ->
  generateShoppingListFromMealPlan w =
  (Ret (group_by_name (ingredient_occurrences meals)), w).
Proof.
  intros Hmeals. unfold generateShoppingListFromMealPlan.
  rewrite (bind_run _ _ _ _ _ Hmeals). unfold ret. do 2 f_equal.
  rewrite meals_loop_ingredients, add_ingredient_loop by constructor.
  simpl map at 1. simpl app.
  rewrite map_map. simpl. rewrite map_id.
  f_equal. induction (ingredient_occurrences meals) as [ | i l IHl ]; simpl; congruence.
Qed.

Lemma group_by_name_names (l : list Ingredient) (name : string) :
  In name (map gen_name (group_by_name l)) -> In name (map ing_name l).
Proof.
  funelim (group_by_name l); simp group_by_name; simpl.
  - tauto.
  - intros [ Hhead | Htail ]; [ now left | right ].
    match goal with IH : forall n, In n _ -> In n _ |- _ => apply IH in Htail end.
    apply in_map_iff in Htail. destruct Htail as (i & Hname & Hin).
    apply filter_In in Hin. apply in_map_iff. exists i. tauto.
Qed.

(** One entry per name. *)
Lemma group_by_name_NoDup (l : list Ingredient) :
  NoDup (map gen_name (group_by_name l)).
Proof.
  funelim (group_by_name l); simp group_by_name; simpl.
  - constructor.
  - constructor; [ | assumption ].
    intros Hin. apply group_by_name_names in Hin.
    apply in_map_iff in Hin. destruct Hin as (i & Hname & Hin).
    apply filter_In in Hin. destruct Hin as (_ & Hdiff).
    unfold named in Hdiff. rewrite Hname, String.eqb_refl in Hdiff. discriminate.
Qed.

(** C7. [addToShoppingList] rejects an item whose name equals, up to
    case, the name of a stored item, and leaves the list as it is; so
    after "Tomato" was added to an empty list, "tomato" is rejected and
    the single entry keeps the data of the first call.
    [generateShoppingListFromMealPlan] groups the ingredients of the
    planned meals by exact name: one entry per name, in order of first
    occurrence, whose category and unit come from the first occurrence and
    whose amount is the sum over the occurrences of that name. *)
Theorem shopping_list_name_matching :
  forall w : World,
    (forall item : NewItem,
        existsb (fun i => same_name_ci (item_name i) (new_name item))
                (stored_shopping_list w) = true ->
        addToShoppingList item w = (Ret false, w))
    /\
    (forall first second : NewItem,
        same_name_ci (new_name first) (new_name second) = true ->
        let w1 := exec (addToShoppingList first) w in
        addToShoppingList second w1 = (Ret false, w1))
    /\
    (stored_shopping_list w = [] ->
     forall c1 c2 : option string,
       let w1 := exec (addToShoppingList (mkNewItem "Tomato" c1)) w in
       addToShoppingList (mkNewItem "tomato" c2) w1 = (Ret false, w1) /\
       stored_shopping_list w1 =
         [mkShoppingItem (clock w (ticks w)) "Tomato" (string_or c1 "other") false
                         (clock w (S (ticks w)))])
    /\
    (exists meals : list Meal,
        getAllMealsFromPlan w = (Ret meals, w) /\
        generateShoppingListFromMealPlan w =
          (Ret (group_by_name (ingredient_occurrences meals)), w))
    /\
    (forall (first : Ingredient) (rest : list Ingredient),
        group_by_name (first :: rest) =
        mkGeneratedItem
          (ing_name first)
          (categorizeIngredient (string_or (ing_aisle first) (ing_name first)))
          (fold_left Qplus
                     (map (fun i => number_or_0 (ing_amount i))
                          (filter (fun i => (ing_name i =? ing_name first)%string) rest))
                     (number_or_0 (ing_amount first)))
          (string_or (ing_unit first) "")
          false
        :: group_by_name
             (filter (fun i => negb (ing_name i =? ing_name first)%string) rest))
    /\
    group_by_name [] = []
    /\
    (forall l : list Ingredient, NoDup (map gen_name (group_by_name l)))
    /\
    group_by_name [tomato_a; tomato_lower; tomato_b] =
      [ mkGeneratedItem "Tomato" "produce" (2 + 3) "pieces" false;
        mkGeneratedItem "tomato" "produce" 1 "" false ].
Proof.
  intros w.
  split; [ apply addToShoppingList_duplicate | ].
  split; [ apply addToShoppingList_second_rejected | ].
  split.
  { intros Hempty c1 c2 w1.
    split; [ now apply addToShoppingList_second_rejected | ].
    subst w1. unfold exec. rewrite addToShoppingList_new.
    - simpl snd.
      change (stored_shopping_list (after_addToShoppingList (mkNewItem "Tomato" c1) w))
        with (stored_shopping_list w ++
              [mkShoppingItem (clock w (ticks w)) "Tomato" (string_or c1 "other") false
                              (clock w (S (ticks w)))]).
      now rewrite Hempty.
    - now rewrite Hempty. }
  split.
  { eexists. split; [ apply getAllMealsFromPlan_run | ].
    apply generateShoppingListFromMealPlan_run, getAllMealsFromPlan_run. }
  split; [ intros first rest; now simp group_by_name | ].
  split; [ now simp group_by_name | ].
  split; [ apply group_by_name_NoDup | ].
  reflexivity.
Qed.

Lemma shopping_list_name_matching_witness :
  (let w1 := exec (addToShoppingList (mkNewItem "Tomato" (Some "produce"))) fresh_world in
   addToShoppingList (mkNewItem "tomato" None) w1 = (Ret false, w1) /\
   stored_shopping_list w1 =
     [mkShoppingItem sample_time "Tomato" "produce" false sample_time]) /\
  outcome generateShoppingListFromMealPlan tomato_world =
    Ret [ mkGeneratedItem "Tomato" "produce" (2 + 3) "pieces" false;
          mkGeneratedItem "fresh basil" "produce" (1 # 2) "bunch" false;
          mkGeneratedItem "tomato" "produce" 1 "" false ].
Proof.
  split.
  - destruct (shopping_list_name_matching fresh_world) as (_ & _ & Htomato & _).
    apply (Htomato eq_refl (Some "produce") None).
  - destruct (shopping_list_name_matching tomato_world) as (_ & _ & _ & Hgen & _).
    destruct Hgen as (meals & Hmeals & Hrun).
    unfold outcome. rewrite Hrun. simpl fst. f_equal.
    assert (Hm : meals = [mkMeal "monday" "breakfast" bruschetta;
                          mkMeal "sunday" "dinner" salsa]).
    { assert (H : Ret meals = outcome getAllMealsFromPlan tomato_world)
        by (unfold outcome; now rewrite Hmeals).
      vm_compute in H. now injection H. }
    rewrite Hm. reflexivity.
Defined.

(** ** Identifiers of shopping items *)

(** When the clock has moved past every stored id, the new id is fresh. *)
Lemma addToShoppingList_fresh_id (w : World) (item : NewItem) :
  NoDup (map item_id (stored_shopping_list w)) ->
  (forall i, In i (stored_shopping_list w) -> (item_id i < clock w (ticks w))%Z) ->
  NoDup (map item_id (stored_shopping_list (exec (addToShoppingList item) w))).
Proof.
  intros Hnd Hlt. unfold exec.
  destruct (existsb (fun i => same_name_ci (item_name i) (new_name item))
                    (stored_shopping_list w)) eqn:Hex.
  - now rewrite (addToShoppingList_duplicate _ _ Hex).
  - rewrite (addToShoppingList_new _ _ Hex). simpl snd.
    change (stored_shopping_list (after_addToShoppingList item w))
      with (stored_shopping_list w ++
            [mkShoppingItem (clock w (ticks w)) (new_name item)
                            (string_or (new_category item) "other") false
                            (clock w (S (ticks w)))]).
    rewrite map_app. simpl.
    apply NoDup_rev in Hnd. rewrite <- (rev_involutive (map item_id _ ++ _)).
    apply NoDup_rev. rewrite rev_app_distr. simpl.
    constructor; [ | exact Hnd ].
    rewrite <- in_rev. intros Hin. apply in_map_iff in Hin.
    destruct Hin as (i & Hid & Hin). specialize (Hlt i Hin). lia.
Qed.

(** C2. The id of a new shopping item is the clock reading and nothing
    else: two items added within the same millisecond, as a synchronous
    loop over ingredients does, are both accepted and get the same id, so
    the ids of the stored list are not distinct, and
    [removeFromShoppingList] of that id removes both items. *)
Theorem addToShoppingList_same_millisecond :
  let w2 := exec (addToShoppingList salt ;;; addToShoppingList pepper) fresh_world in
  outcome (addToShoppingList salt) fresh_world = Ret true /\
  outcome (addToShoppingList salt ;;; addToShoppingList pepper) fresh_world = Ret true /\
  stored_shopping_list w2 =
    [ mkShoppingItem sample_time "salt" "spices" false sample_time;
      mkShoppingItem sample_time "pepper" "spices" false sample_time ] /\
  ~ NoDup (map item_id (stored_shopping_list w2)) /\
  stored_shopping_list (exec (removeFromShoppingList sample_time) w2) = [].
Proof.
  split; [ reflexivity | ].
  split; [ reflexivity | ].
  split; [ reflexivity | ].
  split; [ | reflexivity ].
  intros Hnd. vm_compute in Hnd.
  inversion Hnd as [ | x l Hnin _ ]; subst. apply Hnin. now left.
Qed.

(* ===================================================================== *)
(** * Further properties *)
(* ===================================================================== *)

(** ** Favorites: membership, removal, import, toggle *)

Lemma isInFavorites_run (w : World) (recipeId : Z) :
  isInFavorites recipeId w = (Ret (is_member recipeId (stored_favorites w)), w).
Proof. reflexivity. Qed.

Lemma removeFromFavorites_run (w : World) (recipeId : Z) :
  removeFromFavorites recipeId w =
  (Ret tt,
   with_storage
     (setItem FAVORITES
              (filter (fun fav => negb (recipe_id fav =? recipeId)%Z) (stored_favorites w))
              (localStorage w))
     w).
Proof. reflexivity. Qed.

Lemma is_member_In (recipeId : Z) (favs : list Recipe) :
  is_member recipeId favs = true <-> In recipeId (map recipe_id favs).
Proof. apply existsb_id_In. Qed.

Lemma is_member_app (recipeId : Z) (l1 l2 : list Recipe) :
  is_member recipeId (l1 ++ l2) = is_member recipeId l1 || is_member recipeId l2.
Proof. unfold is_member. apply existsb_app. Qed.

Lemma is_member_filter_same (recipeId : Z) (favs : list Recipe) :
  is_member recipeId (filter (fun fav => negb (recipe_id fav =? recipeId)%Z) favs) = false.
Proof.
  induction favs as [ | fav favs IH ]; simpl.
  - reflexivity.
  - destruct (recipe_id fav =? recipeId)%Z eqn:Heq; simpl.
    + exact IH.
    + now rewrite Heq.
Qed.

Lemma is_member_filter_other (recipeId other : Z) (favs : list Recipe) :
  other <> recipeId ->
  is_member other (filter (fun fav => negb (recipe_id fav =? recipeId)%Z) favs) =
  is_member other favs.
Proof.
  intros Hne. induction favs as [ | fav favs IH ]; simpl.
  - reflexivity.
  - destruct (Z.eqb_spec (recipe_id fav) recipeId) as [ Heq | Hneq ]; simpl.
    + rewrite IH. destruct (Z.eqb_spec (recipe_id fav) other); [ congruence | reflexivity ].
    + now rewrite IH.
Qed.

Lemma filter_absent_id (recipeId : Z) (favs : list Recipe) :
  ~ In recipeId (map recipe_id favs) ->
  filter (fun fav => negb (recipe_id fav =? recipeId)%Z) favs = favs.
Proof.
  induction favs as [ | fav favs IH ]; simpl; intros Hnin.
  - reflexivity.
  - destruct (Z.eqb_spec (recipe_id fav) recipeId) as [ Heq | Hneq ]; simpl.
    + exfalso. apply Hnin. now left.
    + rewrite IH; [ reflexivity | tauto ].
Qed.

Lemma addToFavorites_cases (w : World) (recipe : Recipe) :
  addToFavorites recipe w =
  if is_member (recipe_id recipe) (stored_favorites w)
  then (Ret false, w)
  else (Ret true, after_addToFavorites recipe w).
Proof.
  destruct (is_member (recipe_id recipe) (stored_favorites w)) eqn:Hm.
  - apply addToFavorites_present. now apply is_member_In.
  - apply addToFavorites_absent. intros Hin. apply is_member_In in Hin. congruence.
Qed.

(** X1. [addToFavorites] returns true exactly when [isInFavorites] of the
    recipe's id said false just before; afterwards [isInFavorites] of
    that id says true, and its answer for every other id is as before. *)
Theorem addToFavorites_then_isInFavorites :
  forall (w : World) (recipe : Recipe),
    outcome (addToFavorites recipe) w =
      Ret (negb (is_member (recipe_id recipe) (stored_favorites w)))
    /\ outcome (isInFavorites (recipe_id recipe)) w =
         Ret (is_member (recipe_id recipe) (stored_favorites w))
    /\ outcome (isInFavorites (recipe_id recipe)) (exec (addToFavorites recipe) w) = Ret true
    /\ (forall other : Z,
           other <> recipe_id recipe ->
           outcome (isInFavorites other) (exec (addToFavorites recipe) w) =
           outcome (isInFavorites other) w).
Proof.
  intros w recipe. unfold outcome, exec. rewrite !isInFavorites_run.
  rewrite addToFavorites_cases.
  destruct (is_member (recipe_id recipe) (stored_favorites w)) eqn:Hm; cbn [fst snd negb].
  - rewrite Hm. repeat split; reflexivity.
  - change (stored_favorites (after_addToFavorites recipe w))
      with (stored_favorites w ++ [with_addedAt recipe (clock w (ticks w))]).
    split; [ reflexivity | split; [ reflexivity | split ] ].
    + f_equal. rewrite is_member_app. cbn [is_member existsb with_addedAt recipe_id].
      rewrite Z.eqb_refl. now rewrite orb_true_r.
    + intros other Hne. rewrite !isInFavorites_run. cbn [fst]. f_equal.
      change (stored_favorites (after_addToFavorites recipe w))
        with (stored_favorites w ++ [with_addedAt recipe (clock w (ticks w))]).
      rewrite is_member_app. cbn [is_member existsb with_addedAt recipe_id].
      destruct (Z.eqb_spec (recipe_id recipe) other); [ congruence | ].
      now rewrite !orb_false_r.
Qed.

Lemma filter_idempotent {A} (p : A -> bool) (l : list A) :
  filter p (filter p l) = filter p l.
Proof.
  induction l as [ | x l IH ]; simpl.
  - reflexivity.
  - destruct (p x) eqn:Hp; simpl; [ rewrite Hp; now f_equal | exact IH ].
Qed.

Lemma filter_snoc_absent_id (recipe : Recipe) (favs : list Recipe) :
  ~ In (recipe_id recipe) (map recipe_id favs) ->
  filter (fun fav => negb (recipe_id fav =? recipe_id recipe)%Z) (favs ++ [recipe]) = favs.
Proof.
  intros Hnin. rewrite filter_app, (filter_absent_id _ _ Hnin). simpl.
  rewrite Z.eqb_refl. simpl. apply app_nil_r.
Qed.

(** X2. After [removeFromFavorites(id)] the stored favorites are the old
    ones without the entries of that id, in the same order:
    [isInFavorites(id)] says false, its answer for every other id is as
    before, and a second removal changes nothing. When the id was not a
    favorite the entries are untouched, and removing the id of a recipe
    that was just added to a collection without it gives the old entries
    back. *)
Theorem removeFromFavorites_removes :
  forall (w : World) (recipeId : Z),
    let w' := exec (removeFromFavorites recipeId) w in
    stored_favorites w' =
      filter (fun fav => negb (recipe_id fav =? recipeId)%Z) (stored_favorites w)
    /\ outcome (isInFavorites recipeId) w' = Ret false
    /\ (forall other : Z,
           other <> recipeId ->
           outcome (isInFavorites other) w' = outcome (isInFavorites other) w)
    /\ exec (removeFromFavorites recipeId) w' = w'
    /\ (~ In recipeId (map recipe_id (stored_favorites w)) ->
        stored_favorites w' = stored_favorites w)
    /\ (forall recipe : Recipe,
           recipe_id recipe = recipeId ->
           ~ In recipeId (map recipe_id (stored_favorites w)) ->
           stored_favorites
             (exec (addToFavorites recipe ;;; removeFromFavorites recipeId) w) =
           stored_favorites w).
Proof.
  intros w recipeId w'. subst w'. unfold outcome, exec.
  rewrite !isInFavorites_run, removeFromFavorites_run. cbn [fst snd].
  change (stored_favorites
            (with_storage
               (setItem FAVORITES
                  (filter (fun fav => negb (recipe_id fav =? recipeId)%Z)
                          (stored_favorites w))
                  (localStorage w)) w))
    with (filter (fun fav => negb (recipe_id fav =? recipeId)%Z) (stored_favorites w)).
  split; [ reflexivity | ].
  split; [ now rewrite is_member_filter_same | ].
  split.
  { intros other Hne. rewrite !isInFavorites_run. cbn [fst].
    change (stored_favorites
              (with_storage
                 (setItem FAVORITES
                    (filter (fun fav => negb (recipe_id fav =? recipeId)%Z)
                            (stored_favorites w))
                    (localStorage w)) w))
      with (filter (fun fav => negb (recipe_id fav =? recipeId)%Z) (stored_favorites w)).
    now rewrite is_member_filter_other. }
  split.
  { rewrite removeFromFavorites_run. cbn [snd].
    change (stored_favorites
              (with_storage
                 (setItem FAVORITES
                    (filter (fun fav => negb (recipe_id fav =? recipeId)%Z)
                            (stored_favorites w))
                    (localStorage w)) w))
      with (filter (fun fav => negb (recipe_id fav =? recipeId)%Z) (stored_favorites w)).
    rewrite filter_idempotent. destruct w as [ [ f m s u r ] c t b ]. reflexivity. }
  split; [ apply filter_absent_id | ].
  intros recipe Hid Hnin. subst recipeId.
  rewrite (bind_run _ _ _ _ _ (addToFavorites_absent _ _ Hnin)).
  rewrite removeFromFavorites_run. cbn [snd].
  change (filter (fun fav => negb (recipe_id fav =? recipe_id recipe)%Z)
                 (stored_favorites w ++ [with_addedAt recipe (clock w (ticks w))]) =
          stored_favorites w).
  now apply (filter_snoc_absent_id (with_addedAt recipe (clock w (ticks w)))).
Qed.

Lemma removeFromFavorites_removes_witness :
  stored_favorites (exec (addToFavorites soup ;;; removeFromFavorites 715538) fresh_world) = [] /\
  stored_favorites (exec (removeFromFavorites 715538) fresh_world) = [].
Proof.
  destruct (removeFromFavorites_removes fresh_world 715538)
    as (_ & _ & _ & _ & Hsame & Hundo).
  split.
  - apply (Hundo soup eq_refl). simpl. tauto.
  - apply Hsame. simpl. tauto.
Defined.

(** *** Import *)

Lemma importFavorites_cons (w : World) (recipe : Recipe) (rest : list Recipe) :
  importFavorites (recipe :: rest) w = importFavorites rest (exec (addToFavorites recipe) w).
Proof.
  unfold importFavorites, exec. simpl forEach. unfold bind at 1 2.
  rewrite addToFavorites_cases.
  destruct (is_member (recipe_id recipe) (stored_favorites w)); reflexivity.
Qed.

Lemma importFavorites_unique (imported : list Recipe) (w : World) :
  unique_by_id (stored_favorites w) ->
  unique_by_id (stored_favorites (exec (importFavorites imported) w)).
Proof.
  revert w. induction imported as [ | recipe rest IH ]; intros w Hu.
  - exact Hu.
  - unfold exec. rewrite importFavorites_cons. apply IH.
    now apply addToFavorites_unique.
Qed.

Lemma addToFavorites_extends (w : World) (recipe : Recipe) :
  exists added : list Recipe,
    stored_favorites (exec (addToFavorites recipe) w) = stored_favorites w ++ added /\
    (List.length added <= 1)%nat /\
    is_member (recipe_id recipe) (stored_favorites (exec (addToFavorites recipe) w)) = true.
Proof.
  unfold exec. rewrite addToFavorites_cases.
  destruct (is_member (recipe_id recipe) (stored_favorites w)) eqn:Hm; cbn [snd].
  - exists []. rewrite app_nil_r. repeat split; [ simpl; lia | exact Hm ].
  - exists [with_addedAt recipe (clock w (ticks w))].
    change (stored_favorites (after_addToFavorites recipe w))
      with (stored_favorites w ++ [with_addedAt recipe (clock w (ticks w))]).
    repeat split; [ simpl; lia | ].
    rewrite is_member_app. cbn [is_member existsb with_addedAt recipe_id].
    rewrite Z.eqb_refl. now rewrite orb_true_r.
Qed.

Lemma importFavorites_extends (imported : list Recipe) (w : World) :
  exists added : list Recipe,
    stored_favorites (exec (importFavorites imported) w) = stored_favorites w ++ added /\
    (List.length added <= List.length imported)%nat /\
    forall recipe, In recipe imported ->
      is_member (recipe_id recipe) (stored_favorites (exec (importFavorites imported) w)) = true.
Proof.
  revert w. induction imported as [ | recipe rest IH ]; intros w.
  - exists []. rewrite app_nil_r. repeat split; [ simpl; lia | intros r [] ].
  - unfold exec. rewrite importFavorites_cons.
    destruct (addToFavorites_extends w recipe) as (a1 & Hadd & Hlen1 & Hmem).
    destruct (IH (exec (addToFavorites recipe) w)) as (a2 & Hrest & Hlen2 & Hall).
    unfold exec in *. exists (a1 ++ a2). rewrite Hrest, Hadd, app_assoc.
    split; [ reflexivity | split ].
    + rewrite length_app. simpl. lia.
    + intros r [ <- | Hin ].
      * rewrite <- Hadd, is_member_app, Hmem. reflexivity.
      * rewrite <- Hadd, <- Hrest. now apply Hall.
Qed.

Lemma importFavorites_all_present (imported : list Recipe) (w : World) :
  (forall recipe, In recipe imported ->
                  is_member (recipe_id recipe) (stored_favorites w) = true) ->
  importFavorites imported w = (Ret tt, w).
Proof.
  induction imported as [ | recipe rest IH ]; intros Hall.
  - reflexivity.
  - rewrite importFavorites_cons. unfold exec. rewrite addToFavorites_cases.
    rewrite (Hall recipe) by now left. cbn [snd].
    apply IH. intros r Hin. apply Hall. now right.
Qed.

(** X3. Importing a list of recipes keeps the stored favorites and
    appends at most one entry per imported recipe; afterwards every
    imported id is a favorite, a collection that was unique by id is
    still so, and importing the same list again changes nothing, not even
    the clock. *)
Theorem importFavorites_idempotent :
  forall (w : World) (imported : list Recipe),
    let w' := exec (importFavorites imported) w in
    outcome (importFavorites imported) w = Ret tt
    /\ (exists added : list Recipe,
           stored_favorites w' = stored_favorites w ++ added /\
           (List.length added <= List.length imported)%nat)
    /\ (forall recipe, In recipe imported ->
           outcome (isInFavorites (recipe_id recipe)) w' = Ret true)
    /\ (unique_by_id (stored_favorites w) -> unique_by_id (stored_favorites w'))
    /\ importFavorites imported w' = (Ret tt, w').
Proof.
  intros w imported w'. subst w'.
  destruct (importFavorites_extends imported w) as (added & Hadd & Hlen & Hall).
  split.
  { unfold outcome. clear. revert w.
    induction imported as [ | recipe rest IH ]; intros w; [ reflexivity | ].
    rewrite importFavorites_cons. apply IH. }
  split; [ now exists added | ].
  split.
  { intros recipe Hin. unfold outcome. rewrite isInFavorites_run. cbn [fst].
    f_equal. now apply Hall. }
  split; [ apply importFavorites_unique | ].
  now apply importFavorites_all_present.
Qed.

Lemma importFavorites_idempotent_witness :
  unique_by_id (stored_favorites (exec (importFavorites [soup; salad; soup]) fresh_world)) /\
  stored_favorites (exec (importFavorites [soup; salad; soup]) fresh_world) =
    [with_addedAt soup sample_time; with_addedAt salad sample_time].
Proof.
  destruct (importFavorites_idempotent fresh_world [soup; salad; soup])
    as (_ & _ & _ & Hunique & _).
  split.
  - apply Hunique. constructor.
  - reflexivity.
Defined.

(** *** The favorite button *)

(** X4. [toggleFavorite(id)] on a favorite removes it and shows the empty
    heart; on a non-favorite, when the fetch gives the recipe of that id,
    it adds it and shows the filled heart; when the fetch fails it shows
    the empty heart and changes nothing. In each of these cases the heart
    shown agrees with [isInFavorites(id)] afterwards. *)
Theorem toggleFavorite_flips :
  forall (w : World) (recipeId : Z) (fetched : option Recipe),
    (is_member recipeId (stored_favorites w) = true ->
     outcome (toggleFavorite recipeId fetched) w = Ret EmptyHeart /\
     outcome (isInFavorites recipeId) (exec (toggleFavorite recipeId fetched) w) = Ret false)
    /\
    (is_member recipeId (stored_favorites w) = false ->
     forall recipe : Recipe,
       fetched = Some recipe -> recipe_id recipe = recipeId ->
       outcome (toggleFavorite recipeId fetched) w = Ret FilledHeart /\
       outcome (isInFavorites recipeId) (exec (toggleFavorite recipeId fetched) w) = Ret true /\
       stored_favorites (exec (toggleFavorite recipeId fetched) w) =
         stored_favorites w ++ [with_addedAt recipe (clock w (ticks w))])
    /\
    (is_member recipeId (stored_favorites w) = false ->
     fetched = None ->
     toggleFavorite recipeId fetched w = (Ret EmptyHeart, w)).
Proof.
  intros w recipeId fetched. unfold outcome, exec, toggleFavorite.
  rewrite (bind_run _ _ _ _ _ (isInFavorites_run w recipeId)).
  split; [ | split ].
  - intros Hm. rewrite Hm.
    rewrite (bind_run _ _ _ _ _ (removeFromFavorites_run w recipeId)).
    split; [ reflexivity | ].
    cbn [ret snd]. rewrite isInFavorites_run. cbn [fst]. f_equal.
    apply is_member_filter_same.
  - intros Hm recipe -> Hid. rewrite Hm. subst recipeId.
    assert (Hrun : addToFavorites recipe w = (Ret true, after_addToFavorites recipe w)).
    { rewrite addToFavorites_cases. now rewrite Hm. }
    rewrite (bind_run _ _ _ _ _ Hrun). cbn [ret fst snd].
    split; [ reflexivity | split; [ | reflexivity ] ].
    rewrite isInFavorites_run. cbn [fst]. f_equal.
    change (stored_favorites (after_addToFavorites recipe w))
      with (stored_favorites w ++ [with_addedAt recipe (clock w (ticks w))]).
    rewrite is_member_app. cbn [is_member existsb with_addedAt recipe_id].
    rewrite Z.eqb_refl. now rewrite orb_true_r.
  - intros Hm ->. now rewrite Hm.
Qed.

Lemma toggleFavorite_flips_witness :
  outcome (toggleFavorite 715538 (Some soup)) fresh_world = Ret FilledHeart /\
  outcome (toggleFavorite 715538 None)
          (exec (toggleFavorite 715538 (Some soup)) fresh_world) = Ret EmptyHeart /\
  stored_favorites
    (exec (toggleFavorite 715538 None)
          (exec (toggleFavorite 715538 (Some soup)) fresh_world)) = [].
Proof.
  destruct (toggleFavorite_flips fresh_world 715538 (Some soup)) as (_ & Hadd & _).
  destruct (Hadd eq_refl soup eq_refl eq_refl) as (Hheart & _ & _).
  split; [ exact Hheart | ].
  split; reflexivity.
Defined.

(** ** Meal plan: reading back, removing, clearing *)

Lemma update_own_twice {V} (k : string) (v1 v2 : V) (o : obj V) :
  update_own k v2 (update_own k v1 o) = update_own k v2 o.
Proof.
  induction o as [ | [k' v'] o IH ]; simpl.
  - reflexivity.
  - destruct (k' =? k)%string eqn:Hk; simpl; rewrite Hk; [ reflexivity | now rewrite IH ].
Qed.

Lemma update_own_snoc {V} (k : string) (v1 v2 : V) (o : obj V) :
  own_get k o = None -> update_own k v2 (o ++ [(k, v1)]) = o ++ [(k, v2)].
Proof.
  induction o as [ | [k' v'] o IH ]; simpl.
  - now rewrite String.eqb_refl.
  - destruct (k' =? k)%string; [ discriminate | ]. intros H. now rewrite IH.
Qed.

Lemma update_own_insert_index {V} (n : N) (k : string) (v1 v2 : V) (o : obj V) :
  own_get k o = None ->
  update_own k v2 (insert_index n k v1 o) = insert_index n k v2 o.
Proof.
  induction o as [ | [k' v'] o IH ]; simpl; intros Hnone.
  - now rewrite String.eqb_refl.
  - destruct (k' =? k)%string eqn:Hk; [ discriminate | ].
    destruct (array_index k') as [ n' | ]; [ destruct (n' <? n)%N | ]; simpl;
      rewrite ?Hk, ?String.eqb_refl; try reflexivity.
    now rewrite IH.
Qed.

Lemma update_own_define_own {V} (k : string) (v1 v2 : V) (o : obj V) :
  own_get k o = None -> update_own k v2 (define_own k v1 o) = define_own k v2 o.
Proof.
  intros H. unfold define_own. destruct (array_index k).
  - now apply update_own_insert_index.
  - now apply update_own_snoc.
Qed.

(** A second assignment to the same key replaces the first. *)
Lemma Put_twice {V} (k : string) (v1 v2 : V) (o : obj V) :
  Put k v2 (Put k v1 o) = Put k v2 o.
Proof.
  unfold Put. destruct (has_own k o) eqn:Hown.
  - rewrite has_own_update_own, Hown. apply update_own_twice.
  - destruct (k =? "__proto__")%string eqn:Hproto.
    + now rewrite Hown.
    + assert (Hnone : own_get k o = None)
        by (unfold has_own in Hown; now destruct (own_get k o)).
      assert (Hnow : has_own k (define_own k v1 o) = true).
      { unfold has_own. rewrite own_get_define_own by exact Hnone.
        now rewrite String.eqb_refl. }
      rewrite Hnow. now apply update_own_define_own.
Qed.

Lemma Object_keys_define_own_length {V} (k : string) (v : V) (o : obj V) :
  List.length (Object_keys (define_own k v o)) = S (List.length (Object_keys o)).
Proof.
  unfold define_own, Object_keys. destruct (array_index k) as [ n | ].
  - induction o as [ | [k' v'] o IH ]; simpl; [ reflexivity | ].
    destruct (array_index k') as [ n' | ]; [ destruct (n' <? n)%N | ]; simpl;
      try reflexivity.
    now rewrite IH.
  - rewrite map_app, length_app. simpl. lia.
Qed.

Lemma Put_same {V} (k : string) (v : V) (o : obj V) :
  own_get k o = Some v -> Put k v o = o.
Proof.
  intros H. unfold Put, has_own. rewrite H. now apply update_own_same.
Qed.

Lemma Object_keys_Put_fresh_length {V} (k : string) (v : V) (o : obj V) :
  own_get k o = None ->
  k <> "__proto__" ->
  List.length (Object_keys (Put k v o)) = S (List.length (Object_keys o)).
Proof.
  intros H Hk. unfold Put, has_own. rewrite H.
  apply String.eqb_neq in Hk. rewrite Hk. apply Object_keys_define_own_length.
Qed.

Lemma removeMealFromPlan_own_day (w : World) (day mealType : string) (dayMeals : DayMeals) :
  own_get day (stored_plan w) = Some dayMeals ->
  removeMealFromPlan day mealType w =
  (Ret true,
   with_storage
     (setItem MEAL_PLAN
              (update_own day (Put mealType None dayMeals) (stored_plan w))
              (localStorage w))
     w).
Proof.
  intros Hday. unfold removeMealFromPlan, bind. rewrite getMealPlan_run.
  unfold Get. rewrite Hday. reflexivity.
Qed.

Lemma removeMealFromPlan_unknown_day (w : World) (day mealType : string) :
  own_get day (stored_plan w) = None ->
  inherited day = false ->
  removeMealFromPlan day mealType w = (Ret false, w).
Proof.
  intros Hday Hinh. unfold removeMealFromPlan, bind. rewrite getMealPlan_run.
  unfold Get. rewrite Hday, Hinh. reflexivity.
Qed.

(** X5. On a plan that has the day, [addMealToPlan] with a mealType other
    than [__proto__] returns true and changes exactly one slot: reading
    the plan back gives the recipe at (day, mealType) and what was there
    before at every other place, and the days are the same. A second call
    for the same slot replaces the recipe: the plan is the one a single
    call with the second recipe would have left. *)
Theorem addMealToPlan_read_back :
  forall (w : World) (day mealType : string) (recipe : Recipe),
    has_own day (stored_plan w) = true ->
    mealType <> "__proto__" ->
    let w' := exec (addMealToPlan day mealType recipe) w in
    outcome (addMealToPlan day mealType recipe) w = Ret true
    /\ (forall d m,
           own_slot (stored_plan w') d m =
           if ((d =? day) && (m =? mealType))%string then Some (Some recipe)
           else own_slot (stored_plan w) d m)
    /\ Object_keys (stored_plan w') = Object_keys (stored_plan w)
    /\ (forall second : Recipe,
           stored_plan (exec (addMealToPlan day mealType second) w') =
           stored_plan (exec (addMealToPlan day mealType second) w)).
Proof.
  intros w day mealType recipe Hown Hmt w'. subst w'.
  apply has_own_spec in Hown. destruct Hown as (dayMeals & Hget).
  unfold outcome, exec. rewrite (addMealToPlan_own_day _ _ _ _ _ Hget). cbn [fst snd].
  rewrite stored_plan_with_storage.
  split; [ reflexivity | ].
  split; [ intros d m; now apply own_slot_after_put | ].
  split; [ apply Object_keys_update_own | ].
  intros second.
  rewrite (addMealToPlan_own_day w _ _ _ _ Hget).
  assert (Hget' : own_get day
            (stored_plan
               (with_storage
                  (setItem MEAL_PLAN
                     (update_own day (Put mealType (Some recipe) dayMeals) (stored_plan w))
                     (localStorage w)) w)) =
          Some (Put mealType (Some recipe) dayMeals)).
  { rewrite stored_plan_with_storage. apply own_get_update_own.
    apply has_own_spec. eauto. }
  rewrite (addMealToPlan_own_day _ _ _ _ _ Hget'). cbn [snd].
  rewrite !stored_plan_with_storage. now rewrite update_own_twice, Put_twice.
Qed.

Lemma addMealToPlan_read_back_witness :
  own_slot (stored_plan (exec (addMealToPlan "monday" "lunch" soup) fresh_world))
           "monday" "lunch" = Some (Some soup) /\
  own_slot (stored_plan (exec (addMealToPlan "monday" "lunch" soup) fresh_world))
           "monday" "dinner" = Some None.
Proof.
  destruct (addMealToPlan_read_back fresh_world "monday" "lunch" soup eq_refl)
    as (_ & Hslots & _).
  - discriminate.
  - split; rewrite Hslots; reflexivity.
Defined.

(** X6. On a plan that has the day, [removeMealFromPlan] with a mealType
    other than [__proto__] returns true and leaves null at (day,
    mealType) and every other place as it was. It undoes an
    [addMealToPlan] into a slot that was null. When the day had no slot of
    that name the removal creates one, holding null. A day that is
    neither a key of the plan nor a name inherited from
    [Object.prototype] is refused and nothing is written. *)
Theorem removeMealFromPlan_nulls_slot :
  forall (w : World) (day mealType : string),
    (has_own day (stored_plan w) = true ->
     mealType <> "__proto__" ->
     let w' := exec (removeMealFromPlan day mealType) w in
     outcome (removeMealFromPlan day mealType) w = Ret true
     /\ (forall d m,
            own_slot (stored_plan w') d m =
            if ((d =? day) && (m =? mealType))%string then Some None
            else own_slot (stored_plan w) d m)
     /\ (own_slot (stored_plan w) day mealType = Some None ->
         forall recipe : Recipe,
           stored_plan (exec (addMealToPlan day mealType recipe ;;;
                              removeMealFromPlan day mealType) w) = stored_plan w)
     /\ (own_slot (stored_plan w) day mealType = None ->
         forall dayMeals dayMeals' : DayMeals,
           own_get day (stored_plan w) = Some dayMeals ->
           own_get day (stored_plan w') = Some dayMeals' ->
           List.length (Object_keys dayMeals') = S (List.length (Object_keys dayMeals))))
    /\
    (has_own day (stored_plan w) = false ->
     inherited day = false ->
     removeMealFromPlan day mealType w = (Ret false, w)).
Proof.
  intros w day mealType. split.
  - intros Hown Hmt w'. subst w'.
    apply has_own_spec in Hown. destruct Hown as (dayMeals & Hget).
    unfold outcome, exec. rewrite (removeMealFromPlan_own_day _ _ _ _ Hget). cbn [fst snd].
    rewrite stored_plan_with_storage.
    split; [ reflexivity | ].
    split; [ intros d m; now apply own_slot_after_put | ].
    split.
    + intros Hnull recipe.
      rewrite (bind_run _ _ _ _ _ (addMealToPlan_own_day w _ mealType recipe _ Hget)).
      assert (Hget' : own_get day
                (stored_plan
                   (with_storage
                      (setItem MEAL_PLAN
                         (update_own day (Put mealType (Some recipe) dayMeals)
                                     (stored_plan w))
                         (localStorage w)) w)) =
              Some (Put mealType (Some recipe) dayMeals)).
      { rewrite stored_plan_with_storage. apply own_get_update_own.
        apply has_own_spec. eauto. }
      rewrite (removeMealFromPlan_own_day _ _ _ _ Hget'). cbn [snd].
      rewrite !stored_plan_with_storage, update_own_twice, Put_twice.
      unfold own_slot in Hnull. rewrite Hget in Hnull.
      transitivity (update_own day dayMeals (stored_plan w));
        [ f_equal; now apply Put_same | now apply update_own_same ].
    + intros Hnone d0 d1 Hd0 Hd1.
      rewrite Hget in Hd0. injection Hd0 as <-.
      rewrite own_get_update_own in Hd1 by (apply has_own_spec; eauto).
      injection Hd1 as <-.
      unfold own_slot in Hnone. rewrite Hget in Hnone.
      now apply Object_keys_Put_fresh_length.
  - intros Hown Hinh. apply removeMealFromPlan_unknown_day; [ | exact Hinh ].
    unfold has_own in Hown. now destruct (own_get day (stored_plan w)).
Qed.

Lemma removeMealFromPlan_nulls_slot_witness :
  stored_plan (exec (addMealToPlan "monday" "lunch" soup ;;;
                     removeMealFromPlan "monday" "lunch") fresh_world) = default_plan /\
  own_slot (stored_plan (exec (removeMealFromPlan "monday" "brunch") fresh_world))
           "monday" "brunch" = Some None /\
  removeMealFromPlan "funday" "lunch" fresh_world = (Ret false, fresh_world).
Proof.
  destruct (removeMealFromPlan_nulls_slot fresh_world "monday" "lunch") as (Hown & _).
  destruct (Hown eq_refl) as (_ & _ & Hundo & _); [ discriminate | ].
  destruct (removeMealFromPlan_nulls_slot fresh_world "monday" "brunch") as (Hown' & _).
  destruct (Hown' eq_refl) as (_ & Hslots & _); [ discriminate | ].
  destruct (removeMealFromPlan_nulls_slot fresh_world "funday" "lunch") as (_ & Hunknown).
  split; [ apply (Hundo eq_refl soup) | ].
  split; [ rewrite Hslots; reflexivity | ].
  apply Hunknown; reflexivity.
Defined.

Lemma clearMealPlan_run (w : World) :
  clearMealPlan w =
  (Ret tt, with_storage (setItem MEAL_PLAN default_plan (localStorage w)) w).
Proof. reflexivity. Qed.

(** X7. After [clearMealPlan], whatever the plan held, the stored plan is
    the 7 x 3 plan of null slots: [getAllMealsFromPlan] and
    [generateShoppingListFromMealPlan] return the empty list and the four
    weekly averages are 0. *)
Theorem clearMealPlan_resets :
  forall w : World,
    let w' := exec clearMealPlan w in
    meal_plan (localStorage w') = Some default_plan
    /\ standard_shape (stored_plan w')
    /\ getAllMealsFromPlan w' = (Ret [], w')
    /\ generateShoppingListFromMealPlan w' = (Ret [], w')
    /\ exists goals : NutritionValues,
         loadWeekNutrition w' = (Ret (mkNutritionValues 0 0 0 0, goals), w').
Proof.
  intros w w'. subst w'. unfold exec. rewrite clearMealPlan_run. cbn [snd].
  set (w' := with_storage (setItem MEAL_PLAN default_plan (localStorage w)) w).
  assert (Hplan : stored_plan w' = default_plan) by reflexivity.
  assert (Hmeals : getAllMealsFromPlan w' = (Ret [], w')).
  { rewrite getAllMealsFromPlan_run, Hplan. reflexivity. }
  split; [ destruct w as [ [ f m s u r ] c t b ]; reflexivity | ].
  split; [ rewrite Hplan; apply standard_shape_default | ].
  split; [ exact Hmeals | ].
  split.
  - rewrite (generateShoppingListFromMealPlan_run _ _ Hmeals). reflexivity.
  - eexists. rewrite loadWeekNutrition_run, Hplan. reflexivity.
Qed.

(** ** Each operation writes one collection only *)

Ltac split_cases :=
  repeat (match goal with
          | |- context [ if ?b then _ else _ ] => destruct b
          | |- context [ match ?x with _ => _ end ] =>
              lazymatch type of x with
              | prod _ _ => fail
              | _ => destruct x
              end
          end; cbv beta iota).

Lemma run_storage_op_same_at (op : storage_op) (w : World) (c : collection) :
  c <> collection_of op ->
  same_at c (localStorage w) (localStorage (exec (run_storage_op op) w)).
Proof.
  intros Hc.
  destruct op; destruct c; try (exfalso; apply Hc; reflexivity);
    cbv [exec run_storage_op
         addToFavorites removeFromFavorites clearFavorites getFavorites
         addMealToPlan removeMealFromPlan clearMealPlan getMealPlan builtin_assign
         addToShoppingList removeFromShoppingList toggleShoppingItem clearShoppingList
         getShoppingList saveUserPreferences addRecentSearch clearRecentSearches
         getRecentSearches
         getFromStorage saveToStorage localStorage_getItem localStorage_setItem
         Date_now bind ret throw try_catch with_storage same_at];
    split_cases; reflexivity.
Qed.

(** X8. Every writing operation of the storage module leaves the four
    collections it does not work on exactly as they were: favorites
    operations do not touch the meal plan, the shopping list, the
    preferences or the recent searches, and so on for each family. *)
Theorem storage_op_writes_one_collection :
  forall (op : storage_op) (w : World) (c : collection),
    c <> collection_of op ->
    same_at c (localStorage w) (localStorage (exec (run_storage_op op) w)).
Proof. exact run_storage_op_same_at. Qed.

Lemma storage_op_writes_one_collection_witness :
  same_at Plan (localStorage fresh_world)
          (localStorage (exec (run_storage_op (OpAddToFavorites soup)) fresh_world)) /\
  same_at Favorites (localStorage fresh_world)
          (localStorage (exec (run_storage_op (OpAddMealToPlan "monday" "lunch" soup))
                              fresh_world)).
Proof.
  split.
  - apply (storage_op_writes_one_collection (OpAddToFavorites soup) fresh_world Plan).
    discriminate.
  - apply (storage_op_writes_one_collection
             (OpAddMealToPlan "monday" "lunch" soup) fresh_world Favorites).
    discriminate.
Defined.

(** *** The days of the plan *)

Lemma addMealToPlan_plan_keys (w : World) (day mealType : string) (recipe : Recipe) :
  Object_keys (stored_plan (exec (addMealToPlan day mealType recipe) w)) =
  Object_keys (stored_plan w).
Proof.
  unfold exec, addMealToPlan, bind at 1. rewrite getMealPlan_run.
  destruct (Get day (stored_plan w)) as [ dayMeals | target | ].
  - exact (Object_keys_update_own _ _ _).
  - unfold builtin_assign.
    destruct ((target =? "__proto__")%string && (mealType =? "__proto__")%string && true);
      reflexivity.
  - reflexivity.
Qed.

Lemma removeMealFromPlan_plan_keys (w : World) (day mealType : string) :
  Object_keys (stored_plan (exec (removeMealFromPlan day mealType) w)) =
  Object_keys (stored_plan w).
Proof.
  unfold exec, removeMealFromPlan, bind at 1. rewrite getMealPlan_run.
  destruct (Get day (stored_plan w)) as [ dayMeals | target | ].
  - exact (Object_keys_update_own _ _ _).
  - unfold builtin_assign.
    destruct ((target =? "__proto__")%string && (mealType =? "__proto__")%string && false);
      reflexivity.
  - reflexivity.
Qed.

Lemma exec_then_ret {A} (c : M A) (w : World) :
  exec (c ;;; ret tt) w = exec c w.
Proof.
  unfold exec, bind. destruct (c w) as [ [ a | e ] w' ]; reflexivity.
Qed.

Lemma plan_days_after_op (op : storage_op) (w : World) :
  Object_keys (stored_plan w) = week_days ->
  Object_keys (stored_plan (exec (run_storage_op op) w)) = week_days.
Proof.
  intros Hdays.
  assert (Hother : collection_of op <> Plan ->
                   stored_plan (exec (run_storage_op op) w) = stored_plan w).
  { intros Hne. unfold stored_plan.
    pose proof (run_storage_op_same_at op w Plan (fun H => Hne (eq_sym H))) as Hsame.
    simpl in Hsame. now rewrite <- Hsame. }
  destruct op; try (rewrite Hother by discriminate; exact Hdays).
  - simpl run_storage_op. now rewrite exec_then_ret, addMealToPlan_plan_keys.
  - simpl run_storage_op. now rewrite exec_then_ret, removeMealFromPlan_plan_keys.
  - reflexivity.
Qed.

Lemma plan_days_after_call (call : module_call) (w : World) :
  Object_keys (stored_plan w) = week_days ->
  Object_keys (stored_plan (exec (run_module_call call) w)) = week_days.
Proof.
  intros Hdays. destruct call as [ op | c | ].
  - now apply plan_days_after_op.
  - destruct w as [ [ f m s u r ] ck t b ]. destruct c; try exact Hdays. reflexivity.
  - destruct w as [ [ f m s u r ] ck t b ]. reflexivity.
Qed.

(** *** Calls that leave the builtin objects alone *)

Lemma builtin_writes_after_op (op : storage_op) (w : World) :
  exists written : list (string * string),
    builtin_writes (exec (run_storage_op op) w) = builtin_writes w ++ written.
Proof.
  destruct op;
    cbv [exec run_storage_op
         addToFavorites removeFromFavorites clearFavorites getFavorites
         addMealToPlan removeMealFromPlan clearMealPlan getMealPlan builtin_assign
         addToShoppingList removeFromShoppingList toggleShoppingItem clearShoppingList
         getShoppingList saveUserPreferences addRecentSearch clearRecentSearches
         getRecentSearches
         getFromStorage saveToStorage localStorage_getItem localStorage_setItem
         Date_now bind ret throw try_catch with_storage];
    split_cases; cbn [snd builtin_writes];
    solve [ exists []; now rewrite app_nil_r | eexists; reflexivity ].
Qed.

Lemma builtin_writes_after_call (call : module_call) (w : World) :
  exists written : list (string * string),
    builtin_writes (exec (run_module_call call) w) = builtin_writes w ++ written.
Proof.
  destruct call as [ op | c | ].
  - apply builtin_writes_after_op.
  - exists []. rewrite app_nil_r. destruct c; reflexivity.
  - exists []. now rewrite app_nil_r.
Qed.

Lemma after_calls_app (before rest : list module_call) (w : World) :
  after_calls (before ++ rest) w = after_calls rest (after_calls before w).
Proof. unfold after_calls. apply fold_left_app. Qed.

Lemma realm_intact_before (calls : list module_call) (w : World) :
  realm_intact (after_calls calls w) -> realm_intact w.
Proof.
  unfold realm_intact. revert w.
  induction calls as [ | call calls IH ]; intros w Hend; [ exact Hend | ].
  specialize (IH _ Hend).
  destruct (builtin_writes_after_call call w) as (written & Hw).
  rewrite Hw in IH. now apply app_eq_nil in IH.
Qed.

(** X9. The keys of the stored plan are the seven weekdays, in order,
    after every sequence of calls of the thirteen collection operations,
    of [removeFromStorage] and of [clearAllStorage] that starts from a
    plan with these keys (a store without a plan record included) and
    during which no call assigns to a builtin object: none of these calls
    adds, removes or reorders a day. Since the log of such assignments
    only grows, an empty log at the end means that every call of the
    sequence started with the builtin objects intact. [saveToStorage],
    which the module exports as well, is not one of these calls: it
    stores the plan it is given, whatever its keys. *)
Theorem plan_days_invariant :
  forall (calls : list module_call) (w : World),
    Object_keys (stored_plan w) = week_days ->
    realm_intact (after_calls calls w) ->
    Object_keys (stored_plan (after_calls calls w)) = week_days
    /\ has_week_days (stored_plan (after_calls calls w))
    /\ (forall before rest : list module_call,
          calls = before ++ rest -> realm_intact (after_calls before w))
    /\ (forall plan : MealPlan,
          stored_plan (exec (saveToStorage MEAL_PLAN plan) w) = plan)
    /\ Object_keys (stored_plan (exec (saveToStorage MEAL_PLAN [("funday", empty_day)]) w))
       <> week_days.
Proof.
  intros calls w Hdays Hintact.
  assert (Hkeys : Object_keys (stored_plan (after_calls calls w)) = week_days).
  { clear Hintact. revert w Hdays. unfold after_calls.
    induction calls as [ | call calls IH ]; intros w Hdays; simpl.
    - exact Hdays.
    - apply IH. now apply plan_days_after_call. }
  split; [ exact Hkeys | ].
  split.
  { intros day Hday.
    rewrite <- Hkeys in Hday. unfold Object_keys in Hday.
    apply in_map_iff in Hday. destruct Hday as ((k & v) & Hk & Hin). simpl in Hk. subst k.
    destruct (has_own day _) eqn:Hown; [ reflexivity | ].
    exfalso. unfold has_own in Hown.
    destruct (own_get day _) eqn:Hget; [ discriminate | ].
    apply own_get_None_iff in Hget. apply Hget. unfold Object_keys.
    apply in_map_iff. exists (day, v). split; [ reflexivity | exact Hin ]. }
  split.
  { intros before rest ->. rewrite after_calls_app in Hintact.
    now apply realm_intact_before in Hintact. }
  split.
  - intros plan. destruct w as [ [ f m s u r ] ck t b ]. reflexivity.
  - destruct w as [ [ f m s u r ] ck t b ]. discriminate.
Qed.

Lemma plan_days_invariant_witness :
  Object_keys
    (stored_plan
       (after_calls [CallOp (OpAddMealToPlan "monday" "brunch" soup);
                     CallOp (OpRemoveMealFromPlan "funday" "lunch");
                     CallRemoveFromStorage Plan;
                     CallOp (OpAddToFavorites salad);
                     CallOp (OpRemoveMealFromPlan "sunday" "dinner");
                     CallClearAllStorage] fresh_world)) = week_days.
Proof.
  apply (plan_days_invariant
           [CallOp (OpAddMealToPlan "monday" "brunch" soup);
            CallOp (OpRemoveMealFromPlan "funday" "lunch");
            CallRemoveFromStorage Plan;
            CallOp (OpAddToFavorites salad);
            CallOp (OpRemoveMealFromPlan "sunday" "dinner");
            CallClearAllStorage] fresh_world).
  - reflexivity.
  - reflexivity.
Defined.

(** ** Shopping list: toggling, removing, names and ids *)

Lemma stored_shopping_list_with_storage (w : World) (items : list ShoppingItem) :
  stored_shopping_list (with_storage (setItem SHOPPING_LIST items (localStorage w)) w) = items.
Proof. reflexivity. Qed.

Lemma toggleShoppingItem_run (w : World) (itemId : Z) :
  toggleShoppingItem itemId w =
  match toggle_first itemId (stored_shopping_list w) with
  | Some items =>
      (Ret true, with_storage (setItem SHOPPING_LIST items (localStorage w)) w)
  | None => (Ret false, w)
  end.
Proof.
  unfold toggleShoppingItem, bind at 1. rewrite getShoppingList_run.
  destruct (toggle_first itemId (stored_shopping_list w)); reflexivity.
Qed.

Lemma removeFromShoppingList_run (w : World) (itemId : Z) :
  removeFromShoppingList itemId w =
  (Ret tt,
   with_storage
     (setItem SHOPPING_LIST
              (filter (fun item => negb (item_id item =? itemId)%Z) (stored_shopping_list w))
              (localStorage w))
     w).
Proof. reflexivity. Qed.

Lemma toggle_first_None (itemId : Z) (items : list ShoppingItem) :
  toggle_first itemId items = None <-> ~ In itemId (map item_id items).
Proof.
  induction items as [ | i items IH ]; simpl.
  - tauto.
  - destruct (Z.eqb_spec (item_id i) itemId) as [ Heq | Hne ].
    + split; [ discriminate | intros H; exfalso; apply H; now left ].
    + destruct (toggle_first itemId items); simpl.
      * split; [ discriminate | ]. intros H. exfalso.
        assert (Hin : In itemId (map item_id items)).
        { destruct (in_dec Z.eq_dec itemId (map item_id items)) as [ Hin | Hnin ];
            [ exact Hin | ]. apply IH in Hnin. discriminate. }
        apply H. now right.
      * split; [ | reflexivity ]. intros _ [ Heq | Hin ]; [ contradiction | ].
        now apply (proj1 IH).
Qed.

(** The first item with the id is flipped and nothing else changes. *)
Lemma toggle_first_Some (itemId : Z) (items toggled : list ShoppingItem) :
  toggle_first itemId items = Some toggled ->
  exists before item after,
    items = before ++ item :: after /\
    toggled = before ++ flipped item :: after /\
    item_id item = itemId /\
    ~ In itemId (map item_id before).
Proof.
  revert toggled. induction items as [ | i items IH ]; simpl; intros toggled.
  - discriminate.
  - destruct (Z.eqb_spec (item_id i) itemId) as [ Heq | Hne ].
    + intros [= <-]. exists [], i, items. repeat split; auto.
    + destruct (toggle_first itemId items) as [ rest | ]; simpl; [ | discriminate ].
      intros [= <-]. destruct (IH rest eq_refl) as (b & it & a & -> & -> & Hid & Hnin).
      exists (i :: b), it, a. repeat split; auto.
      simpl. intros [ Heq | Hin ]; [ contradiction | now apply Hnin ].
Qed.

Lemma toggle_first_middle (itemId : Z) (before after : list ShoppingItem)
      (item : ShoppingItem) :
  item_id item = itemId ->
  ~ In itemId (map item_id before) ->
  toggle_first itemId (before ++ item :: after) = Some (before ++ flipped item :: after).
Proof.
  intros Hid. induction before as [ | b before IH ]; simpl; intros Hnin.
  - apply Z.eqb_eq in Hid. now rewrite Hid.
  - destruct (Z.eqb_spec (item_id b) itemId) as [ Heq | Hne ].
    + exfalso. apply Hnin. now left.
    + rewrite IH by tauto. reflexivity.
Qed.

Lemma flipped_twice (i : ShoppingItem) : flipped (flipped i) = i.
Proof. destruct i as [ id name cat ch at_ ]. unfold flipped. simpl. now rewrite negb_involutive. Qed.

(** X10. [toggleShoppingItem(id)] returns false and writes nothing when
    no stored item has the id. Otherwise it returns true and flips the
    [checked] flag of the first item with that id, leaving its other
    fields, every other item and the order as they were; a second call
    restores the stored list. *)
Theorem toggleShoppingItem_flips_first :
  forall (w : World) (itemId : Z),
    (~ In itemId (map item_id (stored_shopping_list w)) ->
     toggleShoppingItem itemId w = (Ret false, w))
    /\
    (In itemId (map item_id (stored_shopping_list w)) ->
     let w' := exec (toggleShoppingItem itemId) w in
     outcome (toggleShoppingItem itemId) w = Ret true
     /\ (exists before item after,
            stored_shopping_list w = before ++ item :: after /\
            stored_shopping_list w' =
              before ++ mkShoppingItem (item_id item) (item_name item) (item_category item)
                                       (negb (item_checked item)) (item_addedAt item)
                     :: after /\
            item_id item = itemId /\
            ~ In itemId (map item_id before))
     /\ stored_shopping_list (exec (toggleShoppingItem itemId) w') = stored_shopping_list w).
Proof.
  intros w itemId. split.
  - intros Hnin. rewrite toggleShoppingItem_run.
    now rewrite (proj2 (toggle_first_None _ _) Hnin).
  - intros Hin w'. subst w'. unfold outcome, exec. rewrite toggleShoppingItem_run.
    destruct (toggle_first itemId (stored_shopping_list w)) as [ toggled | ] eqn:Htoggle.
    2:{ apply toggle_first_None in Htoggle. contradiction. }
    cbn [fst snd]. rewrite stored_shopping_list_with_storage.
    destruct (toggle_first_Some _ _ _ Htoggle) as (b & it & a & Hitems & Htoggled & Hid & Hnin).
    split; [ reflexivity | split ].
    + exists b, it, a. repeat split; assumption.
    + rewrite toggleShoppingItem_run, stored_shopping_list_with_storage.
      rewrite Htoggled, (toggle_first_middle itemId b a (flipped it)) by assumption.
      cbn [snd]. rewrite stored_shopping_list_with_storage, flipped_twice. now symmetry.
Qed.

Lemma toggleShoppingItem_flips_first_witness :
  toggleShoppingItem 5 fresh_world = (Ret false, fresh_world) /\
  outcome (toggleShoppingItem sample_time) (exec (addToShoppingList salt) fresh_world) =
    Ret true.
Proof.
  destruct (toggleShoppingItem_flips_first fresh_world 5) as (Hmissing & _).
  destruct (toggleShoppingItem_flips_first
              (exec (addToShoppingList salt) fresh_world) sample_time) as (_ & Hfound).
  split.
  - apply Hmissing. simpl. tauto.
  - apply Hfound. simpl. now left.
Defined.

Lemma In_id_filter_other (itemId : Z) (items : list ShoppingItem) :
  ~ In itemId
       (map item_id (filter (fun item => negb (item_id item =? itemId)%Z) items)).
Proof.
  intros Hin. apply in_map_iff in Hin. destruct Hin as (i & Hid & Hin).
  apply filter_In in Hin. destruct Hin as (_ & Hne).
  rewrite Hid, Z.eqb_refl in Hne. discriminate.
Qed.

(** X11. After [removeFromShoppingList(id)] the stored list is the old
    one without the items of that id, in the same order: no stored item
    has the id, so [toggleShoppingItem(id)] answers false, items of other
    ids are all still there, and a second removal changes nothing. *)
Theorem removeFromShoppingList_removes :
  forall (w : World) (itemId : Z),
    let w' := exec (removeFromShoppingList itemId) w in
    stored_shopping_list w' =
      filter (fun item => negb (item_id item =? itemId)%Z) (stored_shopping_list w)
    /\ ~ In itemId (map item_id (stored_shopping_list w'))
    /\ toggleShoppingItem itemId w' = (Ret false, w')
    /\ (forall item, In item (stored_shopping_list w) -> item_id item <> itemId ->
                     In item (stored_shopping_list w'))
    /\ exec (removeFromShoppingList itemId) w' = w'.
Proof.
  intros w itemId w'. subst w'. unfold exec. rewrite removeFromShoppingList_run. cbn [snd].
  rewrite stored_shopping_list_with_storage.
  split; [ reflexivity | ].
  split; [ apply In_id_filter_other | ].
  split.
  { rewrite toggleShoppingItem_run, stored_shopping_list_with_storage.
    now rewrite (proj2 (toggle_first_None _ _) (In_id_filter_other itemId _)). }
  split.
  { intros item Hin Hne. apply filter_In. split; [ exact Hin | ].
    apply Z.eqb_neq in Hne. now rewrite Hne. }
  rewrite removeFromShoppingList_run. cbn [snd].
  rewrite stored_shopping_list_with_storage, filter_idempotent.
  destruct w as [ [ f m s u r ] c t b ]. reflexivity.
Qed.

(** *** Names stay unique up to case *)

Lemma toggle_first_names (itemId : Z) (items toggled : list ShoppingItem) :
  toggle_first itemId items = Some toggled ->
  map item_name toggled = map item_name items /\
  map item_id toggled = map item_id items.
Proof.
  intros H. destruct (toggle_first_Some _ _ _ H) as (b & it & a & -> & -> & _ & _).
  rewrite !map_app. simpl. tauto.
Qed.

Lemma filter_keeps_distinct {K} (items : list ShoppingItem)
      (keep : ShoppingItem -> bool) (key : ShoppingItem -> K) :
  NoDup (map key items) -> NoDup (map key (filter keep items)).
Proof.
  intros Hdistinct. induction items as [ | item items IH ]; simpl in *.
  - constructor.
  - apply NoDup_cons_iff in Hdistinct. destruct Hdistinct as (Hfresh & Hrest).
    destruct (keep item); simpl; [ | now apply IH ].
    apply NoDup_cons_iff. split; [ | now apply IH ].
    intros Hin. apply Hfresh. apply in_map_iff in Hin.
    destruct Hin as (other & Hkey & Hin).
    apply filter_In in Hin. apply in_map_iff. exists other. tauto.
Qed.

Lemma NoDup_snoc {A} (l : list A) (x : A) :
  NoDup l -> ~ In x l -> NoDup (l ++ [x]).
Proof.
  intros Hnd Hnin. apply NoDup_rev in Hnd. rewrite <- (rev_involutive (l ++ [x])).
  apply NoDup_rev. rewrite rev_app_distr. simpl.
  constructor; [ now rewrite <- in_rev | exact Hnd ].
Qed.

Lemma addToShoppingList_cases (w : World) (item : NewItem) :
  addToShoppingList item w =
  if existsb (fun i => same_name_ci (item_name i) (new_name item)) (stored_shopping_list w)
  then (Ret false, w)
  else (Ret true, after_addToShoppingList item w).
Proof.
  destruct (existsb _ (stored_shopping_list w)) eqn:Hex.
  - now apply addToShoppingList_duplicate.
  - now apply addToShoppingList_new.
Qed.

Lemma stored_after_addToShoppingList (item : NewItem) (w : World) :
  stored_shopping_list (after_addToShoppingList item w) =
  stored_shopping_list w ++
  [mkShoppingItem (clock w (ticks w)) (new_name item)
                  (string_or (new_category item) "other") false (clock w (S (ticks w)))].
Proof. reflexivity. Qed.

Lemma unique_by_name_after_op (op : storage_op) (w : World) :
  unique_by_name (stored_shopping_list w) ->
  unique_by_name (stored_shopping_list (exec (run_storage_op op) w)).
Proof.
  intros Hu.
  assert (Hother : collection_of op <> Shopping ->
            stored_shopping_list (exec (run_storage_op op) w) = stored_shopping_list w).
  { intros Hne. unfold stored_shopping_list.
    pose proof (run_storage_op_same_at op w Shopping (fun H => Hne (eq_sym H))) as Hsame.
    simpl in Hsame. now rewrite <- Hsame. }
  destruct op; try (rewrite Hother by discriminate; exact Hu); simpl run_storage_op.
  - rewrite exec_then_ret. unfold exec. rewrite addToShoppingList_cases.
    destruct (existsb _ (stored_shopping_list w)) eqn:Hex; cbn [snd]; [ exact Hu | ].
    rewrite stored_after_addToShoppingList. unfold unique_by_name.
    rewrite map_app. simpl. apply NoDup_snoc; [ exact Hu | ].
    intros Hin. apply in_map_iff in Hin. destruct Hin as (i & Hname & Hin).
    assert (Htrue : existsb (fun i => same_name_ci (item_name i) (new_name item))
                            (stored_shopping_list w) = true).
    { apply existsb_exists. exists i. split; [ exact Hin | ].
      unfold same_name_ci. now apply String.eqb_eq. }
    congruence.
  - unfold exec. rewrite removeFromShoppingList_run. cbn [snd].
    rewrite stored_shopping_list_with_storage. now apply filter_keeps_distinct.
  - rewrite exec_then_ret. unfold exec. rewrite toggleShoppingItem_run.
    destruct (toggle_first itemId (stored_shopping_list w)) as [ toggled | ] eqn:Ht;
      cbn [snd]; [ | exact Hu ].
    rewrite stored_shopping_list_with_storage. unfold unique_by_name in *.
    destruct (toggle_first_names _ _ _ Ht) as (Hnames & _).
    rewrite <- (map_map item_name toLowerCase), Hnames, map_map. exact Hu.
  - constructor.
Qed.

Lemma unique_by_name_after_call (call : module_call) (w : World) :
  unique_by_name (stored_shopping_list w) ->
  unique_by_name (stored_shopping_list (exec (run_module_call call) w)).
Proof.
  intros Hu. destruct call as [ op | c | ].
  - now apply unique_by_name_after_op.
  - destruct w as [ [ f m s u r ] ck t b ]. destruct c; try exact Hu. constructor.
  - destruct w as [ [ f m s u r ] ck t b ]. constructor.
Qed.

(** X12. The stored shopping list never holds two items whose names are
    equal up to case: a list with that property (the empty list of a
    fresh store included) keeps it under every sequence of calls of the
    thirteen collection operations, of [removeFromStorage] and of
    [clearAllStorage] during which no call assigns to a builtin object.
    [saveToStorage], which the module exports as well, is not one of
    these calls: it stores the list it is given, also one that holds
    "Tomato" and "tomato". *)
Theorem shopping_names_stay_unique :
  forall (calls : list module_call) (w : World),
    unique_by_name (stored_shopping_list w) ->
    realm_intact (after_calls calls w) ->
    unique_by_name (stored_shopping_list (after_calls calls w))
    /\ (forall items : list ShoppingItem,
          stored_shopping_list (exec (saveToStorage SHOPPING_LIST items) w) = items)
    /\ ~ unique_by_name
           (stored_shopping_list
              (exec (saveToStorage SHOPPING_LIST
                       [ mkShoppingItem 1 "Tomato" "produce" false 1;
                         mkShoppingItem 2 "tomato" "produce" false 2 ]) w)).
Proof.
  intros calls w Hu _.
  split; [ | split ].
  - revert w Hu. unfold after_calls.
    induction calls as [ | call calls IH ]; intros w Hu; simpl.
    + exact Hu.
    + apply IH. now apply unique_by_name_after_call.
  - intros items. destruct w as [ [ f m s u r ] ck t b ]. reflexivity.
  - destruct w as [ [ f m s u r ] ck t b ]. intros Hnd.
    inversion Hnd as [ | x l Hnin _ ]. apply Hnin. now left.
Qed.

Lemma shopping_names_stay_unique_witness :
  unique_by_name
    (stored_shopping_list
       (after_calls [CallOp (OpAddToShoppingList (mkNewItem "Tomato" None));
                     CallOp (OpAddToShoppingList (mkNewItem "TOMATO" (Some "produce")));
                     CallOp (OpToggleShoppingItem sample_time);
                     CallRemoveFromStorage Favorites;
                     CallOp (OpAddToShoppingList pepper)] fresh_world)) /\
  map item_name
    (stored_shopping_list
       (after_calls [CallOp (OpAddToShoppingList (mkNewItem "Tomato" None));
                     CallOp (OpAddToShoppingList (mkNewItem "TOMATO" (Some "produce")));
                     CallOp (OpToggleShoppingItem sample_time);
                     CallRemoveFromStorage Favorites;
                     CallOp (OpAddToShoppingList pepper)] fresh_world)) =
    ["Tomato"; "pepper"].
Proof.
  split; [ | reflexivity ].
  apply (shopping_names_stay_unique
           [CallOp (OpAddToShoppingList (mkNewItem "Tomato" None));
            CallOp (OpAddToShoppingList (mkNewItem "TOMATO" (Some "produce")));
            CallOp (OpToggleShoppingItem sample_time);
            CallRemoveFromStorage Favorites;
            CallOp (OpAddToShoppingList pepper)] fresh_world).
  - constructor.
  - reflexivity.
Defined.

(** *** Ids under a clock that advances *)

Lemma run_storage_op_clock (op : storage_op) (w : World) :
  clock (exec (run_storage_op op) w) = clock w /\
  (ticks w <= ticks (exec (run_storage_op op) w))%nat.
Proof.
  destruct op;
    cbv [exec run_storage_op
         addToFavorites removeFromFavorites clearFavorites getFavorites
         addMealToPlan removeMealFromPlan clearMealPlan getMealPlan builtin_assign
         addToShoppingList removeFromShoppingList toggleShoppingItem clearShoppingList
         getShoppingList saveUserPreferences addRecentSearch clearRecentSearches
         getRecentSearches
         getFromStorage saveToStorage localStorage_getItem localStorage_setItem
         Date_now bind ret throw try_catch with_storage];
    split_cases; cbn [snd clock ticks]; split; try reflexivity; lia.
Qed.

Lemma clock_monotone (w : World) (n m : nat) :
  clock_advances w -> (n <= m)%nat -> (clock w n <= clock w m)%Z.
Proof.
  intros Hadv Hle. induction Hle as [ | m Hle IH ].
  - lia.
  - specialize (Hadv m). lia.
Qed.

Lemma ids_fresh_after_op (op : storage_op) (w : World) :
  clock_advances w ->
  ids_fresh w ->
  ids_fresh (exec (run_storage_op op) w).
Proof.
  intros Hadv (Hnd & Hlt).
  destruct (run_storage_op_clock op w) as (Hclock & Hticks).
  assert (Hbound : forall i, In i (stored_shopping_list w) ->
            (item_id i < clock (exec (run_storage_op op) w)
                               (ticks (exec (run_storage_op op) w)))%Z).
  { intros i Hin. rewrite Hclock. specialize (Hlt i Hin).
    pose proof (clock_monotone w _ _ Hadv Hticks). lia. }
  assert (Hother : collection_of op <> Shopping ->
            stored_shopping_list (exec (run_storage_op op) w) = stored_shopping_list w).
  { intros Hne. unfold stored_shopping_list.
    pose proof (run_storage_op_same_at op w Shopping (fun H => Hne (eq_sym H))) as Hsame.
    simpl in Hsame. now rewrite <- Hsame. }
  unfold ids_fresh.
  destruct op;
    try (rewrite Hother by discriminate; split; [ exact Hnd | exact Hbound ]);
    simpl run_storage_op in *.
  - (* addToShoppingList *)
    rewrite exec_then_ret in *. unfold exec in *. rewrite addToShoppingList_cases in *.
    destruct (existsb _ (stored_shopping_list w)) eqn:Hex; cbn [snd] in *;
      [ split; assumption | ].
    rewrite stored_after_addToShoppingList. split.
    + rewrite map_app. simpl. apply NoDup_snoc; [ exact Hnd | ].
      intros Hin. apply in_map_iff in Hin. destruct Hin as (i & Hid & Hin).
      specialize (Hlt i Hin). lia.
    + intros i Hin. apply in_app_or in Hin. destruct Hin as [ Hin | [ <- | [] ] ].
      * now apply Hbound.
      * simpl. pose proof (Hadv (ticks w)). pose proof (Hadv (S (ticks w))). lia.
  - (* removeFromShoppingList *)
    unfold exec in *. rewrite removeFromShoppingList_run in *. cbn [snd] in *.
    rewrite stored_shopping_list_with_storage. split.
    + now apply filter_keeps_distinct.
    + intros i Hin. apply filter_In in Hin. now apply Hlt.
  - (* toggleShoppingItem *)
    rewrite exec_then_ret in *. unfold exec in *. rewrite toggleShoppingItem_run in *.
    destruct (toggle_first itemId (stored_shopping_list w)) as [ toggled | ] eqn:Ht;
      cbn [snd] in *; [ | split; assumption ].
    rewrite stored_shopping_list_with_storage.
    destruct (toggle_first_names _ _ _ Ht) as (_ & Hids). split.
    + now rewrite Hids.
    + intros i Hin.
      assert (Hid : In (item_id i) (map item_id (stored_shopping_list w)))
        by (rewrite <- Hids; now apply in_map).
      apply in_map_iff in Hid. destruct Hid as (j & Hj & Hjin).
      rewrite <- Hj. now apply Hlt.
  - (* clearShoppingList *)
    split; [ constructor | intros i [] ].
Qed.

Lemma run_module_call_clock (call : module_call) (w : World) :
  clock (exec (run_module_call call) w) = clock w /\
  (ticks w <= ticks (exec (run_module_call call) w))%nat.
Proof.
  destruct call as [ op | c | ].
  - apply run_storage_op_clock.
  - destruct c; split; reflexivity || (simpl; lia).
  - split; [ reflexivity | simpl; lia ].
Qed.

Lemma ids_fresh_after_call (call : module_call) (w : World) :
  clock_advances w ->
  ids_fresh w ->
  ids_fresh (exec (run_module_call call) w).
Proof.
  intros Hadv Hfresh. destruct call as [ op | c | ].
  - now apply ids_fresh_after_op.
  - destruct w as [ [ f m s u r ] ck t b ].
    destruct c; try exact Hfresh.
    split; [ constructor | intros i [] ].
  - destruct w as [ [ f m s u r ] ck t b ].
    split; [ constructor | intros i [] ].
Qed.

(** X13. When the clock strictly advances from one reading to the next,
    the ids of the stored shopping items stay distinct, and earlier than
    the next clock reading, under every sequence of calls of the thirteen
    collection operations, of [removeFromStorage] and of
    [clearAllStorage] during which no call assigns to a builtin object.
    [saveToStorage], which the module exports as well, is not one of
    these calls: it stores the list it is given, also one that holds two
    items of one id. *)
Theorem shopping_ids_distinct_when_clock_advances :
  forall (calls : list module_call) (w : World),
    clock_advances w ->
    ids_fresh w ->
    realm_intact (after_calls calls w) ->
    ids_fresh (after_calls calls w)
    /\ NoDup (map item_id (stored_shopping_list (after_calls calls w)))
    /\ ~ NoDup (map item_id
                  (stored_shopping_list
                     (exec (saveToStorage SHOPPING_LIST
                              [ mkShoppingItem 1 "salt" "spices" false 1;
                                mkShoppingItem 1 "pepper" "spices" false 1 ]) w))).
Proof.
  intros calls w Hadv Hfresh _.
  assert (H : ids_fresh (after_calls calls w)).
  { revert w Hadv Hfresh. unfold after_calls.
    induction calls as [ | call calls IH ]; intros w Hadv Hfresh; simpl.
    - exact Hfresh.
    - apply IH.
      + intros n. destruct (run_module_call_clock call w) as (-> & _). apply Hadv.
      + now apply ids_fresh_after_call. }
  split; [ exact H | ].
  split; [ apply H | ].
  destruct w as [ [ f m s u r ] ck t b ]. intros Hnd.
  inversion Hnd as [ | x l Hnin _ ]. apply Hnin. now left.
Qed.

Lemma shopping_ids_distinct_when_clock_advances_witness :
  map item_id
      (stored_shopping_list
         (after_calls [CallOp (OpAddToShoppingList salt);
                       CallOp (OpAddToShoppingList pepper)] ticking_world)) =
    [sample_time; sample_time + 2]%Z /\
  NoDup (map item_id
           (stored_shopping_list
              (after_calls [CallOp (OpAddToShoppingList salt);
                            CallOp (OpAddToShoppingList pepper)] ticking_world))).
Proof.
  split; [ reflexivity | ].
  apply (shopping_ids_distinct_when_clock_advances
           [CallOp (OpAddToShoppingList salt); CallOp (OpAddToShoppingList pepper)]
           ticking_world).
  - intros n. unfold ticking_world, clock. lia.
  - split; [ constructor | intros i [] ].
  - reflexivity.
Defined.

(** ** Recent searches: distinct entries, eviction *)

Lemma stored_searches_with_storage (w : World) (searches : list string) :
  stored_searches (with_storage (setItem RECENT_SEARCHES searches (localStorage w)) w) =
  searches.
Proof. reflexivity. Qed.

Lemma NoDup_firstn {A} (n : nat) (l : list A) : NoDup l -> NoDup (firstn n l).
Proof.
  revert n. induction l as [ | x l IH ]; intros n Hnd.
  - now rewrite firstn_nil.
  - destruct n as [ | n ]; simpl; [ constructor | ].
    inversion Hnd as [ | y l' Hnin Hnd' ]; subst.
    constructor; [ | now apply IH ].
    intros Hin. apply Hnin.
    rewrite <- (firstn_skipn n l). apply in_or_app. now left.
Qed.

Lemma Forall_firstn {A} (P : A -> Prop) (n : nat) (l : list A) :
  Forall P l -> Forall P (firstn n l).
Proof.
  intros H. rewrite Forall_forall in *. intros x Hin. apply H.
  rewrite <- (firstn_skipn n l). apply in_or_app. now left.
Qed.

Lemma filter_differs_absent (query : string) (searches : list string) :
  ~ In query searches ->
  filter (fun s => negb (s =? query)%string) searches = searches.
Proof.
  induction searches as [ | s searches IH ]; simpl; intros Hnin.
  - reflexivity.
  - destruct (String.eqb_spec s query) as [ -> | Hne ]; simpl.
    + exfalso. apply Hnin. now left.
    + rewrite IH; [ reflexivity | tauto ].
Qed.

Lemma not_In_filter_differs (query : string) (searches : list string) :
  ~ In query (filter (fun s => negb (s =? query)%string) searches).
Proof.
  intros Hin. apply filter_In in Hin. destruct Hin as (_ & Hne).
  now rewrite String.eqb_refl in Hne.
Qed.

Lemma searches_well_formed_after_add (query : string) (searches : list string) :
  whitespace_only query = false ->
  searches_well_formed searches ->
  searches_well_formed
    (firstn 10 (query :: filter (fun s => negb (s =? query)%string) searches)).
Proof.
  intros Hq (Hnd & Hall). split.
  - apply NoDup_firstn. constructor.
    + apply not_In_filter_differs.
    + now apply NoDup_filter.
  - apply Forall_firstn. constructor; [ exact Hq | ].
    rewrite Forall_forall in *. intros s Hin. apply filter_In in Hin. now apply Hall.
Qed.

Lemma searches_well_formed_after_op (op : storage_op) (w : World) :
  searches_well_formed (stored_searches w) ->
  searches_well_formed (stored_searches (exec (run_storage_op op) w)).
Proof.
  intros Hwf.
  assert (Hother : collection_of op <> Searches ->
            stored_searches (exec (run_storage_op op) w) = stored_searches w).
  { intros Hne. unfold stored_searches.
    pose proof (run_storage_op_same_at op w Searches (fun H => Hne (eq_sym H))) as Hsame.
    simpl in Hsame. now rewrite <- Hsame. }
  destruct op; try (rewrite Hother by discriminate; exact Hwf); simpl run_storage_op.
  - unfold exec. destruct (whitespace_only query) eqn:Hq.
    + now rewrite (addRecentSearch_blank _ _ Hq).
    + rewrite (addRecentSearch_run _ _ Hq). cbn [snd].
      rewrite stored_searches_with_storage. now apply searches_well_formed_after_add.
  - split; constructor.
Qed.

Lemma searches_well_formed_after_call (call : module_call) (w : World) :
  searches_well_formed (stored_searches w) ->
  searches_well_formed (stored_searches (exec (run_module_call call) w)).
Proof.
  intros Hwf. destruct call as [ op | c | ].
  - now apply searches_well_formed_after_op.
  - destruct w as [ [ f m s u r ] ck t b ].
    destruct c; try exact Hwf. split; constructor.
  - destruct w as [ [ f m s u r ] ck t b ]. split; constructor.
Qed.

(** X14. The stored recent searches are always distinct and never contain
    a blank query: a list with these two properties (the empty list of a
    fresh store included) keeps them under every sequence of calls of the
    thirteen collection operations, of [removeFromStorage] and of
    [clearAllStorage] during which no call assigns to a builtin object.
    [saveToStorage], which the module exports as well, is not one of
    these calls: it stores the list it is given, also one that repeats a
    query or holds a blank one. *)
Theorem recent_searches_stay_distinct :
  forall (calls : list module_call) (w : World),
    searches_well_formed (stored_searches w) ->
    realm_intact (after_calls calls w) ->
    NoDup (stored_searches (after_calls calls w))
    /\ Forall (fun s => whitespace_only s = false) (stored_searches (after_calls calls w))
    /\ (forall searches : list string,
          stored_searches (exec (saveToStorage RECENT_SEARCHES searches) w) = searches)
    /\ ~ searches_well_formed
           (stored_searches (exec (saveToStorage RECENT_SEARCHES ["pasta"; "pasta"]) w))
    /\ ~ searches_well_formed
           (stored_searches (exec (saveToStorage RECENT_SEARCHES ["  "]) w)).
Proof.
  intros calls w Hwf _.
  assert (H : searches_well_formed (stored_searches (after_calls calls w))).
  { revert w Hwf. unfold after_calls.
    induction calls as [ | call calls IH ]; intros w Hwf; simpl.
    - exact Hwf.
    - apply IH. now apply searches_well_formed_after_call. }
  split; [ apply H | ].
  split; [ apply H | ].
  destruct w as [ [ f m s u r ] ck t b ].
  split; [ reflexivity | split ].
  - intros (Hnd & _). inversion Hnd as [ | x l Hnin _ ]. apply Hnin. now left.
  - intros (_ & Hblank). inversion Hblank as [ | x l Hx _ ]. discriminate Hx.
Qed.

Lemma recent_searches_stay_distinct_witness :
  NoDup (stored_searches
           (after_calls [CallOp (OpAddRecentSearch "pasta"); CallOp (OpAddRecentSearch "  ");
                         CallOp (OpAddRecentSearch "soup"); CallRemoveFromStorage Plan;
                         CallOp (OpAddRecentSearch "pasta")] fresh_world)) /\
  stored_searches
    (after_calls [CallOp (OpAddRecentSearch "pasta"); CallOp (OpAddRecentSearch "  ");
                  CallOp (OpAddRecentSearch "soup"); CallRemoveFromStorage Plan;
                  CallOp (OpAddRecentSearch "pasta")] fresh_world) =
    ["pasta"; "soup"].
Proof.
  split; [ | reflexivity ].
  apply (recent_searches_stay_distinct
           [CallOp (OpAddRecentSearch "pasta"); CallOp (OpAddRecentSearch "  ");
            CallOp (OpAddRecentSearch "soup"); CallRemoveFromStorage Plan;
            CallOp (OpAddRecentSearch "pasta")] fresh_world).
  - split; constructor.
  - reflexivity.
Defined.

Lemma firstn_all_but_last {A} (l : list A) (n : nat) :
  List.length l = S n -> firstn n l = removelast l.
Proof.
  intros Hlen. rewrite removelast_firstn_len, Hlen. reflexivity.
Qed.

(** X15. A query that is not blank becomes the first entry of the stored
    list, followed by the other entries in their old order. When it was
    not in a full list of 10, exactly the oldest entry is dropped; when
    it was in a list of distinct entries, the list keeps its length; and
    adding the same query again changes nothing. *)
Theorem addRecentSearch_front :
  forall (w : World) (query : string),
    whitespace_only query = false ->
    let w' := exec (addRecentSearch query) w in
    stored_searches w' =
      query :: firstn 9 (filter (fun s => negb (s =? query)%string) (stored_searches w))
    /\ (~ In query (stored_searches w) ->
        List.length (stored_searches w) = 10%nat ->
        stored_searches w' = query :: removelast (stored_searches w))
    /\ (~ In query (stored_searches w) ->
        (List.length (stored_searches w) < 10)%nat ->
        stored_searches w' = query :: stored_searches w)
    /\ (In query (stored_searches w) ->
        NoDup (stored_searches w) ->
        (List.length (stored_searches w) <= 10)%nat ->
        List.length (stored_searches w') = List.length (stored_searches w))
    /\ exec (addRecentSearch query) w' = w'.
Proof.
  intros w query Hq w'. subst w'. unfold exec.
  rewrite (addRecentSearch_run _ _ Hq). cbn [snd].
  rewrite stored_searches_with_storage, firstn_cons.
  set (others := filter (fun s => negb (s =? query)%string) (stored_searches w)).
  split; [ reflexivity | ].
  split.
  { intros Hnin Hlen. subst others. rewrite (filter_differs_absent _ _ Hnin).
    f_equal. now apply firstn_all_but_last. }
  split.
  { intros Hnin Hlen. subst others. rewrite (filter_differs_absent _ _ Hnin).
    f_equal. apply firstn_all2. lia. }
  split.
  { intros Hin Hnd Hlen.
    assert (Hcount : S (List.length others) = List.length (stored_searches w)).
    { subst others. clear Hlen. induction (stored_searches w) as [ | s l IH ].
      - contradiction.
      - inversion Hnd as [ | x l' Hnin Hnd' ]; subst. simpl.
        destruct (String.eqb_spec s query) as [ -> | Hne ]; simpl.
        + now rewrite (filter_differs_absent _ _ Hnin).
        + f_equal. apply IH; [ | exact Hnd' ].
          destruct Hin as [ Heq | Hin ]; [ contradiction | exact Hin ]. }
    cbn [List.length]. rewrite firstn_all2 by lia. exact Hcount. }
  rewrite (addRecentSearch_run _ _ Hq). cbn [snd].
  rewrite stored_searches_with_storage.
  assert (Hsame : firstn 10 (query :: filter (fun s => negb (s =? query)%string)
                                             (query :: firstn 9 others)) =
                  query :: firstn 9 others).
  { rewrite firstn_cons. cbn [filter]. rewrite String.eqb_refl. cbn [negb]. f_equal.
    rewrite filter_differs_absent.
    - rewrite firstn_firstn. reflexivity.
    - intros Hin. apply (not_In_filter_differs query (stored_searches w)).
      fold others. rewrite <- (firstn_skipn 9 others). apply in_or_app. now left. }
  rewrite Hsame. destruct w as [ [ f m s u r ] c t b ]. reflexivity.
Qed.

Lemma addRecentSearch_front_witness :
  stored_searches
    (exec (add_searches ["1"; "2"; "3"; "4"; "5"; "6"; "7"; "8"; "9"; "10"] ;;;
           addRecentSearch "11") fresh_world) =
    ["11"; "10"; "9"; "8"; "7"; "6"; "5"; "4"; "3"; "2"] /\
  stored_searches (exec (addRecentSearch "soup") fresh_world) = ["soup"].
Proof.
  split; [ reflexivity | ].
  destruct (addRecentSearch_front fresh_world "soup" eq_refl) as (_ & _ & Hshort & _).
  apply Hshort; simpl; [ tauto | lia ].
Defined.

(** ** Clearing everything *)

(** X16. After [clearAllStorage] none of the five records exists, so
    every getter answers with its default: no favorites, the all-null
    plan, an empty shopping list, the default preferences and no recent
    searches. *)
Theorem clearAllStorage_defaults :
  forall w : World,
    let w' := exec clearAllStorage w in
    outcome clearAllStorage w = Ret tt
    /\ localStorage w' = empty_store
    /\ getFavorites w' = (Ret [], w')
    /\ getMealPlan w' = (Ret default_plan, w')
    /\ getShoppingList w' = (Ret [], w')
    /\ getUserPreferences w' = (Ret default_preferences, w')
    /\ getRecentSearches w' = (Ret [], w')
    /\ getAllMealsFromPlan w' = (Ret [], w').
Proof.
  intros w. destruct w as [ [ f m s u r ] c t b ].
  repeat split; reflexivity.
Qed.

(** ** Preferences form *)

Lemma validatePreferences_spec (prefs : UserPreferences) :
  validatePreferences prefs = true <-> goals_in_range prefs.
Proof.
  unfold validatePreferences, goals_in_range.
  destruct (Z.ltb_spec (calorieGoal prefs) 1000), (Z.ltb_spec 5000 (calorieGoal prefs)),
    (Z.ltb_spec (proteinGoal prefs) 50), (Z.ltb_spec 300 (proteinGoal prefs)),
    (Z.ltb_spec (carbsGoal prefs) 50), (Z.ltb_spec 500 (carbsGoal prefs)),
    (Z.ltb_spec (fatGoal prefs) 20), (Z.ltb_spec 150 (fatGoal prefs));
    simpl; split; intros Hgoal; try discriminate; try reflexivity; lia.
Qed.

Lemma handleSavePreferences_run (w : World) (form : PreferencesForm) :
  handleSavePreferences form w =
  let w1 := mkWorld (localStorage w) (clock w) (S (ticks w)) (builtin_writes w) in
  if validatePreferences (submitted_preferences form (clock w (ticks w)))
  then (Ret tt,
        with_storage
          (setItem USER_PREFERENCES (submitted_preferences form (clock w (ticks w)))
                   (localStorage w))
          w1)
  else (Ret tt, w1).
Proof.
  unfold handleSavePreferences, bind at 1. cbn [Date_now].
  rewrite string_or_Some_empty.
  fold (submitted_preferences form (clock w (ticks w))).
  destruct (validatePreferences (submitted_preferences form (clock w (ticks w))));
    reflexivity.
Qed.

Lemma parseInt_blank (s : string) : whitespace_only s = true -> parseInt s = None.
Proof.
  intros H. unfold parseInt. now rewrite (trimStart_blank _ H).
Qed.

(** X17. [handleSavePreferences] writes the preferences exactly when the
    four goals it read are within 1000..5000, 50..300, 50..500 and
    20..150; otherwise the stored preferences are left as they were. So
    preferences whose goals are in range (the defaults of an empty store
    included) stay in range whatever the form holds. A goal field that is
    blank counts as the default 2000, 150, 250 or 65. *)
Theorem handleSavePreferences_validates :
  forall (w : World) (form : PreferencesForm),
    let w' := exec (handleSavePreferences form) w in
    let submitted := submitted_preferences form (clock w (ticks w)) in
    (goals_in_range submitted -> user_preferences (localStorage w') = Some submitted)
    /\ (~ goals_in_range submitted -> localStorage w' = localStorage w)
    /\ (goals_in_range (stored_preferences w) -> goals_in_range (stored_preferences w'))
    /\ (whitespace_only (calorieGoal_value form) = true ->
        whitespace_only (proteinGoal_value form) = true ->
        whitespace_only (carbsGoal_value form) = true ->
        whitespace_only (fatGoal_value form) = true ->
        user_preferences (localStorage w') =
          Some (mkUserPreferences (checked_diets form) (checked_allergies form)
                                  (checked_cuisines form) 2000 150 250 65
                                  (maxCookingTime_value form) (Some (clock w (ticks w))))).
Proof.
  intros w form w' submitted. subst w' submitted. unfold exec.
  rewrite handleSavePreferences_run. cbv zeta.
  destruct (validatePreferences (submitted_preferences form (clock w (ticks w)))) eqn:Hv;
    cbn [snd].
  - apply validatePreferences_spec in Hv.
    split; [ intros _; destruct w as [ [ f m s u r ] c t b ]; reflexivity | ].
    split; [ intros Hn; contradiction | ].
    split; [ intros _; destruct w as [ [ f m s u r ] c t b ]; exact Hv | ].
    intros H1 H2 H3 H4. destruct w as [ [ f m s u r ] c t b ].
    unfold submitted_preferences. now rewrite !parseInt_blank.
  - assert (Hnot : ~ goals_in_range (submitted_preferences form (clock w (ticks w)))).
    { intros Hr. apply validatePreferences_spec in Hr. congruence. }
    split; [ intros Hr; contradiction | ].
    split; [ reflexivity | ].
    split; [ intros Hr; exact Hr | ].
    intros H1 H2 H3 H4. exfalso. apply Hnot.
    unfold submitted_preferences, goals_in_range. rewrite !parseInt_blank by assumption.
    simpl. lia.
Qed.

Lemma handleSavePreferences_validates_witness :
  user_preferences
    (localStorage
       (exec (handleSavePreferences
                (mkPreferencesForm ["vegan"] [] [] " 1800 kcal" "0" "" "0x40" "30"))
             fresh_world)) =
    Some (mkUserPreferences ["vegan"] [] [] 1800 150 250 64 "30" (Some sample_time)) /\
  localStorage
    (exec (handleSavePreferences (mkPreferencesForm [] [] [] "800" "" "" "" ""))
          fresh_world) = localStorage fresh_world.
Proof.
  destruct (handleSavePreferences_validates fresh_world
              (mkPreferencesForm ["vegan"] [] [] " 1800 kcal" "0" "" "0x40" "30"))
    as (Hsaved & _).
  destruct (handleSavePreferences_validates fresh_world
              (mkPreferencesForm [] [] [] "800" "" "" "" ""))
    as (_ & Hrejected & _).
  split.
  - apply Hsaved. vm_compute. intuition discriminate.
  - apply Hrejected. vm_compute. intuition.
Defined.

(** ** Weekly averages and chart *)

Lemma daily_average_close (weekly : Z) :
  (-3 <= weekly - 7 * daily_average weekly <= 3)%Z.
Proof.
  rewrite daily_average_div.
  pose proof (Z.div_mod (2 * weekly + 7) 14 ltac:(lia)) as Hdm.
  pose proof (Z.mod_pos_bound (2 * weekly + 7) 14 ltac:(lia)) as Hb.
  lia.
Qed.


(** *** The bars of the weekly chart *)

Lemma day_loop_calories (slots : list Slot) (acc : Z) :
  fold_left
    (fun total (meal : Slot) =>
       match meal with
       | Some meal => (total + calories (extractNutritionFromRecipe meal))%Z
       | None => total
       end)
    slots acc =
  (acc + total calories (non_null slots))%Z.
Proof.
  revert acc. induction slots as [ | [ meal | ] slots IH ]; intros acc; simpl.
  - unfold total. simpl. lia.
  - rewrite IH. unfold total. simpl. lia.
  - apply IH.
Qed.

Lemma day_total_sum (plan : MealPlan) (day : string) :
  day_total plan day =
  total calories
        (match own_get day plan with
         | Some dayMeals => non_null (Object_values dayMeals)
         | None => []
         end).
Proof.
  unfold day_total, Get. destruct (own_get day plan) as [ dayMeals | ].
  - now rewrite day_loop_calories.
  - now destruct (inherited day).
Qed.

Lemma total_app (field : NutritionValues -> Z) (l1 l2 : list Recipe) :
  total field (l1 ++ l2) = (total field l1 + total field l2)%Z.
Proof.
  unfold total. rewrite map_app. induction (map _ l1) as [ | x l IH ]; simpl; lia.
Qed.

Lemma day_totals_sum (plan : MealPlan) (days : list string) :
  sum_values (map (day_total plan) days) =
  total calories
        (flat_map
           (fun day =>
              match own_get day plan with
              | Some dayMeals => non_null (Object_values dayMeals)
              | None => []
              end)
           days).
Proof.
  induction days as [ | day days IH ]; simpl.
  - reflexivity.
  - now rewrite total_app, IH, day_total_sum.
Qed.

Lemma Math_max_bounds (values : list Z) (floor : Z) :
  (floor <= Math_max values floor)%Z /\
  forall v, In v values -> (v <= Math_max values floor)%Z.
Proof.
  unfold Math_max. induction values as [ | x values (IHfloor & IHall) ]; simpl.
  - split; [ lia | intros v [] ].
  - split; [ lia | ]. intros v [ <- | Hin ]; [ lia | ].
    specialize (IHall v Hin). lia.
Qed.

Lemma percentage_at_most_100 (calories maxCalories : Z) :
  (0 < maxCalories)%Z -> (calories <= maxCalories)%Z ->
  (inject_Z calories / inject_Z maxCalories * 100 <= 100)%Q.
Proof.
  intros Hpos Hle.
  assert (Hq : (0 < inject_Z maxCalories)%Q) by (rewrite (Zlt_Qlt 0) in Hpos; exact Hpos).
  assert (Hone : (inject_Z calories / inject_Z maxCalories <= 1)%Q).
  { apply Qle_shift_div_r; [ exact Hq | ]. rewrite Qmult_1_l. now rewrite <- Zle_Qle. }
  setoid_replace (100 : Q) with (1 * 100)%Q at 2 by reflexivity.
  apply Qmult_le_compat_r; [ exact Hone | discriminate ].
Qed.

Lemma percentage_nonnegative (calories maxCalories : Z) :
  (0 < maxCalories)%Z -> (0 <= calories)%Z ->
  (0 <= inject_Z calories / inject_Z maxCalories * 100)%Q.
Proof.
  intros Hpos Hnn.
  assert (Hq : (0 < inject_Z maxCalories)%Q) by (rewrite (Zlt_Qlt 0) in Hpos; exact Hpos).
  apply Qmult_le_0_compat; [ | discriminate ].
  apply Qle_shift_div_l; [ exact Hq | ]. rewrite Qmult_0_l.
  rewrite (Zle_Qle 0) in Hnn. exact Hnn.
Qed.

(** X19. [updateWeeklyChart] draws nothing when the page has no chart
    container. Otherwise it draws seven bars labelled Mon..Sun whose
    values add up to the weekly calorie total of [loadWeekNutrition]; no
    bar is taller than 100 percent, and a bar whose value is not negative
    has a height that is not negative. *)
Theorem updateWeeklyChart_bars :
  forall w : World,
    updateWeeklyChart false w = (Ret None, w)
    /\ exists bars : list Bar,
         updateWeeklyChart true w = (Ret (Some bars), w)
         /\ map bar_label bars = chart_days
         /\ sum_values (map bar_value bars) = total calories (week_recipes (stored_plan w))
         /\ (forall bar, In bar bars -> (bar_percentage bar <= 100)%Q)
         /\ (forall bar, In bar bars -> (0 <= bar_value bar)%Z ->
                         (0 <= bar_percentage bar)%Q).
Proof.
  intros w. split; [ reflexivity | ].
  eexists. split.
  { unfold updateWeeklyChart. cbn [negb]. unfold bind at 1.
    rewrite getMealPlan_run. reflexivity. }
  set (plan := stored_plan w).
  set (dayCalories := map (day_total plan) week_days).
  set (maxCalories := Math_max dayCalories 2000).
  destruct (Math_max_bounds dayCalories 2000) as (Hfloor & Hall).
  fold maxCalories in Hfloor, Hall.
  assert (Hbars : forall bar,
            In bar (map (fun day_calories : string * Z =>
                           let (day, calories) := day_calories in
                           mkBar day calories
                                 (inject_Z calories / inject_Z maxCalories * 100))
                        (combine chart_days dayCalories)) ->
            In (bar_value bar) dayCalories /\
            bar_percentage bar =
              (inject_Z (bar_value bar) / inject_Z maxCalories * 100)%Q).
  { intros bar Hin. apply in_map_iff in Hin. destruct Hin as ((day & c) & <- & Hin).
    split; [ now apply in_combine_r in Hin | reflexivity ]. }
  split; [ reflexivity | ].
  split.
  { transitivity (sum_values dayCalories); [ reflexivity | ].
    subst dayCalories. rewrite day_totals_sum. reflexivity. }
  split.
  - intros bar Hin. destruct (Hbars bar Hin) as (Hval & ->).
    apply percentage_at_most_100; [ lia | now apply Hall ].
  - intros bar Hin Hnn. destruct (Hbars bar Hin) as (_ & ->).
    apply percentage_nonnegative; [ lia | exact Hnn ].
Qed.

(** ** API response cache *)

Lemma cache_getItem_setItem (key k : string) (e : CacheEntry) (cache : ApiCache) :
  cache_getItem k (cache_setItem key e cache) =
  if (key =? k)%string then Some e else cache_getItem k cache.
Proof.
  unfold cache_setItem. simpl. destruct (String.eqb_spec key k) as [ -> | Hne ];
    [ reflexivity | ].
  unfold cache_removeItem. induction cache as [ | [k0 e0] cache IH ]; simpl.
  - reflexivity.
  - destruct (String.eqb_spec k0 key) as [ -> | Hk ]; simpl.
    + apply String.eqb_neq in Hne. now rewrite Hne.
    + destruct (k0 =? k)%string; [ reflexivity | exact IH ].
Qed.

Lemma cache_getItem_removeItem (key k : string) (cache : ApiCache) :
  cache_getItem k (cache_removeItem key cache) =
  if (key =? k)%string then None else cache_getItem k cache.
Proof.
  unfold cache_removeItem. induction cache as [ | [k0 e0] cache IH ]; simpl.
  - now destruct (key =? k)%string.
  - destruct (String.eqb_spec k0 key) as [ -> | Hk ]; simpl.
    + rewrite IH. now destruct (key =? k)%string.
    + rewrite IH. destruct (String.eqb_spec k0 k) as [ -> | ]; [ | reflexivity ].
      apply String.eqb_neq in Hk. rewrite String.eqb_sym in Hk. now rewrite Hk.
Qed.

Lemma cacheAPIResponse_run (w : World) (key : string) (data : list Recipe)
      (expiryMinutes : option Z) (cache : ApiCache) :
  cacheAPIResponse key data expiryMinutes cache w =
  (Ret (cache_setItem key
          (mkCacheEntry data (clock w (ticks w))
             (match expiryMinutes with Some m => m | None => 60 end * 60 * 1000)%Z)
          cache),
   mkWorld (localStorage w) (clock w) (S (ticks w)) (builtin_writes w)).
Proof. reflexivity. Qed.

Lemma getCachedAPIResponse_run (w : World) (key : string) (cache : ApiCache) :
  getCachedAPIResponse key cache w =
  match cache_getItem key cache with
  | None => (Ret (None, cache), w)
  | Some cacheData =>
      (Ret (if (clock w (ticks w) - cache_timestamp cacheData <? cache_expiry cacheData)%Z
            then (Some (cache_data cacheData), cache)
            else (None, cache_removeItem key cache)),
       mkWorld (localStorage w) (clock w) (S (ticks w)) (builtin_writes w))
  end.
Proof.
  unfold getCachedAPIResponse. destruct (cache_getItem key cache) as [ e | ];
    [ | reflexivity ].
  unfold bind. cbn [Date_now].
  destruct (clock w (ticks w) - cache_timestamp e <? cache_expiry e)%Z; reflexivity.
Qed.

(** X20. A response cached under a key at clock reading [t] for [m]
    minutes is served by [getCachedAPIResponse] for that key while the
    clock reads less than [t + m * 60000]; at a later reading the answer
    is null and the entry is deleted, so it stays null afterwards. Caching
    under one key leaves the entries of the other keys alone, and a key
    that was never cached gives null without reading the clock. *)
Theorem api_cache_expiry :
  forall (w : World) (key : string) (data : list Recipe) (minutes : Z) (cache : ApiCache),
    exists cache1 : ApiCache,
      let w1 := mkWorld (localStorage w) (clock w) (S (ticks w)) (builtin_writes w) in
      let t := clock w (ticks w) in
      cacheAPIResponse key data (Some minutes) cache w = (Ret cache1, w1)
      /\ (forall k, k <> key -> cache_getItem k cache1 = cache_getItem k cache)
      /\ (forall w2 : World,
             (clock w2 (ticks w2) < t + minutes * 60000)%Z ->
             outcome (getCachedAPIResponse key cache1) w2 = Ret (Some data, cache1))
      /\ (forall w2 : World,
             (t + minutes * 60000 <= clock w2 (ticks w2))%Z ->
             exists cache2 : ApiCache,
               outcome (getCachedAPIResponse key cache1) w2 = Ret (None, cache2) /\
               (forall w3 : World, getCachedAPIResponse key cache2 w3 = (Ret (None, cache2), w3)) /\
               (forall k, k <> key -> cache_getItem k cache2 = cache_getItem k cache))
      /\ (cache_getItem key cache = None ->
          forall w2 : World, getCachedAPIResponse key cache w2 = (Ret (None, cache), w2)).
Proof.
  intros w key data minutes cache. eexists. cbv zeta.
  split; [ apply cacheAPIResponse_run | ].
  split.
  { intros k Hne. rewrite cache_getItem_setItem.
    destruct (String.eqb_spec key k); [ congruence | reflexivity ]. }
  split.
  { intros w2 Hfresh. unfold outcome. rewrite getCachedAPIResponse_run.
    rewrite cache_getItem_setItem, String.eqb_refl. cbn [fst cache_timestamp cache_expiry cache_data].
    destruct (Z.ltb_spec (clock w2 (ticks w2) - clock w (ticks w)) (minutes * 60 * 1000));
      [ reflexivity | lia ]. }
  split.
  { intros w2 Hold. eexists. split; [ | split ].
    - unfold outcome. rewrite getCachedAPIResponse_run.
      rewrite cache_getItem_setItem, String.eqb_refl.
      cbn [fst cache_timestamp cache_expiry cache_data].
      destruct (Z.ltb_spec (clock w2 (ticks w2) - clock w (ticks w)) (minutes * 60 * 1000));
        [ lia | reflexivity ].
    - intros w3. rewrite getCachedAPIResponse_run.
      now rewrite cache_getItem_removeItem, String.eqb_refl.
    - intros k Hne. rewrite cache_getItem_removeItem, cache_getItem_setItem.
      destruct (String.eqb_spec key k); [ congruence | reflexivity ]. }
  intros Hnone w2. rewrite getCachedAPIResponse_run. now rewrite Hnone.
Qed.

Lemma api_cache_expiry_witness :
  exists cache1 : ApiCache,
    outcome (cacheAPIResponse "search_pasta_{}" [soup] (Some 30%Z) []) ticking_world =
      Ret cache1 /\
    outcome (getCachedAPIResponse "search_pasta_{}" cache1) ticking_world =
      Ret (Some [soup], cache1) /\
    getCachedAPIResponse "search_soup_{}" [] ticking_world = (Ret (None, []), ticking_world).
Proof.
  destruct (api_cache_expiry ticking_world "search_pasta_{}" [soup] 30 [])
    as (cache1 & Hrun & _ & Hfresh & _ & _).
  destruct (api_cache_expiry ticking_world "search_soup_{}" [soup] 30 [])
    as (_ & _ & _ & _ & _ & Hmiss).
  exists cache1. split; [ | split ].
  - unfold outcome. cbv zeta in Hrun. now rewrite Hrun.
  - apply Hfresh. vm_compute. reflexivity.
  - apply Hmiss. reflexivity.
Defined.

Lemma searchRecipesWithCache_hit (w : World) (query filtersJson : string)
      (results : list Recipe) (cache : ApiCache) (e : CacheEntry) :
  cache_getItem ("search_" ++ query ++ "_" ++ filtersJson)%string cache = Some e ->
  (clock w (ticks w) - cache_timestamp e < cache_expiry e)%Z ->
  outcome (searchRecipesWithCache query filtersJson results cache) w =
    Ret (cache_data e, cache).
Proof.
  intros Hget Hfresh. unfold outcome, searchRecipesWithCache, bind at 1.
  rewrite getCachedAPIResponse_run, Hget.
  destruct (Z.ltb_spec (clock w (ticks w) - cache_timestamp e) (cache_expiry e));
    [ reflexivity | lia ].
Qed.

(** X21. [searchRecipesWithCache] answers from the cache, whatever the
    network would return, when a fresh entry exists for the query and
    filters. Without a fresh entry, that is with no entry at all or with
    one that has expired, it returns the network results, and an expired
    entry is deleted. An empty result is not cached; a non-empty one is
    cached for 30 minutes from the clock reading taken when it is stored
    (the first reading of the call when there was no entry, the second
    when an expired one was looked at first), so that the same search
    within these 30 minutes is answered with the same recipes even if the
    network would now return something else. *)
Theorem searchRecipesWithCache_serves_cache :
  forall (w : World) (query filtersJson : string) (results : list Recipe) (cache : ApiCache),
    let cacheKey := ("search_" ++ query ++ "_" ++ filtersJson)%string in
    let w1 := mkWorld (localStorage w) (clock w) (S (ticks w)) (builtin_writes w) in
    let w2 := mkWorld (localStorage w) (clock w) (S (S (ticks w))) (builtin_writes w) in
    (forall e : CacheEntry,
        cache_getItem cacheKey cache = Some e ->
        (clock w (ticks w) - cache_timestamp e < cache_expiry e)%Z ->
        outcome (searchRecipesWithCache query filtersJson results cache) w =
          Ret (cache_data e, cache))
    /\
    (cache_getItem cacheKey cache = None ->
     results = [] ->
     searchRecipesWithCache query filtersJson results cache w = (Ret ([], cache), w))
    /\
    (cache_getItem cacheKey cache = None ->
     results <> [] ->
     exists cache1 : ApiCache,
       searchRecipesWithCache query filtersJson results cache w = (Ret (results, cache1), w1) /\
       cache_getItem cacheKey cache1 =
         Some (mkCacheEntry results (clock w (ticks w)) 1800000) /\
       forall (later_world : World) (later : list Recipe),
         (clock later_world (ticks later_world) < clock w (ticks w) + 1800000)%Z ->
         outcome (searchRecipesWithCache query filtersJson later cache1) later_world =
           Ret (results, cache1))
    /\
    (forall e : CacheEntry,
        cache_getItem cacheKey cache = Some e ->
        (cache_expiry e <= clock w (ticks w) - cache_timestamp e)%Z ->
        results = [] ->
        searchRecipesWithCache query filtersJson results cache w =
          (Ret ([], cache_removeItem cacheKey cache), w1) /\
        cache_getItem cacheKey (cache_removeItem cacheKey cache) = None)
    /\
    (forall e : CacheEntry,
        cache_getItem cacheKey cache = Some e ->
        (cache_expiry e <= clock w (ticks w) - cache_timestamp e)%Z ->
        results <> [] ->
        exists cache1 : ApiCache,
          searchRecipesWithCache query filtersJson results cache w =
            (Ret (results, cache1), w2) /\
          cache_getItem cacheKey cache1 =
            Some (mkCacheEntry results (clock w (S (ticks w))) 1800000) /\
          forall (later_world : World) (later : list Recipe),
            (clock later_world (ticks later_world) < clock w (S (ticks w)) + 1800000)%Z ->
            outcome (searchRecipesWithCache query filtersJson later cache1) later_world =
              Ret (results, cache1)).
Proof.
  intros w query filtersJson results cache cacheKey w1 w2. subst cacheKey w1 w2.
  split; [ intros e; apply searchRecipesWithCache_hit | ].
  split.
  { intros Hnone ->. unfold searchRecipesWithCache, bind at 1.
    rewrite getCachedAPIResponse_run, Hnone. reflexivity. }
  split.
  { intros Hnone Hne. eexists. split; [ | split ].
    - unfold searchRecipesWithCache, bind at 1.
      rewrite getCachedAPIResponse_run, Hnone. cbn [fst snd].
      destruct results as [ | r results ]; [ congruence | ].
      cbn [List.length Nat.ltb Nat.leb]. unfold bind at 1.
      rewrite cacheAPIResponse_run. reflexivity.
    - rewrite cache_getItem_setItem, String.eqb_refl. reflexivity.
    - intros later_world later Hfresh.
      rewrite (searchRecipesWithCache_hit later_world query filtersJson later _
                 (mkCacheEntry results (clock w (ticks w)) (30 * 60 * 1000)%Z)).
      + reflexivity.
      + rewrite cache_getItem_setItem, String.eqb_refl. reflexivity.
      + cbn [cache_timestamp cache_expiry]. lia. }
  split.
  { intros e Hget Hold ->. split.
    - unfold searchRecipesWithCache, bind at 1.
      rewrite getCachedAPIResponse_run, Hget.
      destruct (Z.ltb_spec (clock w (ticks w) - cache_timestamp e) (cache_expiry e));
        [ lia | reflexivity ].
    - rewrite cache_getItem_removeItem, String.eqb_refl. reflexivity. }
  intros e Hget Hold Hne. eexists. split; [ | split ].
  - unfold searchRecipesWithCache, bind at 1.
    rewrite getCachedAPIResponse_run, Hget.
    destruct (Z.ltb_spec (clock w (ticks w) - cache_timestamp e) (cache_expiry e));
      [ lia | ].
    cbn [fst snd].
    destruct results as [ | r results ]; [ congruence | ].
    cbn [List.length Nat.ltb Nat.leb]. unfold bind at 1.
    rewrite cacheAPIResponse_run. reflexivity.
  - rewrite cache_getItem_setItem, String.eqb_refl. reflexivity.
  - intros later_world later Hfresh.
    rewrite (searchRecipesWithCache_hit later_world query filtersJson later _
               (mkCacheEntry results (clock w (S (ticks w))) (30 * 60 * 1000)%Z)).
    + reflexivity.
    + rewrite cache_getItem_setItem, String.eqb_refl. reflexivity.
    + cbn [cache_timestamp cache_expiry clock ticks]. lia.
Qed.

Lemma searchRecipesWithCache_serves_cache_witness :
  (exists cache1 : ApiCache,
     outcome (searchRecipesWithCache "pasta" "{}" [soup] []) ticking_world =
       Ret ([soup], cache1) /\
     outcome (searchRecipesWithCache "pasta" "{}" [salad] cache1) ticking_world =
       Ret ([soup], cache1)) /\
  (exists cache1 : ApiCache,
     outcome (searchRecipesWithCache "pasta" "{}" [salad]
                [("search_pasta_{}", mkCacheEntry [soup] (sample_time - 1800000) 1800000)])
             ticking_world =
       Ret ([salad], cache1) /\
     cache_getItem "search_pasta_{}" cache1 =
       Some (mkCacheEntry [salad] (sample_time + 1) 1800000)).
Proof.
  split.
  - destruct (searchRecipesWithCache_serves_cache ticking_world "pasta" "{}" [soup] [])
      as (_ & _ & Hstore & _).
    destruct (Hstore eq_refl) as (cache1 & Hrun & _ & Hlater); [ discriminate | ].
    exists cache1. split.
    + unfold outcome. now rewrite Hrun.
    + apply Hlater. vm_compute. reflexivity.
  - destruct (searchRecipesWithCache_serves_cache ticking_world "pasta" "{}" [salad]
                [("search_pasta_{}", mkCacheEntry [soup] (sample_time - 1800000) 1800000)])
      as (_ & _ & _ & _ & Hexpired).
    destruct (Hexpired (mkCacheEntry [soup] (sample_time - 1800000) 1800000))
      as (cache1 & Hrun & Hentry & _).
    + reflexivity.
    + vm_compute. discriminate.
    + discriminate.
    + exists cache1. split; [ | exact Hentry ].
      unfold outcome. now rewrite Hrun.
Defined.

(** ** Adding the ingredients of a recipe to the shopping list *)

Lemma add_each_ingredient_throws (ingredient : Ingredient) (rest : list Ingredient)
      (addedCount : nat) (w : World) :
  add_each_ingredient (ingredient :: rest) addedCount w = (Throw TypeError, w).
Proof. reflexivity. Qed.

(** X22. [addIngredientsToShoppingList] calls
    [Storage.categorizeIngredient], which the object assigned to
    [window.Storage] does not list. For a recipe with at least one
    ingredient the call therefore ends in a TypeError at the first
    ingredient; in every case the world, and with it the shopping list,
    is left exactly as it was. A failed fetch or a recipe without an
    ingredient list gives the failure toast, an empty ingredient list the
    toast that everything is already in the list. *)
Theorem addIngredientsToShoppingList_adds_nothing :
  forall (w : World) (fetched : option Recipe),
    exec (addIngredientsToShoppingList fetched) w = w
    /\ ~ In "categorizeIngredient" Storage_exports
    /\ (forall recipe ingredient rest,
           fetched = Some recipe ->
           extendedIngredients recipe = Some (ingredient :: rest) ->
           outcome (addIngredientsToShoppingList fetched) w = Throw TypeError)
    /\ (forall recipe,
           fetched = Some recipe ->
           extendedIngredients recipe = Some [] ->
           outcome (addIngredientsToShoppingList fetched) w = Ret AllAlreadyInList)
    /\ (fetched = None \/
        (exists recipe, fetched = Some recipe /\ extendedIngredients recipe = None) ->
        outcome (addIngredientsToShoppingList fetched) w = Ret FailedToAdd).
Proof.
  intros w fetched. split; [ | split; [ | split; [ | split ] ] ].
  - unfold exec, addIngredientsToShoppingList.
    destruct fetched as [ recipe | ]; [ | reflexivity ].
    destruct (extendedIngredients recipe) as [ [ | ingredient rest ] | ]; reflexivity.
  - simpl. intros H.
    repeat (destruct H as [ H | H ]; [ discriminate H | ]). exact H.
  - intros recipe ingredient rest -> Hing.
    unfold outcome, addIngredientsToShoppingList. now rewrite Hing.
  - intros recipe -> Hing.
    unfold outcome, addIngredientsToShoppingList. now rewrite Hing.
  - intros [ -> | (recipe & -> & Hing) ].
    + reflexivity.
    + unfold outcome, addIngredientsToShoppingList. now rewrite Hing.
Qed.

Lemma addIngredientsToShoppingList_adds_nothing_witness :
  outcome (addIngredientsToShoppingList (Some bruschetta)) fresh_world = Throw TypeError /\
  stored_shopping_list (exec (addIngredientsToShoppingList (Some bruschetta)) fresh_world) = [].
Proof.
  destruct (addIngredientsToShoppingList_adds_nothing fresh_world (Some bruschetta))
    as (Hsame & _ & Hthrows & _).
  split.
  - apply (Hthrows bruschetta tomato_a [basil]); reflexivity.
  - now rewrite Hsame.
Defined.

(** ** The generated shopping list lists every ingredient name *)

Lemma group_by_name_covers (l : list Ingredient) (name : string) :
  In name (map ing_name l) -> In name (map gen_name (group_by_name l)).
Proof.
  funelim (group_by_name l); simp group_by_name; simpl.
  - tauto.
  - intros [ Hhead | Htail ]; [ now left | ].
    destruct (String.eqb_spec (ing_name first) name) as [ Heq | Hne ]; [ now left | ].
    right. match goal with IH : forall n, In n _ -> In n _ |- _ => apply IH end.
    apply in_map_iff in Htail. destruct Htail as (i & Hname & Hin).
    apply in_map_iff. exists i. split; [ exact Hname | ].
    apply filter_In. split; [ exact Hin | ].
    unfold named. rewrite Hname.
    destruct (String.eqb_spec name (ing_name first)); [ congruence | reflexivity ].
Qed.

Lemma group_by_name_unchecked (l : list Ingredient) :
  Forall (fun item => gen_checked item = false) (group_by_name l).
Proof.
  funelim (group_by_name l); simp group_by_name; constructor; auto.
Qed.

Lemma filter_named_other (name other : string) (l : list Ingredient) :
  name <> other ->
  filter (named name) (filter (fun i => negb (named other i)) l) = filter (named name) l.
Proof.
  intros Hne. induction l as [ | x l IH ]; simpl; [ reflexivity | ].
  destruct (named other x) eqn:Hother; simpl.
  - assert (Hname : named name x = false).
    { unfold named in *. apply String.eqb_eq in Hother. apply String.eqb_neq. congruence. }
    rewrite Hname. exact IH.
  - destruct (named name x); [ now rewrite IH | exact IH ].
Qed.

(** A name that occurs once gives an entry that repeats the occurrence:
    nothing is added to its amount. *)
Lemma group_by_name_single (l : list Ingredient) (only : Ingredient) :
  filter (named (ing_name only)) l = [only] ->
  In (mkGeneratedItem (ing_name only)
                      (categorizeIngredient (string_or (ing_aisle only) (ing_name only)))
                      (number_or_0 (ing_amount only))
                      (string_or (ing_unit only) "")
                      false)
     (group_by_name l).
Proof.
  funelim (group_by_name l); simp group_by_name.
  - discriminate.
  - cbn [filter]. unfold named at 1.
    destruct (String.eqb_spec (ing_name first) (ing_name only)) as [ Hsame | Hdiff ].
    + intros [= -> Hrest]. left. unfold entry_of. now rewrite Hrest.
    + intros Honce. right.
      match goal with IH : forall o, _ -> In _ _ |- _ => apply IH end.
      rewrite filter_named_other by congruence. exact Honce.
Qed.

(** X23. The list [generateShoppingListFromMealPlan] returns has an entry
    for a name exactly when some planned meal has an ingredient of that
    name, and no two entries for one name; every entry is unchecked; an
    ingredient whose name occurs once among the planned ingredients gives
    an entry with the amount (0 when it is missing), the unit and the
    category of that occurrence; and the store is not written. *)
Theorem generateShoppingListFromMealPlan_accounts :
  forall w : World,
    exists (meals : list Meal) (items : list GeneratedItem),
      getAllMealsFromPlan w = (Ret meals, w)
      /\ generateShoppingListFromMealPlan w = (Ret items, w)
      /\ (forall name : string,
             In name (map gen_name items) <->
             In name (map ing_name (ingredient_occurrences meals)))
      /\ NoDup (map gen_name items)
      /\ Forall (fun item => gen_checked item = false) items
      /\ (forall only : Ingredient,
             filter (fun i => (ing_name i =? ing_name only)%string)
                    (ingredient_occurrences meals) = [only] ->
             In (mkGeneratedItem
                   (ing_name only)
                   (categorizeIngredient (string_or (ing_aisle only) (ing_name only)))
                   (number_or_0 (ing_amount only))
                   (string_or (ing_unit only) "")
                   false)
                items).
Proof.
  intros w. do 2 eexists.
  split; [ apply getAllMealsFromPlan_run | ].
  split; [ apply generateShoppingListFromMealPlan_run, getAllMealsFromPlan_run | ].
  split; [ intros name; split; [ apply group_by_name_names | apply group_by_name_covers ] | ].
  split; [ apply group_by_name_NoDup | ].
  split; [ apply group_by_name_unchecked | ].
  intros only Honce. now apply group_by_name_single.
Qed.

Lemma generateShoppingListFromMealPlan_accounts_witness :
  exists items : list GeneratedItem,
    generateShoppingListFromMealPlan tomato_world = (Ret items, tomato_world) /\
    In (mkGeneratedItem "fresh basil" "produce" (1 # 2) "bunch" false) items.
Proof.
  destruct (generateShoppingListFromMealPlan_accounts tomato_world)
    as (meals & items & Hmeals & Hrun & _ & _ & _ & Honce).
  exists items. split; [ exact Hrun | ].
  injection Hmeals as <-.
  apply (Honce basil). reflexivity.
Defined.

(** ** Days the plan inherits *)



(** ** Amounts that are not negative *)

Lemma Math_round_nonnegative (x : Q) : (0 <= x)%Q -> (0 <= Math_round x)%Z.
Proof.
  intros Hx. unfold Math_round.
  change 0%Z with (Qfloor 0). apply Qfloor_resp_le.
  apply Qle_trans with x; [ exact Hx | ].
  rewrite <- (Qplus_0_r x) at 1. apply Qplus_le_r. discriminate.
Qed.

Lemma rounded_amount_nonnegative (name : string) (l : list Nutrient) :
  (forall n, In n l -> (0 <= nutrient_amount n)%Q) ->
  (0 <= rounded_amount (find_nutrient name l))%Z.
Proof.
  intros Hl. unfold find_nutrient.
  destruct (find _ l) as [ n | ] eqn:Hfind; simpl; [ | lia ].
  apply find_some in Hfind. apply Math_round_nonnegative, Hl, Hfind.
Qed.

Lemma extractNutritionFromRecipe_nonnegative (recipe : Recipe) :
  amounts_nonnegative recipe ->
  (0 <= calories (extractNutritionFromRecipe recipe))%Z /\
  (0 <= protein (extractNutritionFromRecipe recipe))%Z /\
  (0 <= carbs (extractNutritionFromRecipe recipe))%Z /\
  (0 <= fat (extractNutritionFromRecipe recipe))%Z.
Proof.
  intros Hr. unfold extractNutritionFromRecipe.
  destruct (recipe_nutrition recipe) as [ nutrition | ] eqn:Hn; [ | simpl; lia ].
  destruct (nutrients nutrition) as [ l | ] eqn:Hl; [ | simpl; lia ].
  cbn [calories protein carbs fat].
  repeat split; apply rounded_amount_nonnegative; intros n Hin;
    exact (Hr nutrition l n Hn Hl Hin).
Qed.

Lemma total_nonnegative (field : NutritionValues -> Z) (recipes : list Recipe) :
  (forall r, In r recipes -> (0 <= field (extractNutritionFromRecipe r))%Z) ->
  (0 <= total field recipes)%Z.
Proof.
  unfold total. induction recipes as [ | r recipes IH ]; simpl; intros H.
  - lia.
  - specialize (H r (or_introl eq_refl)) as Hr.
    assert (0 <= fold_right Z.add 0
                   (map (fun r => field (extractNutritionFromRecipe r)) recipes))%Z
      by (apply IH; intros r' Hin; apply H; now right).
    lia.
Qed.

Lemma daily_average_nonnegative (weekly : Z) :
  (0 <= weekly)%Z -> (0 <= daily_average weekly)%Z.
Proof.
  intros Hw. pose proof (daily_average_close weekly). lia.
Qed.

Lemma updateWeeklyChart_run (w : World) :
  updateWeeklyChart true w =
  (Ret (Some (map (fun day_calories : string * Z =>
                     let (day, calories) := day_calories in
                     mkBar day calories
                           (inject_Z calories /
                            inject_Z (Math_max (map (day_total (stored_plan w)) week_days) 2000)
                            * 100))
                  (combine chart_days (map (day_total (stored_plan w)) week_days)))),
   w).
Proof.
  unfold updateWeeklyChart. cbn [negb]. unfold bind at 1.
  rewrite getMealPlan_run. reflexivity.
Qed.

(** X25. When no nutrient of a planned recipe has a negative amount, the
    four daily averages [loadWeekNutrition] reports are not negative, and
    every bar [updateWeeklyChart] draws has a value that is not negative
    and a height between 0 and 100 percent. *)
Theorem nutrition_never_negative :
  forall w : World,
    Forall amounts_nonnegative (week_recipes (stored_plan w)) ->
    exists (avg goals : NutritionValues) (bars : list Bar),
      loadWeekNutrition w = (Ret (avg, goals), w)
      /\ updateWeeklyChart true w = (Ret (Some bars), w)
      /\ (0 <= calories avg)%Z /\ (0 <= protein avg)%Z
      /\ (0 <= carbs avg)%Z /\ (0 <= fat avg)%Z
      /\ forall bar, In bar bars ->
           (0 <= bar_value bar)%Z /\ (0 <= bar_percentage bar <= 100)%Q.
Proof.
  intros w Hall. rewrite Forall_forall in Hall.
  do 3 eexists.
  split; [ apply loadWeekNutrition_run | ].
  split; [ apply updateWeeklyChart_run | ].
  cbn [calories protein carbs fat].
  repeat match goal with
         | |- (0 <= daily_average _)%Z /\ _ =>
             split; [ apply daily_average_nonnegative, total_nonnegative;
                      intros r Hin; apply extractNutritionFromRecipe_nonnegative, Hall, Hin | ]
         end.
  set (dayCalories := map (day_total (stored_plan w)) week_days).
  destruct (Math_max_bounds dayCalories 2000) as (Hfloor & Hmax).
  intros bar Hin. apply in_map_iff in Hin. destruct Hin as ((day & c) & <- & Hin).
  apply in_combine_r in Hin. cbn [bar_value bar_percentage].
  assert (Hc : (0 <= c)%Z).
  { subst dayCalories. apply in_map_iff in Hin. destruct Hin as (dayKey & <- & Hday).
    rewrite day_total_sum. apply total_nonnegative. intros r Hr.
    apply extractNutritionFromRecipe_nonnegative, Hall.
    unfold week_recipes. apply in_flat_map. now exists dayKey. }
  split; [ exact Hc | ]. split.
  - apply percentage_nonnegative; [ lia | exact Hc ].
  - apply percentage_at_most_100; [ lia | now apply Hmax ].
Qed.

Lemma nutrition_never_negative_witness :
  exists (avg goals : NutritionValues) (bars : list Bar),
    loadWeekNutrition monday_world = (Ret (avg, goals), monday_world)
    /\ updateWeeklyChart true monday_world = (Ret (Some bars), monday_world)
    /\ (0 <= calories avg)%Z /\ (0 <= protein avg)%Z
    /\ (0 <= carbs avg)%Z /\ (0 <= fat avg)%Z
    /\ forall bar, In bar bars ->
         (0 <= bar_value bar)%Z /\ (0 <= bar_percentage bar <= 100)%Q.
Proof.
  apply (nutrition_never_negative monday_world).
  repeat constructor;
    intros nutrition l n Hn Hl Hin; injection Hn as <-; injection Hl as <-;
    simpl in Hin; repeat (destruct Hin as [ <- | Hin ]; [ discriminate | ]);
    contradiction.
Defined.

(** ** The preferences form over time *)

Lemma handleResetPreferences_run (w : World) :
  handleResetPreferences true w =
  (Ret tt,
   with_storage
     (setItem USER_PREFERENCES
              (mkUserPreferences [] [] [] 2000 150 250 65 "" (Some (clock w (ticks w))))
              (localStorage w))
     (mkWorld (localStorage w) (clock w) (S (ticks w)) (builtin_writes w))).
Proof. reflexivity. Qed.

Lemma form_action_keeps_goals (action : form_action) (w : World) :
  goals_in_range (stored_preferences w) ->
  goals_in_range (stored_preferences (exec (run_form_action action) w)).
Proof.
  intros Hw. destruct action as [ form | [ | ] ]; simpl run_form_action.
  - now apply handleSavePreferences_validates.
  - unfold exec. rewrite handleResetPreferences_run. cbn [snd].
    destruct w as [ [ f m s u r ] c t b ].
    unfold goals_in_range. simpl. lia.
  - exact Hw.
Qed.

Lemma form_action_other_records (action : form_action) (w : World) :
  let w' := exec (run_form_action action) w in
  favorites (localStorage w') = favorites (localStorage w) /\
  meal_plan (localStorage w') = meal_plan (localStorage w) /\
  shopping_list (localStorage w') = shopping_list (localStorage w) /\
  recent_searches (localStorage w') = recent_searches (localStorage w).
Proof.
  destruct action as [ form | [ | ] ]; simpl run_form_action; cbv zeta; unfold exec.
  - rewrite handleSavePreferences_run. cbv zeta.
    destruct (validatePreferences _); destruct w as [ [ f m s u r ] c t b ];
      repeat split; reflexivity.
  - rewrite handleResetPreferences_run. destruct w as [ [ f m s u r ] c t b ].
    repeat split; reflexivity.
  - repeat split; reflexivity.
Qed.

(** X26. Whatever is submitted through the preferences form and however
    often it is reset, stored goals that are within the accepted ranges
    stay within them, and the favorites, the meal plan, the shopping list
    and the recent searches are never written. A reset that is confirmed
    stores the default goals stamped with the clock; one that is declined
    changes nothing. *)
Theorem preferences_form_keeps_goals_in_range :
  forall (w : World) (actions : list form_action),
    goals_in_range (stored_preferences w) ->
    let w' := after_form_actions actions w in
    goals_in_range (stored_preferences w')
    /\ favorites (localStorage w') = favorites (localStorage w)
    /\ meal_plan (localStorage w') = meal_plan (localStorage w)
    /\ shopping_list (localStorage w') = shopping_list (localStorage w)
    /\ recent_searches (localStorage w') = recent_searches (localStorage w)
    /\ handleResetPreferences false w = (Ret tt, w)
    /\ user_preferences (localStorage (exec (handleResetPreferences true) w)) =
         Some (mkUserPreferences [] [] [] 2000 150 250 65 "" (Some (clock w (ticks w)))).
Proof.
  intros w actions Hw w'. subst w'.
  assert (Hinv : goals_in_range (stored_preferences (after_form_actions actions w))
                 /\ favorites (localStorage (after_form_actions actions w)) =
                      favorites (localStorage w)
                 /\ meal_plan (localStorage (after_form_actions actions w)) =
                      meal_plan (localStorage w)
                 /\ shopping_list (localStorage (after_form_actions actions w)) =
                      shopping_list (localStorage w)
                 /\ recent_searches (localStorage (after_form_actions actions w)) =
                      recent_searches (localStorage w)).
  { revert w Hw. unfold after_form_actions.
    induction actions as [ | action actions IH ]; intros w Hw; simpl.
    - split; [ exact Hw | repeat split ].
    - destruct (IH _ (form_action_keeps_goals action w Hw)) as (Hg & Hf & Hm & Hs & Hr).
      destruct (form_action_other_records action w) as (Hf' & Hm' & Hs' & Hr').
      split; [ exact Hg | ].
      repeat split; etransitivity; eassumption. }
  destruct Hinv as (Hg & Hf & Hm & Hs & Hr).
  split; [ exact Hg | ].
  do 4 (split; [ assumption | ]).
  split; [ reflexivity | ].
  unfold exec. rewrite handleResetPreferences_run.
  destruct w as [ [ f m s u r ] c t b ]. reflexivity.
Qed.

Lemma preferences_form_keeps_goals_in_range_witness :
  goals_in_range
    (stored_preferences
       (after_form_actions
          [ Submit (mkPreferencesForm ["vegan"] [] [] "1800" "90" "200" "60" "30");
            Submit (mkPreferencesForm [] [] [] "800" "" "" "" "");
            Reset false ]
          fresh_world)) /\
  calorieGoal
    (stored_preferences
       (after_form_actions
          [ Submit (mkPreferencesForm ["vegan"] [] [] "1800" "90" "200" "60" "30");
            Submit (mkPreferencesForm [] [] [] "800" "" "" "" "");
            Reset false ]
          fresh_world)) = 1800%Z.
Proof.
  split.
  - apply (preferences_form_keeps_goals_in_range fresh_world).
    unfold goals_in_range. simpl. lia.
  - reflexivity.
Defined.

(** ** The save button of the recipe page *)

Lemma toggleFavoriteDetail_run (w : World) (recipe : Recipe) :
  toggleFavoriteDetail recipe w =
  if is_member (recipe_id recipe) (stored_favorites w)
  then (Ret SaveToFavorites,
        with_storage
          (setItem FAVORITES
                   (filter (fun fav => negb (recipe_id fav =? recipe_id recipe)%Z)
                           (stored_favorites w))
                   (localStorage w))
          w)
  else (Ret Saved, after_addToFavorites recipe w).
Proof.
  unfold toggleFavoriteDetail.
  rewrite (bind_run _ _ _ _ _ (isInFavorites_run w (recipe_id recipe))).
  destruct (is_member (recipe_id recipe) (stored_favorites w)) eqn:Hm.
  - now rewrite (bind_run _ _ _ _ _ (removeFromFavorites_run w (recipe_id recipe))).
  - assert (Hrun : addToFavorites recipe w = (Ret true, after_addToFavorites recipe w))
      by (rewrite addToFavorites_cases; now rewrite Hm).
    now rewrite (bind_run _ _ _ _ _ Hrun).
Qed.

Lemma filter_snoc_same_id (recipe stamped : Recipe) (favs : list Recipe) :
  recipe_id stamped = recipe_id recipe ->
  filter (fun fav => negb (recipe_id fav =? recipe_id recipe)%Z) (favs ++ [stamped]) =
  filter (fun fav => negb (recipe_id fav =? recipe_id recipe)%Z) favs.
Proof.
  intros Hid. rewrite filter_app. simpl. rewrite Hid, Z.eqb_refl. simpl.
  apply app_nil_r.
Qed.

(** X27. [toggleFavoriteDetail(recipe)] flips whether the recipe's id is
    a favorite, leaves every other id as it was, and the label it leaves
    on the button says what the store then holds. Pressing the button
    twice on a recipe that was not a favorite restores the stored list;
    on one that was, it does not: the recipe ends up last in the list,
    with the fields of the snapshot passed in and its [addedAt] set to the
    clock reading of the second press. The first press on a recipe that
    was not a favorite appends it in the same way. *)
Theorem toggleFavoriteDetail_twice :
  forall (w : World) (recipe : Recipe),
    let w1 := exec (toggleFavoriteDetail recipe) w in
    let w2 := exec (toggleFavoriteDetail recipe) w1 in
    is_member (recipe_id recipe) (stored_favorites w1) =
      negb (is_member (recipe_id recipe) (stored_favorites w))
    /\ outcome (toggleFavoriteDetail recipe) w =
         Ret (if is_member (recipe_id recipe) (stored_favorites w1)
              then Saved else SaveToFavorites)
    /\ (forall other : Z, other <> recipe_id recipe ->
          is_member other (stored_favorites w1) = is_member other (stored_favorites w))
    /\ (is_member (recipe_id recipe) (stored_favorites w) = false ->
        stored_favorites w1 =
          stored_favorites w
          ++ [mkRecipe (recipe_id recipe) (recipe_title recipe) (recipe_nutrition recipe)
                       (extendedIngredients recipe) (Some (clock w (ticks w)))] /\
        stored_favorites w2 = stored_favorites w)
    /\ (is_member (recipe_id recipe) (stored_favorites w) = true ->
        stored_favorites w2 =
          filter (fun fav => negb (recipe_id fav =? recipe_id recipe)%Z) (stored_favorites w)
          ++ [mkRecipe (recipe_id recipe) (recipe_title recipe) (recipe_nutrition recipe)
                       (extendedIngredients recipe) (Some (clock w (ticks w)))]).
Proof.
  intros w recipe w1 w2.
  assert (Hfirst : is_member (recipe_id recipe) (stored_favorites w1) =
                   negb (is_member (recipe_id recipe) (stored_favorites w))).
  { subst w1. unfold exec. rewrite toggleFavoriteDetail_run.
    destruct (is_member (recipe_id recipe) (stored_favorites w)) eqn:Hm; cbn [snd negb].
    - destruct w as [ [ f m s u r ] c t b ]. apply is_member_filter_same.
    - rewrite stored_after_addToFavorites, is_member_app.
      cbn [is_member existsb with_addedAt recipe_id].
      rewrite Z.eqb_refl. now rewrite orb_true_r. }
  split; [ exact Hfirst | ].
  split.
  { rewrite Hfirst. unfold outcome. rewrite toggleFavoriteDetail_run.
    now destruct (is_member (recipe_id recipe) (stored_favorites w)). }
  split.
  { intros other Hne. subst w1. unfold exec. rewrite toggleFavoriteDetail_run.
    destruct (is_member (recipe_id recipe) (stored_favorites w)) eqn:Hm; cbn [snd].
    - destruct w as [ [ f m s u r ] c t b ]. now apply is_member_filter_other.
    - rewrite stored_after_addToFavorites, is_member_app.
      cbn [is_member existsb with_addedAt recipe_id].
      destruct (Z.eqb_spec (recipe_id recipe) other); [ congruence | ].
      now rewrite !orb_false_r. }
  split.
  - intros Hm. split.
    { subst w1. unfold exec. rewrite toggleFavoriteDetail_run, Hm. reflexivity. }
    subst w2. unfold exec at 1. rewrite toggleFavoriteDetail_run.
    rewrite Hfirst, Hm. cbn [negb snd].
    subst w1. unfold exec. rewrite toggleFavoriteDetail_run, Hm. cbn [snd].
    transitivity (filter (fun fav => negb (recipe_id fav =? recipe_id recipe)%Z)
                         (stored_favorites (after_addToFavorites recipe w))).
    { destruct w as [ [ f m s u r ] c t b ]. reflexivity. }
    rewrite stored_after_addToFavorites.
    rewrite filter_snoc_same_id by reflexivity.
    apply filter_absent_id. intros Hin. apply is_member_In in Hin. congruence.
  - intros Hm. subst w2. unfold exec at 1. rewrite toggleFavoriteDetail_run.
    rewrite Hfirst, Hm. cbn [negb snd].
    subst w1. unfold exec. rewrite toggleFavoriteDetail_run, Hm. cbn [snd].
    destruct w as [ [ f m s u r ] c t b ]. reflexivity.
Qed.

Lemma toggleFavoriteDetail_twice_witness :
  stored_favorites (exec (toggleFavoriteDetail soup) fresh_world) =
    [ mkRecipe 715538 "Soup" None None (Some sample_time) ] /\
  stored_favorites
    (exec (toggleFavoriteDetail soup) (exec (toggleFavoriteDetail soup) fresh_world)) = [] /\
  stored_favorites
    (exec (toggleFavoriteDetail soup ;;; toggleFavoriteDetail soup)
          (exec (addToFavorites soup ;;; addToFavorites salad) ticking_world)) =
    [ mkRecipe 716429 "Salad" None None (Some (sample_time + 1)%Z);
      mkRecipe 715538 "Soup" None None (Some (sample_time + 2)%Z) ].
Proof.
  destruct (toggleFavoriteDetail_twice fresh_world soup) as (_ & _ & _ & Hback & _).
  destruct (Hback eq_refl) as (Hfirst & Hsecond).
  split; [ exact Hfirst | split ].
  - exact Hsecond.
  - reflexivity.
Defined.
